(** * SteamGamingAnalysis: a shallow embedding of the ETL and session-synthesis code

    The development follows the layout of the repository:
    - [Utils]             src/utils.py
    - [SimpleEtl]         src/simple_etl.py
    - [GenerateSessions]  src/etl/generate_sessions.py
    - [SimulateSessions]  src/simulate_sessions.py
    - [Pipeline]          src/etl/pipeline.py
    - [LoadGameData], [GenerateSessionsMain]
                          the loading step, [generate_sessions] and the
                          script of src/etl/generate_sessions.py
    - [DailyFiles], [PipelineRun]
                          the date of a daily file and [run_etl] of
                          src/etl/pipeline.py
    with [PyStr], [PyNum], [DateTime], [Regex] and [Sqlite] for the parts
    of Python, pandas, re and sqlite3 the code calls.

    Conventions of the embedding.
    - Python [str] values are Rocq strings read as sequences of ASCII code
      points; [str.isspace] and the regex class [\s] are the ASCII
      whitespace set of CPython (9-13, 28-31 and 32).
    - Python [int] is [Z]; Python and NumPy floats are exact rationals [Q]
      (every finite float is a rational; rounding of arithmetic results to
      binary64 is not modelled).
    - Exceptions are explicit: fallible functions return [result].
    - A CSV file enters as the frame [read_csv] made of it: its columns
      from left to right, each a header and the cells in the spelling
      [astype(str)] gives them. *)

From Stdlib Require Import ZArith QArith Qcanon Qround Qminmax Qabs Lia Lqa List Ascii String.
From stdpp Require Import base option list strings pretty gmap sorting.

Local Open Scope string_scope.
Local Open Scope Z_scope.

(* ===================================================================== *)
(** * Python string primitives                                            *)
(* ===================================================================== *)

Module PyStr.

(** [str.isspace] on one ASCII character; the same class is what the
    regex escape [\s] matches. *)
Definition isspace (c : ascii) : bool :=
  let n := N_of_ascii c in
  (((9 <=? n) && (n <=? 13)) || ((28 <=? n) && (n <=? 32)))%N.

Definition isupper (c : ascii) : bool :=
  let n := N_of_ascii c in ((65 <=? n) && (n <=? 90))%N.

Definition isdigit (c : ascii) : bool :=
  let n := N_of_ascii c in ((48 <=? n) && (n <=? 57))%N.

(** The double quote character, code 34. *)
Definition dquote : ascii := ascii_of_N 34.

Definition lower_char (c : ascii) : ascii :=
  if isupper c then ascii_of_N (N_of_ascii c + 32) else c.

(** [s.lower()] *)
Fixpoint lower (s : string) : string :=
  match s with
  | EmptyString => EmptyString
  | String c s' => String (lower_char c) (lower s')
  end.

(** [s.replace(ch, '')] for a one-character pattern [ch]. *)
Fixpoint remove (ch : ascii) (s : string) : string :=
  match s with
  | EmptyString => EmptyString
  | String c s' =>
      if Ascii.eqb c ch then remove ch s' else String c (remove ch s')
  end.

(** [re.sub('[^...]', '', s)]: keep the characters of a class. *)
Fixpoint keep (cls : ascii -> bool) (s : string) : string :=
  match s with
  | EmptyString => EmptyString
  | String c s' => if cls c then String c (keep cls s') else keep cls s'
  end.

Fixpoint lstrip (s : string) : string :=
  match s with
  | EmptyString => EmptyString
  | String c s' => if isspace c then lstrip s' else s
  end.

Fixpoint rstrip (s : string) : string :=
  match s with
  | EmptyString => EmptyString
  | String c s' =>
      match rstrip s' with
      | EmptyString => if isspace c then EmptyString else String c EmptyString
      | r => String c r
      end
  end.

(** [s.strip()] *)
Definition strip (s : string) : string := lstrip (rstrip s).

Definition starts_in (cls : ascii -> bool) (s : string) : bool :=
  match s with
  | EmptyString => false
  | String c _ => cls c
  end.

(** [re.sub('[cls]+', '_', s)]: every maximal run of characters of the
    class is replaced by one underscore (the underscore is emitted when
    the run ends). *)
Fixpoint sub_runs (cls : ascii -> bool) (s : string) : string :=
  match s with
  | EmptyString => EmptyString
  | String c s' =>
      if cls c then
        if starts_in cls s' then sub_runs cls s'
        else String "_" (sub_runs cls s')
      else String c (sub_runs cls s')
  end.

(** ['x' in s] *)
Fixpoint contains (ch : ascii) (s : string) : bool :=
  match s with
  | EmptyString => false
  | String c s' => Ascii.eqb c ch || contains ch s'
  end.

(** Every character of [s] satisfies [p]. *)
Fixpoint all (p : ascii -> bool) (s : string) : bool :=
  match s with
  | EmptyString => true
  | String c s' => p c && all p s'
  end.

End PyStr.

(* ===================================================================== *)
(** * Python values and the numeric constructors [int] and [float]        *)
(* ===================================================================== *)

Module PyNum.

(** A Python float: finite (as the exact rational it denotes), an
    infinity, or a NaN. *)
Inductive pyfloat :=
| FFinite (q : Q)
| FInf (negative : bool)
| FNan.

(** The values a DataFrame cell can hold when it reaches the cleaners. *)
Inductive pyval :=
| VInt (n : Z)
| VBool (b : bool)
| VFloat (x : pyfloat)
| VStr (s : string)
| VNone
| VNA.                      (* pd.NA, the missing sentinel *)

Definition digit_val (c : ascii) : Z := Z.of_N (N_of_ascii c) - 48.

(** The longest prefix of the form [digit (_? digit)*]: its digits and
    the unread rest.  An underscore is read only between two digits. *)
Fixpoint read_digits (after_digit : bool) (s : string) : list Z * string :=
  match s with
  | EmptyString => ([], EmptyString)
  | String c s' =>
      if PyStr.isdigit c then
        let '(ds, r) := read_digits true s' in (digit_val c :: ds, r)
      else if after_digit && Ascii.eqb c "_" && PyStr.starts_in PyStr.isdigit s'
      then read_digits false s'
      else ([], s)
  end.

Definition digits_value (ds : list Z) : Z :=
  fold_left (fun acc d => 10 * acc + d) ds 0.

(** An optional sign: [true] for a minus. *)
Definition read_sign (s : string) : bool * string :=
  match s with
  | String "-" s' => (true, s')
  | String "+" s' => (false, s')
  | _ => (false, s)
  end.

Definition apply_sign (neg : bool) (n : Z) : Z := if neg then - n else n.

(** [int(s)] for a [str] argument, base 10: surrounding whitespace is
    ignored, then an optional sign and a non-empty digit part; [None]
    stands for [ValueError]. *)
Definition py_int (s : string) : option Z :=
  let '(neg, s1) := read_sign (PyStr.strip s) in
  match read_digits false s1 with
  | ((_ :: _) as ds, EmptyString) => Some (apply_sign neg (digits_value ds))
  | _ => None
  end.

Definition is_exp_mark (c : ascii) : bool := Ascii.eqb c "e" || Ascii.eqb c "E".

(** The optional exponent part [(e|E) sign? digitpart]: the exponent and
    the unread rest, [None] when the mark is not followed by digits. *)
Definition read_exponent (s : string) : option (Z * string) :=
  match s with
  | String c s' =>
      if is_exp_mark c then
        let '(neg, s1) := read_sign s' in
        match read_digits false s1 with
        | ((_ :: _) as ds, r) => Some (apply_sign neg (digits_value ds), r)
        | _ => None
        end
      else Some (0%Z, s)
  | EmptyString => Some (0%Z, s)
  end.

(** The decimal literal [sign intpart [. fracpart] [exponent]] with at
    least one digit in the mantissa. *)
Definition read_decimal (neg : bool) (s : string) : option pyfloat :=
  let '(ip, r1) := read_digits false s in
  let '(fp, r2) :=
    match r1 with
    | String "." r => read_digits false r
    | _ => ([], r1)
    end in
  match (ip ++ fp)%list with
  | [] => None
  | ds =>
      match read_exponent r2 with
      | Some (e, EmptyString) =>
          let m := apply_sign neg (digits_value ds) in
          Some (FFinite (Qred (inject_Z m * Qpower (10 # 1) (e - Z.of_nat (length fp)))))
      | _ => None
      end
  end.

(** [float(s)] for a [str] argument; [None] stands for [ValueError]. *)
Definition py_float (s : string) : option pyfloat :=
  let '(neg, s1) := read_sign (PyStr.strip s) in
  let w := PyStr.lower s1 in
  if String.eqb w "inf" || String.eqb w "infinity" then Some (FInf neg)
  else if String.eqb w "nan" then Some FNan
  else read_decimal neg s1.

End PyNum.

(* ===================================================================== *)
(** * src/utils.py                                                        *)
(* ===================================================================== *)

Module Utils.

(** [clean_column_name]:
<<
    name = name.replace(QUOTE, '').strip()
    name = re.sub(r'\s+', '_', name)
    return name.lower()
>> *)
Definition clean_column_name (name : string) : string :=
  let name := PyStr.strip (PyStr.remove PyStr.dquote name) in
  let name := PyStr.sub_runs PyStr.isspace name in
  PyStr.lower name.

Import PyNum.

(** [clean_numeric_string]:
<<
    if isinstance(value, (int, float)): return value
    if isinstance(value, str):
        cleaned_value = value.replace(QUOTE, '').replace(',', '')
        try:
            if '.' in cleaned_value: return float(cleaned_value)
            else: return int(cleaned_value)
        except ValueError: return pd.NA
    return pd.NA
>> *)
Definition clean_numeric_string (value : pyval) : pyval :=
  match value with
  | VInt _ | VBool _ | VFloat _ => value
  | VStr s =>
      let cleaned_value := PyStr.remove "," (PyStr.remove PyStr.dquote s) in
      if PyStr.contains "." cleaned_value then
        match py_float cleaned_value with
        | Some x => VFloat x
        | None => VNA
        end
      else
        match py_int cleaned_value with
        | Some n => VInt n
        | None => VNA
        end
  | VNone | VNA => VNA
  end.

End Utils.

(* ===================================================================== *)
(** * src/simple_etl.py                                                   *)
(* ===================================================================== *)

Module SimpleEtl.

Import PyNum.

(** [clean_numeric]: the inlined twin of [Utils.clean_numeric_string]. *)
Definition clean_numeric (value : pyval) : pyval :=
  match value with
  | VInt _ | VBool _ | VFloat _ => value
  | VStr s =>
      let value := PyStr.remove "," (PyStr.remove PyStr.dquote s) in
      match (if PyStr.contains "." value then VFloat <$> py_float value
             else VInt <$> py_int value) with
      | Some v => v
      | None => VNA
      end
  | VNone | VNA => VNA
  end.

(** [clean_column]: the inlined twin of [Utils.clean_column_name]. *)
Definition clean_column (name : string) : string :=
  let name := PyStr.strip (PyStr.remove PyStr.dquote name) in
  let name := PyStr.sub_runs PyStr.isspace name in
  PyStr.lower name.

End SimpleEtl.

(* ===================================================================== *)
(** * Exceptions, dates and the random streams                            *)
(* ===================================================================== *)

Inductive exn := ZeroDivisionError | ValueError | DatabaseError.

Inductive result (A : Type) :=
| Ok (a : A)
| Raise (e : exn).
Arguments Ok {A} a.
Arguments Raise {A} e.

#[global] Instance result_ret : MRet result := @Ok.
#[global] Instance result_bind : MBind result := fun A B k m =>
  match m with
  | Ok a => k a
  | Raise e => Raise e
  end.

(** [int(x)] on a float: truncation toward zero. *)
Definition py_trunc (x : Q) : Z := Z.quot (Qnum x) (Zpos (Qden x)).

(** [round(x)] as NumPy and pandas do it: to the nearest integer, a tie
    going to the even neighbour. *)
Definition py_round (x : Q) : Z :=
  let f := Qfloor x in
  match (x - inject_Z f ?= 1 # 2)%Q with
  | Lt => f
  | Gt => f + 1
  | Eq => if Z.even f then f else f + 1
  end.

(** [a % b] on integers. *)
Definition py_mod (a b : Z) : result Z :=
  if b =? 0 then Raise ZeroDivisionError else Ok (a mod b).

Module DateTime.

(** A naive [datetime]: the proleptic Gregorian ordinal of its date
    ([date.toordinal()]) and its time of day. *)
Record datetime := {
  ordinal : Z;
  hour : Z;
  minute : Z;
  second : Z;
  microsecond : Z;
}.

(** [datetime.combine(d, datetime.min.time())] *)
Definition midnight (d : Z) : datetime :=
  {| ordinal := d; hour := 0; minute := 0; second := 0; microsecond := 0 |}.

Definition second_of_day (t : datetime) : Z :=
  hour t * 3600 + minute t * 60 + second t.

(** [t + timedelta(seconds=s)], normalised as Python does. *)
Definition add_seconds (t : datetime) (s : Z) : datetime :=
  let tot := second_of_day t + s in
  {| ordinal := ordinal t + tot / 86400;
     hour := (tot mod 86400) / 3600;
     minute := (tot mod 3600) / 60;
     second := tot mod 60;
     microsecond := microsecond t |}.

Definition add_days (t : datetime) (d : Z) : datetime :=
  add_seconds t (d * 86400).

Definition add_minutes (t : datetime) (m : Z) : datetime :=
  add_seconds t (m * 60).

(** [t + timedelta(hours=h, minutes=m, seconds=s)] *)
Definition add_hms (t : datetime) (h m s : Z) : datetime :=
  add_seconds t (h * 3600 + m * 60 + s).

(** [t.replace(hour=h, minute=m)] *)
Definition replace_hm (t : datetime) (h m : Z) : datetime :=
  {| ordinal := ordinal t; hour := h; minute := m;
     second := second t; microsecond := microsecond t |}.

(** [t.weekday()]: Monday is 0; ordinal 1 is a Monday. *)
Definition weekday (t : datetime) : Z := (ordinal t + 6) mod 7.

(** [t.strftime('%A')] *)
Definition day_name (t : datetime) : string :=
  match weekday t with
  | 0 => "Monday" | 1 => "Tuesday" | 2 => "Wednesday" | 3 => "Thursday"
  | 4 => "Friday" | 5 => "Saturday" | _ => "Sunday"
  end.

(** Microseconds since the start of ordinal 0. *)
Definition to_microseconds (t : datetime) : Z :=
  (ordinal t * 86400 + second_of_day t) * 1000000 + microsecond t.

(** [(b - a).total_seconds()] *)
Definition total_seconds (a b : datetime) : Q :=
  (to_microseconds b - to_microseconds a) # 1000000.

End DateTime.

(** The global NumPy stream ([np.random]).  A draw takes the state of the
    stream and returns the value with the next state.  [np_choice] and
    [np_choice_p] return [None] where NumPy raises [ValueError]. *)
Class NumpyRandom := {
  np_state : Type;
  np_seed : Z -> np_state;
  np_choice : forall {A : Type}, np_state -> list A -> option A * np_state;
  np_choice_p : forall {A : Type}, np_state -> list A -> list Q -> option A * np_state;
  np_randint : np_state -> Z -> Z -> option Z * np_state;
  np_triangular : np_state -> Q -> Q -> Q -> Q * np_state;
  np_normal : np_state -> Q -> Q -> Q * np_state;
  np_lognormal : np_state -> Q -> Q -> Q * np_state;
  (* what is drawn *)
  np_choice_elem : forall A g (l : list A) x, (np_choice g l).1 = Some x -> x ∈ l;
  np_choice_some : forall A g (l : list A), l <> [] -> is_Some (np_choice g l).1;
  np_choice_nil : forall A g, (np_choice g (@nil A)).1 = None;
  np_choice_p_elem : forall A g (l : list A) p x, (np_choice_p g l p).1 = Some x -> x ∈ l;
  np_randint_range : forall g lo hi x, (np_randint g lo hi).1 = Some x -> lo <= x < hi;
  np_randint_some : forall g lo hi, lo < hi -> is_Some (np_randint g lo hi).1;
  np_randint_none : forall g lo hi, hi <= lo -> (np_randint g lo hi).1 = None;
}.

(** The global stream of Python's [random] module. *)
Class PyRandom := {
  py_state : Type;
  py_uniform : py_state -> Q -> Q -> Q * py_state;
  py_gauss : py_state -> Q -> Q -> Q * py_state;
  py_randint : py_state -> Z -> Z -> option Z * py_state;
  py_uniform_range : forall g a b,
    (Qmin a b <= (py_uniform g a b).1 <= Qmax a b)%Q;
  py_randint_range : forall g a b x, (py_randint g a b).1 = Some x -> a <= x <= b;
  py_randint_some : forall g a b, a <= b -> is_Some (py_randint g a b).1;
  py_randint_none : forall g a b, b < a -> (py_randint g a b).1 = None;
}.

Definition lift_draw {S A} (d : option A * S) : result (A * S) :=
  match d with
  | (Some x, g) => Ok (x, g)
  | (None, _) => Raise ValueError
  end.

(* ===================================================================== *)
(** * src/etl/generate_sessions.py                                        *)
(* ===================================================================== *)

#[local] Instance Qc_eq_decision : EqDecision Qc := Qc_eq_dec.

Module GenerateSessions.

Import PyNum DateTime.

(** ** [_clean_numeric_column]

    One cell of the series, after [astype(str)]:
<<
    .str.replace('[^0-9]', '', regex=True).replace('', '0').astype(int)
>> *)
Definition clean_numeric_cell (cell : string) : option Z :=
  let digits := PyStr.keep PyStr.isdigit cell in
  let digits := if String.eqb digits "" then "0" else digits in
  py_int digits.

Definition _clean_numeric_column (series : list string) : option (list Z) :=
  mapM clean_numeric_cell series.

(** ** The header normaliser of [_load_and_standardize_game_data]
<<
    df.columns.str.strip().str.lower().str.replace(r'[\s\-]+', '_', regex=True)
>> *)
Definition space_or_hyphen (c : ascii) : bool :=
  PyStr.isspace c || Ascii.eqb c "-".

Definition standardize_column (name : string) : string :=
  PyStr.sub_runs space_or_hyphen (PyStr.lower (PyStr.strip name)).

(** ** [_calculate_game_weights]

    A frame is the list of its rows [(name, peak_players)]. *)
Abbreviation frame := (list (string * Z)).

(** [groupby('name')['peak_players']]: per name, the sum of the group and
    its size. *)
Definition add_row (acc : gmap string (Z * Z)) (r : string * Z) : gmap string (Z * Z) :=
  match acc !! r.1 with
  | Some (s, c) => <[r.1 := (s + r.2, c + 1)]> acc
  | None => <[r.1 := (r.2, 1)]> acc
  end.

Definition group_sums (game_df : frame) : gmap string (Z * Z) :=
  foldl add_row ∅ game_df.

(** [.mean()] *)
Definition group_mean (game_df : frame) : gmap string Qc :=
  (fun sc : Z * Z => Q2Qc (sc.1 # Z.to_pos sc.2)) <$> group_sums game_df.

(** The dense rank of [v] among [vals], ascending: one more than the
    number of distinct values strictly below [v]. *)
Definition dense_rank (vals : list Qc) (v : Qc) : Z :=
  1 + Z.of_nat (length (remove_dups (filter (fun w => Qclt w v) vals))).

(** [.rank(method='dense')] on a series indexed by name. *)
Definition rank_dense (series : gmap string Qc) : gmap string Z :=
  dense_rank (map_to_list series).*2 <$> series.

Definition _calculate_game_weights (all_games_data : list frame) : gmap string Z :=
  match all_games_data with
  | [] => ∅
  | _ =>
      let game_df := concat all_games_data in
      rank_dense (group_mean game_df)
  end.

(** ** [_simulate_user_sessions] *)

Record session := {
  user_id : string;
  game_id : string;
  session_start : datetime;       (* rendered with isoformat() *)
  session_end : datetime;         (* rendered with isoformat() *)
  session_duration : Z;
  day_of_week : string;
  hour_of_day : Z;
}.

Fixpoint zeros (n : nat) : string :=
  match n with
  | O => EmptyString
  | S n' => String "0" (zeros n')
  end.

(** [f'USER_{i:04d}'] *)
Definition format_user (i : Z) : string :=
  let d := pretty i in
  "USER_" ++ zeros (4 - String.length d) ++ d.

(** [np.clip(x, lo, hi)] *)
Definition clip (x lo hi : Q) : Q := Qmin (Qmax x lo) hi.

Section Simulation.
Context {R : NumpyRandom}.

Variables (games : list string) (probabilities : list Q)
          (user_ids : list string) (simulation_days : Z)
          (start_date : datetime) (target_session_count : Z).

(** The body of the loop for one value of [i]. *)
Definition simulate_one (i : Z) (g : np_state) : result (session * np_state) :=
  _ ← py_mod (i + 1) (target_session_count / 10);
  '(user, g) ← lift_draw (np_choice g user_ids);
  '(game, g) ← lift_draw (np_choice_p g games probabilities);
  '(day_offset, g) ← lift_draw (np_randint g 0 simulation_days);
  let current_date := add_days start_date day_offset in
  let is_weekend := 5 <=? weekday current_date in
  let '(base_hour, g) :=
    if is_weekend then np_triangular g 12 20 23
    else np_normal g 19 3 in
  let hour := py_trunc (clip base_hour 0 23) in
  '(minute, g) ← lift_draw (np_randint g 0 59);
  let session_start := replace_hm current_date hour minute in
  let '(duration, g) := np_lognormal g (38 # 10) 1 in
  let duration := Z.max 15 (Z.min 600 (py_trunc duration)) in
  let session_end := add_minutes session_start duration in
  mret ({| user_id := user;
           game_id := game;
           session_start := session_start;
           session_end := session_end;
           session_duration := duration;
           day_of_week := day_name session_start;
           hour_of_day := hour |}, g).

(** [for i in range(...)]: the sessions are appended in order. *)
Fixpoint simulate_loop (indices : list Z) (g : np_state) (sessions : list session)
  : result (list session * np_state) :=
  match indices with
  | [] => Ok (sessions, g)
  | i :: rest =>
      '(s, g') ← simulate_one i g;
      simulate_loop rest g' (sessions ++ [s])
  end.

End Simulation.

(** [game_weights] is the dictionary in its iteration order.  The first
    argument is the state of the global stream when the call is made. *)
Definition _simulate_user_sessions {R : NumpyRandom} (ambient : np_state)
    (game_weights : list (string * Q)) (num_users simulation_days : Z)
    (start_date : datetime) (target_session_count : Z)
  : result (list session * np_state) :=
  match game_weights with
  | [] => Ok ([], ambient)
  | _ =>
      let games := game_weights.*1 in
      let weights_array := game_weights.*2 in
      let total := foldr Qplus 0%Q weights_array in
      let probabilities := (fun w => w / total)%Q <$> weights_array in
      let user_ids := format_user <$> seqZ 1 num_users in
      let g := np_seed 42 in
      simulate_loop games probabilities user_ids simulation_days start_date
        target_session_count (seqZ 0 target_session_count) g []
  end.

(** ** [clean_sessions]

    A row of the DataFrame; a cell may be missing (None, NaN, NaT). *)
Record row := {
  row_user_id : option string;
  row_game_id : option string;
  row_session_start : option datetime;
  row_session_end : option datetime;
  row_session_duration : option Z;
  row_day_of_week : option string;
  row_hour_of_day : option Z;
}.

(** [pd.DataFrame(sessions)] followed by [pd.to_datetime] on the two
    time columns. *)
Definition row_of_session (s : session) : row :=
  {| row_user_id := Some (user_id s);
     row_game_id := Some (game_id s);
     row_session_start := Some (session_start s);
     row_session_end := Some (session_end s);
     row_session_duration := Some (session_duration s);
     row_day_of_week := Some (day_of_week s);
     row_hour_of_day := Some (hour_of_day s) |}.

(** [((end - start).dt.total_seconds() / 60).round().astype(int)] on one
    row; the cast raises when the difference is NaN. *)
Definition recomputed_duration (r : row) : result Z :=
  match row_session_start r, row_session_end r with
  | Some a, Some b => Ok (py_round (total_seconds a b / 60))
  | _, _ => Raise ValueError
  end.

Definition set_duration (r : row) (d : Z) : row :=
  {| row_user_id := row_user_id r;
     row_game_id := row_game_id r;
     row_session_start := row_session_start r;
     row_session_end := row_session_end r;
     row_session_duration := Some d;
     row_day_of_week := row_day_of_week r;
     row_hour_of_day := row_hour_of_day r |}.

(** The assignment [df['session_duration'] = ...] over the column. *)
Fixpoint assign_durations (rows : list row) : result (list row) :=
  match rows with
  | [] => Ok []
  | r :: rest =>
      d ← recomputed_duration r;
      rest' ← assign_durations rest;
      mret (set_duration r d :: rest')
  end.

Definition positive_duration (r : row) : bool :=
  match row_session_duration r with
  | Some d => 0 <? d
  | None => false
  end.

(** A row that [dropna()] keeps: no cell is missing. *)
Definition notna (r : row) : bool :=
  bool_decide (is_Some (row_user_id r)) && bool_decide (is_Some (row_game_id r))
  && bool_decide (is_Some (row_session_start r))
  && bool_decide (is_Some (row_session_end r))
  && bool_decide (is_Some (row_session_duration r))
  && bool_decide (is_Some (row_day_of_week r))
  && bool_decide (is_Some (row_hour_of_day r)).

(** [df] is [None] for Python's [None]. *)
Definition clean_sessions (df : option (list row)) : result (list row) :=
  match df with
  | None | Some [] => Ok []
  | Some rows =>
      df ← assign_durations rows;
      let df := List.filter positive_duration df in
      let df := List.filter notna df in
      mret df
  end.

End GenerateSessions.

(* ===================================================================== *)
(** * The SQLite store behind [sqlite3] and [DataFrame.to_sql]            *)
(* ===================================================================== *)

(** The database file maps a table name to its rows, each with its
    integer primary key.  A connection works in autocommit until a data
    statement (INSERT) opens a transaction: schema statements executed
    outside a transaction reach the file at once, statements inside one
    stay in the working copy until [commit]; [rollback] and [close] drop
    the working copy. *)
Module Sqlite.

Abbreviation table Rec := (list (Z * Rec)).
Abbreviation database Rec := (gmap string (list (Z * Rec))).

Section Store.
Context {Rec : Type}.

Record connection := {
  committed : database Rec;
  pending : option (database Rec);
}.

Definition connect (file : database Rec) : connection :=
  {| committed := file; pending := None |}.

Definition exec_schema (f : database Rec -> database Rec) (c : connection) : connection :=
  match pending c with
  | Some w => {| committed := committed c; pending := Some (f w) |}
  | None => {| committed := f (committed c); pending := None |}
  end.

Definition current (c : connection) : database Rec :=
  default (committed c) (pending c).

(** [DROP TABLE IF EXISTS name] *)
Definition drop_table_if_exists (name : string) (c : connection) : connection :=
  exec_schema (delete name) c.

(** [CREATE TABLE name (... INTEGER PRIMARY KEY AUTOINCREMENT, ...)];
    it fails when the table exists. *)
Definition create_table (name : string) (c : connection) : result connection :=
  match current c !! name with
  | Some _ => Raise DatabaseError
  | None => Ok (exec_schema (<[name := []]>) c)
  end.

(** The key AUTOINCREMENT gives the next row: one past the largest. *)
Definition next_id (t : table Rec) : Z :=
  1 + foldr Z.max 0 (t.*1).

(** One INSERT: opens a transaction when none is open. *)
Definition insert_row (name : string) (r : Rec) (c : connection) : connection :=
  let w := current c in
  let t := default [] (w !! name) in
  {| committed := committed c;
     pending := Some (<[name := (t ++ [(next_id t, r)])%list]> w) |}.

Definition commit (c : connection) : connection :=
  {| committed := current c; pending := None |}.

Definition rollback (c : connection) : connection :=
  {| committed := committed c; pending := None |}.

(** [conn.close()]: the file is what was committed. *)
Definition close (c : connection) : database Rec := committed c.

(** [df.to_sql(name, conn, if_exists='append', index=False)].
    [fail_at = Some k] makes the insertion of row [k] (from 0) raise.
    [own_transaction] tells whether pandas itself commits after the
    last row and rolls back on an error, or leaves both to the
    caller. *)
Fixpoint insert_rows (name : string) (rows : list Rec) (fail_at : option nat)
    (c : connection) : result unit * connection :=
  match rows with
  | [] => (Ok (), c)
  | r :: rest =>
      match fail_at with
      | Some O => (Raise DatabaseError, c)
      | _ => insert_rows name rest (pred <$> fail_at) (insert_row name r c)
      end
  end.

Definition to_sql (own_transaction : bool) (name : string) (rows : list Rec)
    (fail_at : option nat) (c : connection) : result unit * connection :=
  let c := match current c !! name with
           | Some _ => c
           | None => exec_schema (<[name := []]>) c
           end in
  match insert_rows name rows fail_at c with
  | (Ok _, c) => (Ok (), if own_transaction then commit c else c)
  | (Raise e, c) => (Raise e, if own_transaction then rollback c else c)
  end.

End Store.
Arguments connection : clear implicits.

End Sqlite.

(* ===================================================================== *)
(** * src/simulate_sessions.py                                            *)
(* ===================================================================== *)

(** A row of the cleaned daily table. *)
Record daily_row := {
  game_name : string;
  date : Z;                      (* the ordinal of the calendar date *)
  hours_played : Q;
  peak_players : Z;
}.

Module SimulateSessions.

Import DateTime.

(** The module-level constants read from config.yaml. *)
Record config := {
  AVG_SESSION_DURATION_MIN : Q;
  MAX_SESSIONS_PER_DAY : Z;
  SESSION_DURATION_MIN : Z;
  SESSION_DURATION_MAX : Z;
  SESSION_COUNT_NOISE : Q;
  SESSION_PEAK_HOUR : Q;
  SESSION_PEAK_STDDEV : Q;
}.

Record session_log := {
  user_id : string;
  log_game_name : string;
  session_start : datetime;
  session_end : datetime;
  duration : Z;
}.

Record loop_state {R : PyRandom} := {
  user_counter : Z;
  session_logs : list session_log;
  rng : py_state;
}.

Section Main.
Context {R : PyRandom} (cfg : config).

(** [est_sessions] after the noise is added; [u] is the value drawn by
    [random.uniform(-SESSION_COUNT_NOISE, SESSION_COUNT_NOISE)]. *)
Definition est_sessions (total_hours u : Q) : Q :=
  let total_minutes := (total_hours * 60)%Q in
  let est := (total_minutes / AVG_SESSION_DURATION_MIN cfg)%Q in
  (est + u * est)%Q.

(** [min(max(1, int(est_sessions)), MAX_SESSIONS_PER_DAY)] *)
Definition num_sessions (est : Q) : Z :=
  Z.min (Z.max 1 (py_trunc est)) (MAX_SESSIONS_PER_DAY cfg).

(** The session count of one row: [None] when the row is skipped.  A
    zero average makes the division raise. *)
Definition session_count (row : daily_row) (g : py_state)
  : result (option Z * py_state) :=
  let total_hours := hours_played row in
  if Qle_bool total_hours 0 then Ok (None, g)
  else if Qeq_bool (AVG_SESSION_DURATION_MIN cfg) 0 then Raise ZeroDivisionError
  else
    let '(u, g) := py_uniform g (- SESSION_COUNT_NOISE cfg) (SESSION_COUNT_NOISE cfg) in
    Ok (Some (num_sessions (est_sessions total_hours u)), g).

(** The body of the inner loop. *)
Definition one_session (row : daily_row) (st : loop_state) : result loop_state :=
  let user_counter := user_counter st + 1 in
  let user_id := "user_" ++ pretty user_counter in
  let '(x, g) := py_gauss (rng st) (SESSION_PEAK_HOUR cfg) (SESSION_PEAK_STDDEV cfg) in
  let start_hour := py_trunc x in
  let start_hour := Z.max 0 (Z.min 23 start_hour) in
  '(start_minute, g) ← lift_draw (py_randint g 0 59);
  '(start_second, g) ← lift_draw (py_randint g 0 59);
  let session_start :=
    add_hms (midnight (date row)) start_hour start_minute start_second in
  '(duration, g) ← lift_draw
     (py_randint g (SESSION_DURATION_MIN cfg) (SESSION_DURATION_MAX cfg));
  let session_end := add_minutes session_start duration in
  mret {| user_counter := user_counter;
          session_logs := (session_logs st ++
            [ {| user_id := user_id;
                 log_game_name := game_name row;
                 session_start := session_start;
                 session_end := session_end;
                 duration := duration |} ])%list;
          rng := g |}.

(** [for _ in range(num_sessions)] *)
Fixpoint repeat_sessions (n : nat) (row : daily_row) (st : loop_state)
  : result loop_state :=
  match n with
  | O => Ok st
  | S n' => st' ← one_session row st; repeat_sessions n' row st'
  end.

(** [for _, row in df.iterrows()] *)
Fixpoint rows_loop (df : list daily_row) (st : loop_state) : result loop_state :=
  match df with
  | [] => Ok st
  | row :: rest =>
      '(count, g) ← session_count row (rng st);
      let st := {| user_counter := user_counter st;
                   session_logs := session_logs st; rng := g |} in
      match count with
      | None => rows_loop rest st
      | Some n => st' ← repeat_sessions (Z.to_nat n) row st; rows_loop rest st'
      end
  end.

(** The first half of [main]: the simulated [session_logs]. *)
Definition simulate (g : py_state) (df : list daily_row) : result loop_state :=
  rows_loop df {| user_counter := 0; session_logs := []; rng := g |}.

(** The second half of [main]: the try/except/finally around the
    database; the exception is printed, not raised. *)
Definition save (own_transaction : bool) (fail_at : option nat)
    (sessions_df : list session_log) (file : Sqlite.database session_log)
  : Sqlite.database session_log :=
  let conn := Sqlite.connect file in
  let conn := Sqlite.drop_table_if_exists "session_logs" conn in
  match Sqlite.create_table "session_logs" conn with
  | Raise _ => Sqlite.close conn
  | Ok conn =>
      match Sqlite.to_sql own_transaction "session_logs" sessions_df fail_at conn with
      | (Ok _, conn) => Sqlite.close (Sqlite.commit conn)
      | (Raise _, conn) => Sqlite.close conn
      end
  end.

Definition main (own_transaction : bool) (fail_at : option nat)
    (g : py_state) (df : list daily_row) (file : Sqlite.database session_log)
  : result (Sqlite.database session_log) :=
  st ← simulate g df;
  match session_logs st with
  | [] => Ok file
  | logs => Ok (save own_transaction fail_at logs file)
  end.

End Main.

End SimulateSessions.

(* ===================================================================== *)
(** * src/etl/pipeline.py                                                 *)
(* ===================================================================== *)

Module Pipeline.

Import DateTime PyNum.




Record session_log := {
  user_id : string;
  game_id : string;
  session_start : datetime;
  session_end : datetime;
  duration : Z;
}.

Record loop_state {R : PyRandom} := {
  user_counter : Z;
  session_logs : list session_log;
  rng : py_state;
}.

Section Simulate.
Context {R : PyRandom}.

(** [AVG_SESSION_DURATION_MINUTES] is imported from src.config, which
    is not among the sources: a whole number of minutes, taken as a
    parameter. *)
Variable AVG_SESSION_DURATION_MINUTES : Z.

(** [int(total_minutes / AVG_SESSION_DURATION_MINUTES)], [None] when
    the row is skipped. *)
Definition session_count (row : daily_row) : result (option Z) :=
  let total_hours := hours_played row in
  if Qle_bool total_hours 0 then Ok None
  else
    let total_minutes := (total_hours * 60)%Q in
    if AVG_SESSION_DURATION_MINUTES =? 0 then Raise ZeroDivisionError
    else
      let num_sessions :=
        py_trunc (total_minutes / inject_Z AVG_SESSION_DURATION_MINUTES) in
      if num_sessions <=? 0 then Ok None else Ok (Some num_sessions).

Definition one_session (row : daily_row) (st : loop_state) : result loop_state :=
  let user_counter := user_counter st + 1 in
  let user_id := "user_" ++ pretty user_counter in
  '(start_hour, g) ← lift_draw (py_randint (rng st) 0 23);
  '(start_minute, g) ← lift_draw (py_randint g 0 59);
  '(start_second, g) ← lift_draw (py_randint g 0 59);
  let session_start :=
    add_hms (midnight (date row)) start_hour start_minute start_second in
  let session_end := add_minutes session_start AVG_SESSION_DURATION_MINUTES in
  mret {| user_counter := user_counter;
          session_logs := (session_logs st ++
            [ {| user_id := user_id;
                 game_id := game_name row;
                 session_start := session_start;
                 session_end := session_end;
                 duration := AVG_SESSION_DURATION_MINUTES |} ])%list;
          rng := g |}.

Fixpoint repeat_sessions (n : nat) (row : daily_row) (st : loop_state)
  : result loop_state :=
  match n with
  | O => Ok st
  | S n' => st' ← one_session row st; repeat_sessions n' row st'
  end.

Fixpoint rows_loop (df : list daily_row) (st : loop_state) : result loop_state :=
  match df with
  | [] => Ok st
  | row :: rest =>
      count ← session_count row;
      match count with
      | None => rows_loop rest st
      | Some n => st' ← repeat_sessions (Z.to_nat n) row st; rows_loop rest st'
      end
  end.

Definition simulate_sessions (g : py_state) (df : list daily_row)
  : result (list session_log * py_state) :=
  st ← rows_loop df {| user_counter := 0; session_logs := []; rng := g |};
  match session_logs st with
  | [] => Raise ValueError
  | logs => Ok (logs, rng st)
  end.

End Simulate.

(** [setup_database]: the final state of the database file, and whether
    the call returned or raised. *)
Definition setup_database (own_transaction : bool) (fail_at : option nat)
    (sessions_df : list session_log) (file : Sqlite.database session_log)
  : result unit * Sqlite.database session_log :=
  let conn := Sqlite.connect file in
  let conn := Sqlite.drop_table_if_exists "session_logs" conn in
  match Sqlite.create_table "session_logs" conn with
  | Raise e => (Raise e, Sqlite.committed conn)
  | Ok conn =>
      match Sqlite.to_sql own_transaction "session_logs" sessions_df fail_at conn with
      | (Ok _, conn) =>
          let conn := Sqlite.commit conn in
          (Ok (), Sqlite.close conn)
      | (Raise e, conn) =>
          let conn := Sqlite.rollback conn in
          (Raise e, Sqlite.close conn)
      end
  end.

End Pipeline.

(* ===================================================================== *)
(** * Two concrete streams                                                *)
(* ===================================================================== *)

(** A linear congruential generator, used to run the simulations on
    concrete inputs.  It stands for no particular library generator: the
    theorems below hold for every stream that satisfies the laws of
    [NumpyRandom] and [PyRandom]. *)
Module Lcg.

Definition next (g : Z) : Z := (g * 1103515245 + 12345) mod 2147483648.

Definition pick {A} (g : Z) (l : list A) : option A * Z :=
  (l !! Z.to_nat (g mod Z.of_nat (length l)), next g).

Definition pick_p {A} (g : Z) (l : list A) (p : list Q) : option A * Z :=
if (length l =? length p)%nat then pick g l else (None, g).

Definition randint_excl (g lo hi : Z) : option Z * Z :=
  if lo <? hi then (Some (lo + g mod (hi - lo)), next g) else (None, g).

Definition randint_incl (g a b : Z) : option Z * Z :=
  if a <=? b then (Some (a + g mod (b - a + 1)), next g) else (None, g).

(** A fraction in [0, 1]. *)
Definition unit_fraction (g : Z) : Q := (g mod 1001) # 1000.

Definition between (g : Z) (a b : Q) : Q * Z :=
  ((Qmin a b + unit_fraction g * (Qmax a b - Qmin a b))%Q, next g).

Definition around (g : Z) (mu sigma : Q) : Q * Z :=
  ((mu + sigma * ((g mod 2001 - 1000) # 500))%Q, next g).

Definition lognormal (g : Z) (mean sigma : Q) : Q * Z :=
  (inject_Z (1 + g mod 400), next g).

End Lcg.

(* ===================================================================== *)
(** * Notions used to state the properties                                *)
(* ===================================================================== *)

(** A character that a normalised column name can hold: no quote, no
    whitespace, no upper-case letter. *)
Definition normal_char (c : ascii) : bool :=
  negb (Ascii.eqb c PyStr.dquote) && negb (PyStr.isspace c) && negb (PyStr.isupper c).

(** The Column Normalizer as the specification words it: strip the quote
    characters, trim, collapse every run of whitespace or hyphens to one
    underscore, lowercase. *)
Definition column_normalizer_spec (s : string) : string :=
  PyStr.lower
    (PyStr.sub_runs GenerateSessions.space_or_hyphen
       (PyStr.strip (PyStr.remove PyStr.dquote s))).


(** The string the Numeric Cleaner hands to [int] or [float]. *)
Definition stripped_numeric (s : string) : string :=
  PyStr.remove "," (PyStr.remove PyStr.dquote s).

(** The peak_players values of the rows of one game. *)
Definition peaks_of (name : string) (game_df : GenerateSessions.frame) : list Z :=
  (filter (fun r : string * Z => r.1 = name) game_df).*2.

Definition sumZ (l : list Z) : Z := foldr Z.add 0 l.

(** The arithmetic mean of a non-empty list of integers. *)
Definition arithmetic_mean (l : list Z) : Qc :=
  Q2Qc (sumZ l # Z.to_pos (Z.of_nat (length l))).

(** The number of distinct values of [vals] strictly below [v]. *)
Definition distinct_below (vals : list Qc) (v : Qc) : nat :=
  length (remove_dups (filter (fun w => Qclt w v) vals)).


(** The sessions a simulation returns, without the state of the stream. *)
Definition sessions_of {S A : Type} (r : result (list A * S)) : result (list A) :=
  match r with
  | Ok (sessions, _) => Ok sessions
  | Raise e => Raise e
  end.

(** The pool of user identifiers of the population-weighted simulation. *)
Definition user_pool (num_users : Z) : list string :=
  GenerateSessions.format_user <$> seqZ 1 num_users.

(** [f'user_{k}'] *)
Definition user_name (k : Z) : string := "user_" ++ pretty k.


(** The users of the sessions a per-record expansion logged. *)
Definition logged_users {R : PyRandom} (r : result SimulateSessions.loop_state)
  : result (list string) :=
  match r with
  | Ok st => Ok (SimulateSessions.user_id <$> SimulateSessions.session_logs st)
  | Raise e => Raise e
  end.



(** The sum and the size of the group of [name] accumulated so far. *)
Definition totals (acc : gmap string (Z * Z)) (name : string) : Z * Z :=
  default (0, 0) (acc !! name).

(** One row of the frame before and after the assignment of the
    session_duration column. *)
Definition reassigned (r r' : GenerateSessions.row) : Prop :=
  exists d, GenerateSessions.recomputed_duration r = Ok d
            /\ r' = GenerateSessions.set_duration r d.

(** What one iteration of the population-weighted loop appends. *)
Definition drawn_session (user_ids games : list string)
    (s : GenerateSessions.session) : Prop :=
  GenerateSessions.user_id s ∈ user_ids
  /\ GenerateSessions.game_id s ∈ games
  /\ 15 <= GenerateSessions.session_duration s <= 600
  /\ 0 <= GenerateSessions.hour_of_day s <= 23
  /\ DateTime.hour (GenerateSessions.session_start s) = GenerateSessions.hour_of_day s
  /\ 0 <= DateTime.minute (GenerateSessions.session_start s) < 59
  /\ GenerateSessions.session_end s
     = DateTime.add_minutes (GenerateSessions.session_start s)
         (GenerateSessions.session_duration s).

(** The users of the log are user_1, ..., user_n for the counter n. *)
Definition numbered {R : PyRandom} (st : SimulateSessions.loop_state) : Prop :=
  0 <= SimulateSessions.user_counter st
  /\ SimulateSessions.user_id <$> SimulateSessions.session_logs st
     = user_name <$> seqZ 1 (SimulateSessions.user_counter st).

Definition pipeline_numbered {R : PyRandom} (st : Pipeline.loop_state) : Prop :=
  0 <= Pipeline.user_counter st
  /\ Pipeline.user_id <$> Pipeline.session_logs st
     = user_name <$> seqZ 1 (Pipeline.user_counter st).


(** A naive datetime whose time of day is in range. *)
Definition time_in_range (t : DateTime.datetime) : Prop :=
  0 <= DateTime.hour t < 24 /\ 0 <= DateTime.minute t < 60
  /\ 0 <= DateTime.second t < 60.

(** A session of the population-weighted simulation, as its caller sees
    it: in the window, on the hour and minute drawn, for a game of the
    weight mapping and a user of the pool. *)
Definition session_in_window (games : list string) (num_users : Z)
    (start_date : DateTime.datetime) (simulation_days : Z)
    (s : GenerateSessions.session) : Prop :=
  GenerateSessions.user_id s ∈ user_pool num_users
  /\ GenerateSessions.game_id s ∈ games
  /\ (exists day_offset, 0 <= day_offset < simulation_days
        /\ DateTime.ordinal (GenerateSessions.session_start s)
           = DateTime.ordinal start_date + day_offset)
  /\ 0 <= DateTime.hour (GenerateSessions.session_start s) <= 23
  /\ 0 <= DateTime.minute (GenerateSessions.session_start s) <= 58
  /\ DateTime.second (GenerateSessions.session_start s) = DateTime.second start_date
  /\ GenerateSessions.hour_of_day s = DateTime.hour (GenerateSessions.session_start s)
  /\ GenerateSessions.day_of_week s = DateTime.day_name (GenerateSessions.session_start s)
  /\ 15 <= GenerateSessions.session_duration s <= 600
  /\ GenerateSessions.session_end s
     = DateTime.add_minutes (GenerateSessions.session_start s)
         (GenerateSessions.session_duration s).

(** A session of the per-record expansion of [main], as expanded from a
    daily record. *)
Definition expanded_from (cfg : SimulateSessions.config) (row : daily_row)
    (s : SimulateSessions.session_log) : Prop :=
  (0 < hours_played row)%Q
  /\ SimulateSessions.log_game_name s = game_name row
  /\ DateTime.ordinal (SimulateSessions.session_start s) = date row
  /\ 0 <= DateTime.hour (SimulateSessions.session_start s) <= 23
  /\ 0 <= DateTime.minute (SimulateSessions.session_start s) <= 59
  /\ 0 <= DateTime.second (SimulateSessions.session_start s) <= 59
  /\ SimulateSessions.SESSION_DURATION_MIN cfg <= SimulateSessions.duration s
     <= SimulateSessions.SESSION_DURATION_MAX cfg
  /\ SimulateSessions.session_end s
     = DateTime.add_minutes (SimulateSessions.session_start s)
         (SimulateSessions.duration s).



(** The sessions a per-record expansion logged. *)
Definition logged_sessions {R : PyRandom} (r : result SimulateSessions.loop_state)
  : result (list SimulateSessions.session_log) :=
  match r with
  | Ok st => Ok (SimulateSessions.session_logs st)
  | Raise e => Raise e
  end.

(* ===================================================================== *)
(** * src/etl/generate_sessions.py: loading the game data                 *)
(* ===================================================================== *)

Module LoadGameData.

Import PyNum.

Record details := {
  variations : list string;
  dtype : string;
  required : bool;
}.

(** The dictionary [standard_columns] in its iteration order.  The
    literal writes the key current_players twice with the same value; a
    dict keeps one entry, at the place of the first. *)
Definition standard_columns : list (string * details) :=
  [ ("name",
     {| variations := ["name"; "game"; "title"];
        dtype := "string"; required := true |});
    ("current_players",
     {| variations := ["current_players"; "players_now"];
        dtype := "int"; required := false |});
    ("peak_players",
     {| variations := ["peak_players"; "peakplayers"; "peak_concurrent"];
        dtype := "int"; required := true |});
    ("hours_played",
     {| variations := ["hours_played"; "hoursplayed"; "playtime"];
        dtype := "int"; required := false |}) ].

(** [s.replace(old, new)] for one-character arguments. *)
Fixpoint replace_char (old new : ascii) (s : string) : string :=
  match s with
  | EmptyString => EmptyString
  | String c s' =>
      String (if Ascii.eqb c old then new else c) (replace_char old new s')
  end.

(** [variation.lower().replace(' ', '_')] *)
Definition cleaned_variation (variation : string) : string :=
  replace_char " " "_" (PyStr.lower variation).

(** The inner loop: the first variation that is a column of the frame,
    [None] when the loop ends without a break. *)
Fixpoint find_col (variations : list string) (columns : list string) : option string :=
  match variations with
  | [] => None
  | variation :: rest =>
      let cleaned := cleaned_variation variation in
      if bool_decide (cleaned ∈ columns) then Some cleaned
      else find_col rest columns
  end.

(** [if found_col:] on a value that is [None] or a string. *)
Definition truthy (found_col : option string) : bool :=
  match found_col with
  | Some s => negb (String.eqb s "")
  | None => false
  end.

(** The loop that fills [rename_map]; [None] stands for the break with
    [missing_required] set, after which the file is skipped. *)
Fixpoint map_variations (stds : list (string * details)) (columns : list string)
    (rename_map : gmap string string) : option (gmap string string) :=
  match stds with
  | [] => Some rename_map
  | (std_name, d) :: rest =>
      let found_col := find_col (variations d) columns in
      if truthy found_col then
        let found := default "" found_col in
        map_variations rest columns
          (if bool_decide (found <> std_name) then <[found := std_name]> rename_map
           else rename_map)
      else if required d then None
      else map_variations rest columns rename_map
  end.

(** The new label of a column under [df.rename(columns=rename_map)]. *)
Definition renamed (rename_map : gmap string string) (label : string) : string :=
  default label (rename_map !! label).

(** A column of a frame: the cells as read from the file, each in the
    spelling [astype(str)] gives it, or the integers a cleaning left. *)
Inductive column :=
| Cells (texts : list string)
| Ints (values : list Z).

(** A frame: its columns from left to right, labels possibly repeated. *)
Abbreviation dataframe := (list (string * column)).

(** [series.astype(str)] *)
Definition astype_str (c : column) : list string :=
  match c with
  | Cells texts => texts
  | Ints values => pretty <$> values
  end.

(** [df[label]]: the columns carrying the label.  One column is a
    Series, several are a DataFrame. *)
Definition select (label : string) (df : dataframe) : list column :=
  (filter (fun lc => lc.1 = label) df).*2.

(** What the body of the [try] does. *)
Inductive cleaning :=
| Assigned (c : column)       (* df[std_name] = c *)
| Untouched                   (* neither branch applies *)
| Failed.                     (* an exception, after which the column is dropped *)

(** The body of the [try] on what [df[std_name]] selected.  A DataFrame
    has no [.str] accessor, so both branches raise AttributeError on a
    repeated label. *)
Definition cleaned_column (d : details) (selected : list column) : cleaning :=
  if String.eqb (dtype d) "int" then
    match selected with
    | [c] =>
        match GenerateSessions._clean_numeric_column (astype_str c) with
        | Some values => Assigned (Ints values)
        | None => Failed
        end
    | _ => Failed
    end
  else if String.eqb (dtype d) "string" then
    match selected with
    | [c] => Assigned (Cells (PyStr.strip <$> astype_str c))
    | _ => Failed
    end
  else Untouched.

(** [df[label] = c] for a label the frame carries once. *)
Definition assign (label : string) (c : column) (df : dataframe) : dataframe :=
  (fun lc => if bool_decide (lc.1 = label) then (label, c) else lc) <$> df.

(** [df.drop(columns=[label])] *)
Definition drop (label : string) (df : dataframe) : dataframe :=
  filter (fun lc => lc.1 <> label) df.

(** The loop that cleans the standard columns the frame has. *)
Fixpoint clean_loop (stds : list (string * details)) (df : dataframe) : dataframe :=
  match stds with
  | [] => df
  | (std_name, d) :: rest =>
      if bool_decide (std_name ∈ df.*1) then
        match cleaned_column d (select std_name df) with
        | Assigned c => clean_loop rest (assign std_name c df)
        | Untouched => clean_loop rest df
        | Failed => clean_loop rest (drop std_name df)
        end
      else clean_loop rest df
  end.

(** The rows of [df[['name', 'peak_players']]] as the weight calculation
    reads them. *)
Definition name_and_peak (df : dataframe) : option GenerateSessions.frame :=
  match select "name" df, select "peak_players" df with
  | [Cells names], [Ints peaks] => Some (zip names peaks)
  | _, _ => None
  end.

(** One turn of the loop over the files, on the frame [read_csv]
    returned: the frame appended to [all_games_data], or [None] when the
    file is skipped. *)
Definition standardize_file (csv : list (string * list string))
  : option GenerateSessions.frame :=
  let df : dataframe :=
    (fun lc => (GenerateSessions.standardize_column lc.1, Cells lc.2)) <$> csv in
  match map_variations standard_columns df.*1 ∅ with
  | None => None
  | Some rename_map =>
      let df := (fun lc => (renamed rename_map lc.1, lc.2)) <$> df in
      let df := clean_loop standard_columns df in
      if bool_decide ("name" ∈ df.*1) && bool_decide ("peak_players" ∈ df.*1)
      then name_and_peak df
      else None
  end.

(** [_load_and_standardize_game_data] on the frames of the files that
    [read_csv] could read, in the order of the glob; [None] stands for a
    data directory that does not exist. *)
Definition _load_and_standardize_game_data
    (data_dir : option (list (list (string * list string))))
  : list GenerateSessions.frame :=
  match data_dir with
  | None => []
  | Some files => omap standardize_file files
  end.

(** The items of the weight dictionary in its iteration order: [groupby]
    sorts the names, which are compared as Python compares strings. *)
Definition name_le (a b : string * Z) : Prop := String.leb a.1 b.1 = true.

#[export] Instance name_le_dec : RelDecision name_le.
Proof. intros a b. unfold name_le. apply _. Defined.

Definition weight_items (game_weights : gmap string Z) : list (string * Q) :=
  (fun kv => (kv.1, inject_Z kv.2)) <$> merge_sort name_le (map_to_list game_weights).

(** [generate_sessions] after the configuration has been read: [None]
    when it returns [None]. *)
Definition generate_sessions {R : NumpyRandom} (ambient : np_state)
    (data_dir : option (list (list (string * list string))))
    (num_users simulation_days : Z) (start_date : DateTime.datetime)
    (target_session_count : Z)
  : option (result (list GenerateSessions.session * np_state)) :=
  let all_games_data := _load_and_standardize_game_data data_dir in
  match all_games_data with
  | [] => None
  | _ =>
      let game_weights := GenerateSessions._calculate_game_weights all_games_data in
      if bool_decide (game_weights = ∅) then None
      else Some (GenerateSessions._simulate_user_sessions ambient
                   (weight_items game_weights) num_users simulation_days
                   start_date target_session_count)
  end.

End LoadGameData.


(** ** Notions for the loading step *)

(** The headers of a file after the initial column cleaning. *)
Definition headers (csv : list (string * list string)) : list string :=
  GenerateSessions.standardize_column <$> csv.*1.

(** The cells of the columns of a file whose cleaned header is [label],
    one list for each such column. *)
Definition cells_of (label : string) (csv : list (string * list string))
  : list (list string) :=
  (filter (fun lc => GenerateSessions.standardize_column lc.1 = label) csv).*2.

(** The spellings under which a file may carry the two required
    columns, in the order of preference. *)
Definition name_variations : list string := ["name"; "game"; "title"].
Definition peak_variations : list string :=
  ["peak_players"; "peakplayers"; "peak_concurrent"].

(** [label] is the first entry of [vs] that is one of [columns]. *)
Definition first_among (vs columns : list string) (label : string) : Prop :=
  exists i, vs !! i = Some label /\ label ∈ columns
            /\ forall j v, (j < i)%nat -> vs !! j = Some v -> v ∉ columns.


(* ===================================================================== *)
(** * src/etl/pipeline.py: the run                                        *)
(* ===================================================================== *)

Module PipelineRun.


End PipelineRun.


(* ===================================================================== *)
(** * Regular expressions as [re] matches them                            *)
(* ===================================================================== *)

Module Regex.

(** The fragment of the pattern language the code uses.  A repetition is
    greedy and repeats a character class; a group records the text it
    matched when it closes (no group of the code lies inside another). *)
Inductive regex :=
| Eps
| Chr (cls : ascii -> bool)
| Seq (a b : regex)
| Alt (a b : regex)
| Rep (cls : ascii -> bool) (lo : nat) (hi : option nat)
| Group (a : regex).

Fixpoint drop (n : nat) (s : string) : string :=
  match n, s with
  | S n', String _ s' => drop n' s'
  | _, _ => s
  end.

Fixpoint take (n : nat) (s : string) : string :=
  match n, s with
  | S n', String c s' => String c (take n' s')
  | _, _ => EmptyString
  end.

(** The text between the position [s] and the later position [s']. *)
Definition consumed (s s' : string) : string :=
  take (String.length s - String.length s') s.

(** The most characters of the class a repetition can take. *)
Fixpoint run_length (cls : ascii -> bool) (hi : option nat) (s : string) : nat :=
  match s with
  | String c s' =>
      match hi with
      | Some O => O
      | _ => if cls c then S (run_length cls (pred <$> hi) s') else O
      end
  | EmptyString => O
  end.

Section Matcher.
Context {A : Type}.

(** A greedy repetition that took [n] characters gives them back one at
    a time, down to [lo], until the rest of the pattern matches. *)
Fixpoint back_off (k : string -> option A) (s : string) (lo n : nat) : option A :=
  if (n <? lo)%nat then None
  else match k (drop n s) with
       | Some x => Some x
       | None =>
           match n with
           | O => None
           | S n' => back_off k s lo n'
           end
       end.

(** The backtracking matcher: [k] is the rest of the pattern, applied to
    the unread text and the groups closed so far; the first success in
    the order of the alternatives and of the repetition counts wins. *)
Fixpoint match_re (r : regex) (s : string) (caps : list string)
    (k : string -> list string -> option A) : option A :=
  match r with
  | Eps => k s caps
  | Chr cls =>
      match s with
      | String c s' => if cls c then k s' caps else None
      | EmptyString => None
      end
  | Seq a b => match_re a s caps (fun s' caps' => match_re b s' caps' k)
  | Alt a b =>
      match match_re a s caps k with
      | Some x => Some x
      | None => match_re b s caps k
      end
  | Rep cls lo hi => back_off (fun s' => k s' caps) s lo (run_length cls hi s)
  | Group a =>
      match_re a s caps (fun s' caps' => k s' (caps' ++ [consumed s s'])%list)
  end.

End Matcher.

(** [re.match(pattern, s)]: the groups and the unread text, [None] when
    the pattern does not match at the start of [s]. *)
Definition re_match (pattern : regex) (s : string) : option (list string * string) :=
  match_re pattern s [] (fun rest caps => Some (caps, rest)).

(** A pattern that is a literal text, read with or without IGNORECASE. *)
Fixpoint literal (ignore_case : bool) (text : string) : regex :=
  match text with
  | EmptyString => Eps
  | String c text' =>
      Seq (Chr (fun x => Ascii.eqb (if ignore_case then PyStr.lower_char x else x) c))
          (literal ignore_case text')
  end.

Definition between (a b : ascii) : regex :=
  Chr (fun x => (N_of_ascii a <=? N_of_ascii x)%N && (N_of_ascii x <=? N_of_ascii b)%N).

(** The class [\w] on ASCII. *)
Definition isword (c : ascii) : bool :=
  let n := N_of_ascii c in
  PyStr.isdigit c || ((65 <=? n) && (n <=? 90))%N || ((97 <=? n) && (n <=? 122))%N
  || Ascii.eqb c "_".

End Regex.

(* ===================================================================== *)
(** * src/etl/pipeline.py: the date of a daily file                       *)
(* ===================================================================== *)

Module DailyFiles.

Import Regex.

(** [(\d+)_(\w+)_(\d{4})\s*\.csv] *)
Definition filename_pattern : regex :=
  Seq (Group (Rep PyStr.isdigit 1 None))
  (Seq (literal false "_")
  (Seq (Group (Rep isword 1 None))
  (Seq (literal false "_")
  (Seq (Group (Rep PyStr.isdigit 4 (Some 4%nat)))
  (Seq (Rep PyStr.isspace 0 None)
       (literal false ".csv")))))).

(** The full month names of the C locale, lowercased as [_strptime]
    keeps them. *)
Definition month_names : list string :=
  ["january"; "february"; "march"; "april"; "may"; "june"; "july"; "august";
   "september"; "october"; "november"; "december"].

(** The directive [%d]: [3[0-1]|[1-2]\d|0[1-9]|[1-9]| [1-9]]. *)
Definition day_directive : regex :=
  Alt (Seq (literal false "3") (between "0" "1"))
  (Alt (Seq (between "1" "2") (Chr PyStr.isdigit))
  (Alt (Seq (literal false "0") (between "1" "9"))
  (Alt (between "1" "9")
       (Seq (literal false " ") (between "1" "9"))))).

(** The directive [%B]: the month names, the longest first. *)
Definition month_directive : regex :=
  Alt (literal true "september")
  (Alt (literal true "february")
  (Alt (literal true "november")
  (Alt (literal true "december")
  (Alt (literal true "january")
  (Alt (literal true "october")
  (Alt (literal true "august")
  (Alt (literal true "march")
  (Alt (literal true "april")
  (Alt (literal true "june")
  (Alt (literal true "july")
       (literal true "may"))))))))))).

(** The directive [%Y]: four digits. *)
Definition year_directive : regex :=
  Seq (Chr PyStr.isdigit) (Seq (Chr PyStr.isdigit)
  (Seq (Chr PyStr.isdigit) (Chr PyStr.isdigit))).

(** The pattern [_strptime] compiles the format [%d %B %Y] to: the blank
    of the format stands for [\s+]. *)
Definition format_pattern : regex :=
  Seq (Group day_directive)
  (Seq (Rep PyStr.isspace 1 None)
  (Seq (Group month_directive)
  (Seq (Rep PyStr.isspace 1 None)
       (Group year_directive)))).

Definition is_leap (year : Z) : bool :=
  (year mod 4 =? 0) && (negb (year mod 100 =? 0) || (year mod 400 =? 0)).

Definition days_in_month (year month : Z) : Z :=
  if month =? 2 then (if is_leap year then 29 else 28)
  else if (month =? 4) || (month =? 6) || (month =? 9) || (month =? 11) then 30
  else 31.

(** The place of a month name in the year, from 1. *)
Fixpoint month_number (names : list string) (name : string) (i : Z) : option Z :=
  match names with
  | [] => None
  | n :: rest => if String.eqb n name then Some i else month_number rest name (i + 1)
  end.

(** A calendar date: year, month, day. *)
Record date := { year : Z; month : Z; day : Z }.

(** [datetime.strptime(s, "%d %B %Y").date()]; [None] stands for
    ValueError: no match, text left over, or a day the month or a year
    the calendar does not have. *)
Definition strptime (data_string : string) : option date :=
  match re_match format_pattern data_string with
  | Some ([d; B; Y], EmptyString) =>
      y ← PyNum.py_int Y;
      m ← month_number month_names (PyStr.lower B) 1;
      d ← PyNum.py_int d;
      if (1 <=? y) && (d <=? days_in_month y m)
      then Some {| year := y; month := m; day := d |}
      else None
  | _ => None
  end.

(** The date [load_daily_data] gives the rows of a file, [None] when the
    file is skipped for its name. *)
Definition file_date (filename : string) : option date :=
  match re_match filename_pattern filename with
  | Some ([day; month_str; year], _) =>
      strptime (day ++ " " ++ month_str ++ " " ++ year)
  | _ => None
  end.

End DailyFiles.


(** ** Notions for the dated file names *)

(** The decimal digit of a number from 0 to 9. *)
Definition digit_char (n : Z) : ascii := ascii_of_N (48 + Z.to_N n).

(** A year in four digits, as a file name carries it. *)
Definition four_digits (y : Z) : string :=
  String (digit_char (y / 1000))
    (String (digit_char (y / 100 mod 10))
       (String (digit_char (y / 10 mod 10))
          (String (digit_char (y mod 10)) ""))).

(** The spellings of a day of the month that [%d] reads: the number,
    and for a day below 10 the number after a zero. *)
Definition day_spellings (d : Z) : list string :=
  if d <? 10 then [pretty d; "0" ++ pretty d] else [pretty d].

(** A file name that carries a date: day, month name and year joined by
    underscores, blanks allowed before the extension, anything after
    it. *)
Definition dated_name (day_text month_text year_text blanks rest : string) : string :=
  day_text ++ "_" ++ month_text ++ "_" ++ year_text ++ blanks ++ ".csv" ++ rest.


(** The texts a pattern matches as a whole, with the groups it closes:
    the declarative reading of [Regex.regex]. *)
Inductive matches : Regex.regex -> string -> list string -> Prop :=
| matches_eps : matches Regex.Eps "" []
| matches_chr cls c : cls c = true -> matches (Regex.Chr cls) (String c "") []
| matches_seq a b w1 w2 g1 g2 :
    matches a w1 g1 -> matches b w2 g2 ->
    matches (Regex.Seq a b) (w1 ++ w2) (g1 ++ g2)%list
| matches_alt_l a b w g : matches a w g -> matches (Regex.Alt a b) w g
| matches_alt_r a b w g : matches b w g -> matches (Regex.Alt a b) w g
| matches_rep cls lo hi w :
    PyStr.all cls w = true -> (lo <= String.length w)%nat ->
    from_option (fun h => (String.length w <= h)%nat) True hi ->
    matches (Regex.Rep cls lo hi) w []
| matches_group a w g : matches a w g -> matches (Regex.Group a) w (g ++ [w])%list.


(** The renamings the mapping loop records: [c] is the column found for
    the standard name [std], under another spelling. *)
Definition renames (columns : list string)
    (stds : list (string * LoadGameData.details)) (c std : string) : Prop :=
  exists d, (std, d) ∈ stds
            /\ LoadGameData.find_col (LoadGameData.variations d) columns = Some c
            /\ c <> std.

(** A text that does not go on with a character of the class: a
    repetition without an upper bound runs up to such a text. *)
Definition stops (cls : ascii -> bool) (s : string) : Prop :=
  match s with
  | String c _ => cls c = false
  | EmptyString => True
  end.

(** A text that does not begin with the character [c0]. *)
Definition starts_without (c0 : ascii) (s : string) : Prop :=
  match s with
  | String c _ => Ascii.eqb c c0 = false
  | EmptyString => True
  end.

(** Every spelling of a day of the month, with its number. *)
Definition days_spelled : list (Z * string) :=
  d ← seqZ 1 31; (fun w => (d, w)) <$> day_spellings d.

(** The month names with their numbers. *)
Definition months_numbered : list (Z * string) :=
  zip (seqZ 1 12) DailyFiles.month_names.

(* ===================================================================== *)
(** * src/etl/generate_sessions.py: the script                            *)
(* ===================================================================== *)

Module GenerateSessionsMain.

(** The main block once the configuration is loaded: the frame handed to
    [to_csv], or [None] when the script exits with an error and writes
    no file.  An exception of the simulation is not caught. *)
Definition main {R : NumpyRandom} (ambient : np_state)
    (data_dir : option (list (list (string * list string))))
    (num_users simulation_days : Z) (start_date : DateTime.datetime)
    (target_session_count : Z)
  : result (option (list GenerateSessions.row)) :=
  match LoadGameData.generate_sessions ambient data_dir num_users simulation_days
          start_date target_session_count with
  | None => Ok None
  | Some (Raise e) => Raise e
  | Some (Ok ([], _)) => Ok None
  | Some (Ok (sessions, _)) =>
      cleaned_df ← GenerateSessions.clean_sessions
                     (Some (GenerateSessions.row_of_session <$> sessions));
      Ok (Some cleaned_df)
  end.

End GenerateSessionsMain.


(** ** Notions for the size of the log *)



(* ===================================================================== *)
(** * Properties                                                          *)
(* ===================================================================== *)

(** ** Characters and strings *)

Section StringFacts.
  Import PyStr.

Lemma all_remove p ch s : all p s = true -> all p (remove ch s) = true.
  Proof.
    induction s as [|c s IH]; simpl; [done|].
    intros [Hc Hs]%andb_prop. destruct (Ascii.eqb c ch); simpl; [auto|].
    rewrite Hc. auto.
  Qed.

Lemma all_lstrip p s : all p s = true -> all p (lstrip s) = true.
  Proof.
    induction s as [|c s IH]; simpl; [done|].
    intros H. destruct (isspace c); [|done].
    apply andb_prop in H as [_ H]. auto.
  Qed.

Lemma all_rstrip p s : all p s = true -> all p (rstrip s) = true.
  Proof.
    induction s as [|c s IH]; simpl; [done|].
    intros [Hc Hs]%andb_prop. specialize (IH Hs).
    destruct (rstrip s) as [|c' r].
    - destruct (isspace c); simpl; [done|]. by rewrite Hc.
    - change (all p (String c (String c' r)) = true).
      simpl in *. by rewrite Hc.
  Qed.

Lemma all_strip p s : all p s = true -> all p (strip s) = true.
  Proof. intros. by apply all_lstrip, all_rstrip. Qed.

Lemma all_impl (p q : ascii -> bool) s :
    (forall c, p c = true -> q c = true) -> all p s = true -> all q s = true.
  Proof.
    intros Hpq. induction s as [|c s IH]; simpl; [done|].
    intros [Hc Hs]%andb_prop. rewrite (Hpq _ Hc). auto.
  Qed.

Lemma remove_absent ch s :
    all (fun c => negb (Ascii.eqb c ch)) s = true -> remove ch s = s.
  Proof.
    induction s as [|c s IH]; simpl; [done|].
    intros [Hc Hs]%andb_prop. apply negb_true_iff in Hc. rewrite Hc.
    by rewrite IH.
  Qed.

Lemma remove_gone ch s : all (fun c => negb (Ascii.eqb c ch)) (remove ch s) = true.
  Proof.
    induction s as [|c s IH]; simpl; [done|].
    destruct (Ascii.eqb c ch) eqn:E; simpl; [done|]. by rewrite E.
  Qed.

Lemma lstrip_id s : all (fun c => negb (isspace c)) s = true -> lstrip s = s.
  Proof.
    destruct s as [|c s]; simpl; [done|].
    intros [Hc _]%andb_prop. apply negb_true_iff in Hc. by rewrite Hc.
  Qed.

Lemma rstrip_id s : all (fun c => negb (isspace c)) s = true -> rstrip s = s.
  Proof.
    induction s as [|c s IH]; simpl; [done|].
    intros [Hc Hs]%andb_prop. apply negb_true_iff in Hc.
    rewrite (IH Hs), Hc. by destruct s.
  Qed.

Lemma strip_id s : all (fun c => negb (isspace c)) s = true -> strip s = s.
  Proof. intros H. unfold strip. rewrite (rstrip_id _ H). by apply lstrip_id. Qed.

Lemma sub_runs_id cls s : all (fun c => negb (cls c)) s = true -> sub_runs cls s = s.
  Proof.
    induction s as [|c s IH]; simpl; [done|].
    intros [Hc Hs]%andb_prop. apply negb_true_iff in Hc.
    by rewrite Hc, IH.
  Qed.

  (** What [re.sub] leaves contains no character of the class, as long as
      the underscore is not one of them. *)
Lemma sub_runs_free cls s :
    cls "_"%char = false -> all (fun c => negb (cls c)) (sub_runs cls s) = true.
  Proof.
    intros Hu. induction s as [|c s IH]; simpl; [done|].
    destruct (cls c) eqn:E.
    - destruct (starts_in cls s); simpl; [done|]. by rewrite Hu.
    - simpl. by rewrite E.
  Qed.

Lemma all_sub_runs p cls s :
    p "_"%char = true -> all p s = true -> all p (sub_runs cls s) = true.
  Proof.
    intros Hu. induction s as [|c s IH]; simpl; [done|].
    intros [Hc Hs]%andb_prop.
    destruct (cls c); [destruct (starts_in cls s)|]; simpl; rewrite ?Hu, ?Hc; auto.
  Qed.

Lemma sub_runs_ext cls1 cls2 s :
    all (fun c => Bool.eqb (cls1 c) (cls2 c)) s = true ->
    sub_runs cls1 s = sub_runs cls2 s.
  Proof.
    induction s as [|c s IH]; simpl; [done|].
    intros [Hc Hs]%andb_prop. apply Bool.eqb_prop in Hc. rewrite <- Hc, (IH Hs).
    destruct s as [|c' s]; simpl; [done|].
    simpl in Hs. apply andb_prop in Hs as [Hc' _]. apply Bool.eqb_prop in Hc'.
    by rewrite Hc'.
  Qed.

Lemma lower_id s : all (fun c => negb (isupper c)) s = true -> lower s = s.
  Proof.
    induction s as [|c s IH]; simpl; [done|].
    intros [Hc Hs]%andb_prop. apply negb_true_iff in Hc.
    unfold lower_char. by rewrite Hc, IH.
  Qed.

Lemma all_lower p s :
    (forall c, p (lower_char c) = p c) -> all p (lower s) = all p s.
  Proof.
    intros Hp. induction s as [|c s IH]; simpl; [done|]. by rewrite Hp, IH.
  Qed.

Lemma lower_sub_runs cls s :
    (forall c, cls (lower_char c) = cls c) ->
    lower (sub_runs cls s) = sub_runs cls (lower s).
  Proof.
    intros Hc. induction s as [|c s IH]; simpl; [done|].
    rewrite Hc. destruct (cls c).
    - replace (starts_in cls (lower s)) with (starts_in cls s)
        by (destruct s; simpl; by rewrite ?Hc).
      destruct (starts_in cls s); simpl; by rewrite IH.
    - simpl. by rewrite IH.
  Qed.

  (** Facts about single characters, checked on all 256 of them. *)
Ltac by_cases_on_char c :=
    destruct c as [[] [] [] [] [] [] [] []]; vm_compute; reflexivity.

Lemma lower_char_not_upper c : isupper (lower_char c) = false.
  Proof. by_cases_on_char c. Qed.

Lemma lower_char_isspace c : isspace (lower_char c) = isspace c.
  Proof. by_cases_on_char c. Qed.

Lemma lower_char_dquote c : Ascii.eqb (lower_char c) dquote = Ascii.eqb c dquote.
  Proof. by_cases_on_char c. Qed.

Lemma lower_char_hyphen c : Ascii.eqb (lower_char c) "-" = Ascii.eqb c "-".
  Proof. by_cases_on_char c. Qed.

Lemma lower_not_upper s : all (fun c => negb (isupper c)) (lower s) = true.
  Proof.
    induction s as [|c s IH]; simpl; [done|].
    by rewrite lower_char_not_upper, IH.
  Qed.

End StringFacts.

(** ** The column normalisers *)

Lemma contains_false_all ch s :
  PyStr.contains ch s = false ->
  PyStr.all (fun c => negb (Ascii.eqb c ch)) s = true.
Proof.
  induction s as [|c s IH]; simpl; [done|].
  intros [Hc Hs]%orb_false_elim. rewrite Hc. simpl. auto.
Qed.

Lemma normal_char_split s :
  PyStr.all normal_char s = true <->
  PyStr.all (fun c => negb (Ascii.eqb c PyStr.dquote)) s = true /\
  PyStr.all (fun c => negb (PyStr.isspace c)) s = true /\
  PyStr.all (fun c => negb (PyStr.isupper c)) s = true.
Proof.
  induction s as [|c s IH]; simpl; [tauto|].
  unfold normal_char at 1. rewrite !andb_true_iff, IH. tauto.
Qed.

(** What [clean_column_name] returns holds no quote, no whitespace and no
    upper-case letter. *)
Lemma clean_column_name_normal s :
  PyStr.all normal_char (Utils.clean_column_name s) = true.
Proof.
  unfold Utils.clean_column_name. apply normal_char_split. repeat split.
  - rewrite all_lower by (intros c; by rewrite lower_char_dquote).
    apply all_sub_runs; [done|]. apply all_strip, remove_gone.
  - rewrite all_lower by (intros c; by rewrite lower_char_isspace).
    by apply sub_runs_free.
  - apply lower_not_upper.
Qed.

(** On such a name [clean_column_name] changes nothing. *)
Lemma clean_column_name_fixed s :
  PyStr.all normal_char s = true -> Utils.clean_column_name s = s.
Proof.
  intros (Hq & Hw & Hu)%normal_char_split. unfold Utils.clean_column_name.
  rewrite (remove_absent _ _ Hq), (strip_id _ Hw), (sub_runs_id _ _ Hw).
  by apply lower_id.
Qed.

Lemma clean_column_twin s : SimpleEtl.clean_column s = Utils.clean_column_name s.
Proof. reflexivity. Qed.

(** C9. Normalising a normalised column name changes nothing:
    [clean_column_name (clean_column_name s) = clean_column_name s] for
    every string [s], and likewise for the copy [clean_column] of
    simple_etl.py. *)
Theorem clean_column_name_idempotent :
  (forall s, Utils.clean_column_name (Utils.clean_column_name s)
             = Utils.clean_column_name s) /\
  (forall s, SimpleEtl.clean_column (SimpleEtl.clean_column s)
             = SimpleEtl.clean_column s).
Proof.
  assert (H : forall s, Utils.clean_column_name (Utils.clean_column_name s)
                        = Utils.clean_column_name s).
  { intros s. apply clean_column_name_fixed, clean_column_name_normal. }
  split; [exact H|].
  intros s. rewrite !clean_column_twin. apply H.
Qed.

Lemma space_or_hyphen_lower c :
  GenerateSessions.space_or_hyphen (PyStr.lower_char c)
  = GenerateSessions.space_or_hyphen c.
Proof.
  unfold GenerateSessions.space_or_hyphen.
  by rewrite lower_char_isspace, lower_char_hyphen.
Qed.

(** Without a hyphen in the header, [clean_column_name] is the
    normaliser of the specification. *)
Lemma clean_column_name_spec s :
  PyStr.contains "-" s = false ->
  Utils.clean_column_name s = column_normalizer_spec s.
Proof.
  intros H%contains_false_all. unfold Utils.clean_column_name, column_normalizer_spec.
  f_equal. apply sub_runs_ext.
  apply all_strip, all_remove. revert H. apply all_impl.
  intros c Hc. unfold GenerateSessions.space_or_hyphen.
  apply negb_true_iff in Hc. rewrite Hc, orb_false_r.
  by destruct (PyStr.isspace c).
Qed.

(** Without a quote in the header, the normaliser of
    [_load_and_standardize_game_data] is the one of the specification. *)
Lemma standardize_column_spec s :
  PyStr.contains PyStr.dquote s = false ->
  GenerateSessions.standardize_column s = column_normalizer_spec s.
Proof.
  intros H%contains_false_all.
  unfold GenerateSessions.standardize_column, column_normalizer_spec.
  rewrite (remove_absent _ _ H).
  symmetry. apply lower_sub_runs, space_or_hyphen_lower.
Qed.

(** C6, as stated, fails on [clean_column_name]: the hyphen of the header
    stays a hyphen. *)
Lemma clean_column_name_keeps_hyphen :
  Utils.clean_column_name " Peak-No. Of Players " = "peak-no._of_players" /\
  Utils.clean_column_name " Peak-No. Of Players " <> "peak_no._of_players".
Proof. split; [reflexivity | discriminate]. Qed.

(** C6, amended. [clean_column_name] strips the quote characters, trims,
    collapses every run of whitespace to one underscore and lowercases; it
    keeps hyphens, so it agrees with the normaliser of the specification
    exactly on headers without a hyphen and sends the header
    [ Peak-No. Of Players ] to [peak-no._of_players].  The normaliser
    inlined in [_load_and_standardize_game_data] trims, lowercases and
    collapses runs of whitespace or hyphens; it keeps quote characters, so
    it agrees with the specification on headers without a quote and sends
    the same header to [peak_no._of_players]. *)
Theorem column_normalizers_characterised :
  (forall s, PyStr.contains "-" s = false ->
             Utils.clean_column_name s = column_normalizer_spec s) /\
  (forall s, PyStr.contains PyStr.dquote s = false ->
             GenerateSessions.standardize_column s = column_normalizer_spec s) /\
  (forall s, PyStr.all normal_char (Utils.clean_column_name s) = true) /\
  Utils.clean_column_name " Peak-No. Of Players " = "peak-no._of_players" /\
  GenerateSessions.standardize_column " Peak-No. Of Players " = "peak_no._of_players" /\
  column_normalizer_spec " Peak-No. Of Players " = "peak_no._of_players" /\
  GenerateSessions.standardize_column (String PyStr.dquote "Game Name")
    = String PyStr.dquote "game_name".
Proof.
  split; [exact clean_column_name_spec|].
  split; [exact standardize_column_spec|].
  split; [exact clean_column_name_normal|].
  repeat split; reflexivity.
Qed.

(** ** The numeric cleaners *)

Section NumericFacts.
Import PyNum.
















Lemma keep_digits_all s : PyStr.all PyStr.isdigit (PyStr.keep PyStr.isdigit s) = true.
Proof.
  induction s as [|c s IH]; simpl; [done|].
  destruct (PyStr.isdigit c) eqn:E; simpl; [by rewrite E|done].
Qed.


Lemma digits_not_space s :
  PyStr.all PyStr.isdigit s = true ->
  PyStr.all (fun c => negb (PyStr.isspace c)) s = true.
Proof.
  apply all_impl. intros c.
  destruct c as [[] [] [] [] [] [] [] []]; vm_compute; congruence.
Qed.


Lemma read_sign_digits s :
  PyStr.all PyStr.isdigit s = true -> read_sign s = (false, s).
Proof.
  destruct s as [|c s]; [done|]. simpl.
  intros [Hc _]%andb_prop.
  destruct c as [[] [] [] [] [] [] [] []]; try reflexivity; discriminate Hc.
Qed.





Lemma clean_numeric_twin v : SimpleEtl.clean_numeric v = Utils.clean_numeric_string v.
Proof.
  destruct v as [n|b|x|s| |]; try reflexivity. simpl.
  destruct (PyStr.contains "." _); [destruct (py_float _)|destruct (py_int _)];
    reflexivity.
Qed.

End NumericFacts.




(** ** The game weights *)

Section DenseRank.
Import GenerateSessions.
Local Open Scope Qc_scope.

Variable vals : list Qc.

Lemma dense_rank_count v : dense_rank vals v = (1 + Z.of_nat (distinct_below vals v))%Z.
Proof. reflexivity. Qed.

Lemma dense_rank_pos v : (1 <= dense_rank vals v)%Z.
Proof. unfold dense_rank. lia. Qed.






End DenseRank.

Section GroupBy.
Import GenerateSessions.

Lemma add_row_lookup acc r name :
  add_row acc r !! name =
  if decide (r.1 = name)
  then Some ((totals acc name).1 + r.2, (totals acc name).2 + 1)
  else acc !! name.
Proof.
  unfold add_row, totals. case_decide as Hn.
  - subst name. destruct (acc !! r.1) as [[s c]|]; simpl; by rewrite lookup_insert_eq.
  - destruct (acc !! r.1) as [[s c]|]; by rewrite lookup_insert_ne.
Qed.

Lemma peaks_of_cons name r rows :
  peaks_of name (r :: rows) =
  if decide (r.1 = name) then r.2 :: peaks_of name rows else peaks_of name rows.
Proof.
  unfold peaks_of. rewrite filter_cons. simpl. by case_decide.
Qed.

Lemma foldl_add_row_lookup rows : forall acc name,
  foldl add_row acc rows !! name =
  if decide (peaks_of name rows = []) then acc !! name
  else Some ((totals acc name).1 + sumZ (peaks_of name rows),
             (totals acc name).2 + Z.of_nat (length (peaks_of name rows))).
Proof.
  induction rows as [|r rows IH]; intros acc name; [done|].
  simpl foldl. rewrite IH, peaks_of_cons.
  unfold totals at 1 2. rewrite add_row_lookup.
  destruct (decide (r.1 = name)) as [Hn|Hn].
  - rewrite (decide_False (P := _ :: _ = [])) by done.
    case_decide as Hp.
    + rewrite Hp. simpl. do 2 f_equal; lia.
    + simpl. f_equal. f_equal; [lia|].
      rewrite Nat2Z.inj_succ. lia.
  - fold (totals acc name). done.
Qed.

Lemma group_sums_lookup rows name :
  group_sums rows !! name =
  if decide (peaks_of name rows = []) then None
  else Some (sumZ (peaks_of name rows), Z.of_nat (length (peaks_of name rows))).
Proof.
  unfold group_sums. rewrite foldl_add_row_lookup. by case_decide.
Qed.

(** [groupby('name')['peak_players'].mean()] holds, for every name of the
    frame, the arithmetic mean of the rows of that name. *)
Lemma group_mean_lookup rows name :
  group_mean rows !! name =
  if decide (peaks_of name rows = []) then None
  else Some (arithmetic_mean (peaks_of name rows)).
Proof.
  unfold group_mean. rewrite lookup_fmap, group_sums_lookup. by case_decide.
Qed.

Lemma peaks_of_nil_iff name (rows : frame) : peaks_of name rows = [] <-> name ∉ rows.*1.
Proof.
  induction rows as [|r rows IH].
  - split; [intros _; apply not_elem_of_nil|done].
  - rewrite peaks_of_cons, fmap_cons, not_elem_of_cons.
    case_decide as Hn; [|rewrite IH]; intuition congruence.
Qed.

Lemma rank_dense_lookup series name :
  rank_dense series !! name = dense_rank (map_to_list series).*2 <$> series !! name.
Proof. unfold rank_dense. by rewrite lookup_fmap. Qed.

Lemma series_values (series : gmap string Qc) name v :
  series !! name = Some v -> v ∈ (map_to_list series).*2.
Proof.
  intros H. apply list_elem_of_fmap. exists (name, v). split; [done|].
  by apply elem_of_map_to_list.
Qed.


Lemma game_weights_unfold data :
  _calculate_game_weights data = rank_dense (group_mean (concat data)).
Proof. destruct data; [|done]. by vm_compute. Qed.

End GroupBy.

Section GameWeights.
Import GenerateSessions.

Variable all_games_data : list frame.

Let game_df := concat all_games_data.
Let weights := _calculate_game_weights all_games_data.
Let mean (name : string) : Qc := arithmetic_mean (peaks_of name game_df).
Let means : list Qc := (map_to_list (group_mean game_df)).*2.

Lemma game_weights_lookup name :
  weights !! name =
  if decide (peaks_of name game_df = []) then None
  else Some (dense_rank means (mean name)).
Proof.
  unfold weights. rewrite game_weights_unfold, rank_dense_lookup, group_mean_lookup.
  fold game_df. by case_decide.
Qed.

Lemma game_weights_some name r :
  weights !! name = Some r ->
  name ∈ game_df.*1 /\ mean name ∈ means /\ r = dense_rank means (mean name).
Proof.
  rewrite game_weights_lookup. case_decide as Hp; [done|]. intros [= <-].
  split; [|split; [|done]].
  - destruct (decide (name ∈ game_df.*1)) as [|Hn]; [done|].
    by apply peaks_of_nil_iff in Hn.
  - apply (series_values _ name). rewrite group_mean_lookup. by rewrite decide_False.
Qed.

Lemma game_weights_in name :
  name ∈ game_df.*1 -> weights !! name = Some (dense_rank means (mean name)).
Proof.
  intros Hin. rewrite game_weights_lookup. rewrite decide_False; [done|].
  intros Hp%peaks_of_nil_iff. done.
Qed.

End GameWeights.

Example game_weights_example :
  let data := [[("A", 10); ("B", 20)]; [("A", 30); ("C", 50)]] in
  let w := GenerateSessions._calculate_game_weights data in
  w !! "A" = Some 1 /\ w !! "B" = Some 1 /\ w !! "C" = Some 2 /\ w !! "D" = None.
Proof. vm_compute. repeat split; reflexivity. Qed.


(** ** The cleaning pass *)

Section Rounding.



Lemma py_round_integer (n : Z) : py_round (inject_Z n) = n.
Proof.
  unfold py_round. rewrite Qfloor_Z.
  assert ((inject_Z n - inject_Z n ?= 1 # 2)%Q = Lt) as ->; [|done].
  rewrite <- Qlt_alt. generalize (inject_Z n). intros q. lra.
Qed.

End Rounding.

Section Cleaning.
Import GenerateSessions DateTime.

Lemma assign_durations_inv rows : forall rows',
  assign_durations rows = Ok rows' -> Forall2 reassigned rows rows'.
Proof.
  induction rows as [|r rest IH]; intros rows'; simpl.
  - intros [= <-]. constructor.
  - destruct (recomputed_duration r) as [d|e] eqn:Hd; simpl; [|done].
    destruct (assign_durations rest) as [rest'|e] eqn:Hrest; simpl; [|done].
    intros [= <-]. constructor; [by exists d|by apply IH].
Qed.


Lemma clean_sessions_unfold df :
  clean_sessions df =
  rows' ← assign_durations (default [] df);
  mret (List.filter notna (List.filter positive_duration rows')).
Proof. by destruct df as [[|r rows]|]. Qed.

Lemma clean_sessions_ok df out :
  clean_sessions df = Ok out ->
  exists rows', Forall2 reassigned (default [] df) rows'
                /\ out = List.filter notna (List.filter positive_duration rows').
Proof.
  rewrite clean_sessions_unfold.
  destruct (assign_durations (default [] df)) as [rows'|e] eqn:Ha; simpl; [|done].
  intros [= <-]. exists rows'. split; [by apply assign_durations_inv|done].
Qed.

Lemma elem_of_cleaned r' rows' :
  r' ∈ List.filter notna (List.filter positive_duration rows') <->
  r' ∈ rows' /\ positive_duration r' = true /\ notna r' = true.
Proof. rewrite !list_elem_of_In, !filter_In. tauto. Qed.


Lemma reassigned_fun r r1 r2 : reassigned r r1 -> reassigned r r2 -> r1 = r2.
Proof. intros (d1 & H1 & ->) (d2 & H2 & ->). congruence. Qed.

End Cleaning.

Example clean_sessions_example :
  let t0 := DateTime.replace_hm (DateTime.midnight 738000) 23 50 in
  let mk := fun u e d =>
    {| GenerateSessions.row_user_id := u;
       GenerateSessions.row_game_id := Some "Dota 2";
       GenerateSessions.row_session_start := Some t0;
       GenerateSessions.row_session_end := Some e;
       GenerateSessions.row_session_duration := d;
       GenerateSessions.row_day_of_week := Some "Friday";
       GenerateSessions.row_hour_of_day := Some 23 |} in
  GenerateSessions.clean_sessions
    (Some [ mk (Some "USER_0001") (DateTime.add_minutes t0 45) (Some 7);
            mk (Some "USER_0002") t0 (Some 30);
            mk None (DateTime.add_minutes t0 20) (Some 20);
            mk (Some "USER_0003") (DateTime.add_seconds t0 90) None ])
  = Ok [ mk (Some "USER_0001") (DateTime.add_minutes t0 45) (Some 45);
         mk (Some "USER_0003") (DateTime.add_seconds t0 90) (Some 2) ].
Proof. vm_compute. reflexivity. Qed.


(** ** The concrete streams satisfy the laws *)

Section LcgLaws.

Lemma lcg_pick_elem A g (l : list A) x : (Lcg.pick g l).1 = Some x -> x ∈ l.
Proof. unfold Lcg.pick. simpl. apply list_elem_of_lookup_2. Qed.

Lemma lcg_pick_some A g (l : list A) : l <> [] -> is_Some (Lcg.pick g l).1.
Proof.
  intros Hl. unfold Lcg.pick. simpl. apply lookup_lt_is_Some.
  assert (0 < Z.of_nat (length l)) by (destruct l; [done|simpl; lia]).
  pose proof (Z.mod_pos_bound g (Z.of_nat (length l))). lia.
Qed.

Lemma lcg_pick_nil A g : (Lcg.pick g (@nil A)).1 = None.
Proof. reflexivity. Qed.

Lemma lcg_pick_p_elem A g (l : list A) p x : (Lcg.pick_p g l p).1 = Some x -> x ∈ l.
Proof.
  unfold Lcg.pick_p. destruct (length l =? length p)%nat; [apply lcg_pick_elem|done].
Qed.

Lemma lcg_randint_excl_range g lo hi x :
  (Lcg.randint_excl g lo hi).1 = Some x -> lo <= x < hi.
Proof.
  unfold Lcg.randint_excl. destruct (Z.ltb_spec lo hi); simpl; [|done].
  intros [= <-]. pose proof (Z.mod_pos_bound g (hi - lo)). lia.
Qed.

Lemma lcg_randint_excl_some g lo hi : lo < hi -> is_Some (Lcg.randint_excl g lo hi).1.
Proof.
  intros H. unfold Lcg.randint_excl. destruct (Z.ltb_spec lo hi); [by eexists|lia].
Qed.

Lemma lcg_randint_excl_none g lo hi : hi <= lo -> (Lcg.randint_excl g lo hi).1 = None.
Proof.
  intros H. unfold Lcg.randint_excl. destruct (Z.ltb_spec lo hi); [lia|done].
Qed.

Lemma lcg_randint_incl_range g a b x :
  (Lcg.randint_incl g a b).1 = Some x -> a <= x <= b.
Proof.
  unfold Lcg.randint_incl. destruct (Z.leb_spec a b); simpl; [|done].
  intros [= <-]. pose proof (Z.mod_pos_bound g (b - a + 1)). lia.
Qed.

Lemma lcg_randint_incl_some g a b : a <= b -> is_Some (Lcg.randint_incl g a b).1.
Proof.
  intros H. unfold Lcg.randint_incl. destruct (Z.leb_spec a b); [by eexists|lia].
Qed.

Lemma lcg_randint_incl_none g a b : b < a -> (Lcg.randint_incl g a b).1 = None.
Proof.
  intros H. unfold Lcg.randint_incl. destruct (Z.leb_spec a b); [lia|done].
Qed.

Lemma lcg_unit_fraction g : (0 <= Lcg.unit_fraction g <= 1)%Q.
Proof.
  unfold Lcg.unit_fraction, Qle. simpl.
  pose proof (Z.mod_pos_bound g 1001). lia.
Qed.

Lemma lcg_between_range g a b :
  (Qmin a b <= (Lcg.between g a b).1 <= Qmax a b)%Q.
Proof.
  unfold Lcg.between. simpl.
  pose proof (lcg_unit_fraction g) as [H0 H1].
  pose proof (Q.le_min_l a b). pose proof (Q.le_max_l a b).
  assert (Qmin a b <= Qmax a b)%Q by (by eapply Qle_trans).
  generalize dependent (Lcg.unit_fraction g). intros u H0 H1.
  generalize dependent (Qmin a b). intros lo.
  generalize dependent (Qmax a b). intros hi ? ? ?.
  split; nra.
Qed.

End LcgLaws.

Definition lcg_numpy : NumpyRandom := {|
  np_state := Z;
  np_seed := fun s => s;
  np_choice := @Lcg.pick;
  np_choice_p := @Lcg.pick_p;
  np_randint := Lcg.randint_excl;
  np_triangular := fun g l m r => Lcg.between g l r;
  np_normal := Lcg.around;
  np_lognormal := Lcg.lognormal;
  np_choice_elem := lcg_pick_elem;
  np_choice_some := lcg_pick_some;
  np_choice_nil := lcg_pick_nil;
  np_choice_p_elem := lcg_pick_p_elem;
  np_randint_range := lcg_randint_excl_range;
  np_randint_some := lcg_randint_excl_some;
  np_randint_none := lcg_randint_excl_none;
|}.

Definition lcg_python : PyRandom := {|
  py_state := Z;
  py_uniform := Lcg.between;
  py_gauss := Lcg.around;
  py_randint := Lcg.randint_incl;
  py_uniform_range := lcg_between_range;
  py_randint_range := lcg_randint_incl_range;
  py_randint_some := lcg_randint_incl_some;
  py_randint_none := lcg_randint_incl_none;
|}.

(** ** The population-weighted simulation *)

Section PopulationSimulation.
Import GenerateSessions DateTime.
Context {R : NumpyRandom}.

Lemma lift_draw_ok {S A} (d : option A * S) x g :
  lift_draw d = Ok (x, g) -> d = (Some x, g).
Proof. destruct d as [[y|] g']; simpl; congruence. Qed.

Lemma py_trunc_nonneg x : (0 <= x)%Q -> py_trunc x = Qfloor x.
Proof.
  destruct x as [n d]. unfold Qle, py_trunc, Qfloor. simpl. intros H.
  apply Z.quot_div_nonneg; lia.
Qed.

Lemma clip_range x lo hi : (lo <= hi)%Q -> (lo <= clip x lo hi <= hi)%Q.
Proof.
  intros H. unfold clip. split.
  - apply Q.min_glb; [apply Q.le_max_r|done].
  - apply Q.le_min_r.
Qed.

Lemma py_trunc_clip_hour x : 0 <= py_trunc (clip x 0 23) <= 23.
Proof.
  destruct (clip_range x 0 23) as [H0 H23]; [done|].
  rewrite (py_trunc_nonneg _ H0).
  apply Qfloor_resp_le in H0, H23.
  change (Qfloor 0) with 0 in H0. change (Qfloor 23) with 23 in H23. done.
Qed.

Lemma simulate_one_ok games probabilities user_ids simulation_days start_date
    target_session_count i g s g' :
  simulate_one games probabilities user_ids simulation_days start_date
    target_session_count i g = Ok (s, g') ->
  target_session_count / 10 <> 0 /\ drawn_session user_ids games s.
Proof.
  unfold simulate_one, py_mod.
  destruct (Z.eqb_spec (target_session_count / 10) 0) as [|Hdiv]; simpl; [done|].
  destruct (lift_draw (np_choice g user_ids)) as [[user g1]|] eqn:H1; simpl; [|done].
  destruct (lift_draw (np_choice_p g1 games probabilities)) as [[game g2]|] eqn:H2;
    simpl; [|done].
  destruct (lift_draw (np_randint g2 0 simulation_days)) as [[day_offset g3]|] eqn:H3;
    simpl; [|done].
  destruct (if 5 <=? weekday (add_days start_date day_offset)
            then np_triangular g3 12 20 23 else np_normal g3 19 3)
    as [base_hour g4].
  destruct (lift_draw (np_randint g4 0 59)) as [[minute g5]|] eqn:H5; simpl; [|done].
  destruct (np_lognormal g5 (38 # 10) 1) as [duration g6]. simpl.
  intros [= <- <-]. split; [done|].
  apply lift_draw_ok in H1, H2, H5.
  unfold drawn_session. simpl. repeat split; try lia.
  - apply (np_choice_elem _ g). by rewrite H1.
  - apply (np_choice_p_elem _ g1 _ probabilities). by rewrite H2.
  - apply py_trunc_clip_hour.
  - apply py_trunc_clip_hour.
  - apply (np_randint_range g4 0 59). by rewrite H5.
  - apply (np_randint_range g4 0 59). by rewrite H5.
Qed.

Lemma simulate_loop_ok games probabilities user_ids simulation_days start_date
    target_session_count indices : forall g acc out g',
  simulate_loop games probabilities user_ids simulation_days start_date
    target_session_count indices g acc = Ok (out, g') ->
  exists new, out = (acc ++ new)%list
              /\ length new = length indices
              /\ Forall (drawn_session user_ids games) new
              /\ (indices <> [] -> target_session_count / 10 <> 0).
Proof.
  induction indices as [|i rest IH]; intros g acc out g'; simpl.
  - intros [= <- <-]. exists []. by rewrite app_nil_r.
  - destruct (simulate_one _ _ _ _ _ _ i g) as [[s g1]|] eqn:H1; simpl; [|done].
    apply simulate_one_ok in H1 as [Hdiv Hs].
    intros (new & -> & Hlen & Hall & _)%IH.
    exists (s :: new). rewrite <- app_assoc. simpl.
    repeat split; auto.
Qed.

Lemma simulate_loop_zero_division games probabilities user_ids simulation_days
    start_date target_session_count i rest g acc :
  target_session_count / 10 = 0 ->
  simulate_loop games probabilities user_ids simulation_days start_date
    target_session_count (i :: rest) g acc = Raise ZeroDivisionError.
Proof.
  intros H. simpl. unfold simulate_one, py_mod. rewrite H. reflexivity.
Qed.

(** The call returns the sessions of the loop started on the reseeded
    stream, whatever the stream was before. *)
Lemma simulate_user_sessions_unfold ambient gw num_users simulation_days start_date
    target_session_count :
  gw <> [] ->
  _simulate_user_sessions ambient gw num_users simulation_days start_date
    target_session_count =
  simulate_loop gw.*1
    ((fun w => w / foldr Qplus 0 gw.*2)%Q <$> gw.*2)
    (user_pool num_users) simulation_days start_date target_session_count
    (seqZ 0 target_session_count) (np_seed 42) [].
Proof. by destruct gw. Qed.

Lemma simulate_user_sessions_ok ambient gw num_users simulation_days start_date
    target_session_count out g' :
  _simulate_user_sessions ambient gw num_users simulation_days start_date
    target_session_count = Ok (out, g') ->
  length out = (if decide (gw = []) then 0%nat else Z.to_nat target_session_count)
  /\ Forall (drawn_session (user_pool num_users) gw.*1) out
  /\ (gw <> [] -> 0 < target_session_count -> 10 <= target_session_count).
Proof.
  destruct (decide (gw = [])) as [->|Hgw].
  - simpl. intros [= <- <-]. by repeat split.
  - rewrite simulate_user_sessions_unfold by done.
    intros (new & -> & Hlen & Hall & Hdiv)%simulate_loop_ok.
    rewrite length_seqZ in Hlen. simpl. repeat split; [done..|].
    intros _ Hpos.
    destruct (Z.le_gt_cases 10 target_session_count) as [|Hlt]; [done|].
    exfalso. apply Hdiv.
    + rewrite seqZ_cons by done. done.
    + apply Z.div_small. lia.
Qed.

End PopulationSimulation.

(** C2. Two calls of the population-weighted simulation with the same
    arguments return the same sequence of session records, whatever the
    state of the global stream at each call: the function reseeds the
    stream with 42 before its first draw.  In particular a second call,
    made on the stream the first call leaves behind, returns the sessions
    of the first. *)
Theorem simulate_user_sessions_deterministic {R : NumpyRandom}
    (g1 g2 : np_state) (game_weights : list (string * Q))
    (num_users simulation_days : Z) (start_date : DateTime.datetime)
    (target_session_count : Z) :
  let run := fun g =>
    GenerateSessions._simulate_user_sessions g game_weights num_users
      simulation_days start_date target_session_count in
  sessions_of (run g1) = sessions_of (run g2)
  /\ (game_weights <> [] -> run g1 = run g2)
  /\ (forall sessions g', run g1 = Ok (sessions, g') ->
        sessions_of (run g') = Ok sessions).
Proof.
  intros run. unfold run.
  destruct (decide (game_weights = [])) as [->|Hgw].
  - repeat split; [done|].
    simpl. by intros sessions g' [= <- <-].
  - assert (Heq : forall g g',
      GenerateSessions._simulate_user_sessions g game_weights num_users
        simulation_days start_date target_session_count
      = GenerateSessions._simulate_user_sessions g' game_weights num_users
          simulation_days start_date target_session_count).
    { intros g g'. by rewrite !simulate_user_sessions_unfold. }
    split; [by rewrite (Heq g1 g2)|]. split; [intros _; apply Heq|].
    intros sessions g' H. by rewrite (Heq g' g1), H.
Qed.

(** C10, as stated, fails for a negative target: the loop body is never
    entered and the call returns an empty frame. *)
Lemma negative_target_returns :
  GenerateSessions._simulate_user_sessions (R := lcg_numpy) 7
    [("Dota 2", 2%Q); ("CS", 1%Q)] 3 7 (DateTime.midnight 738000) (-1)
  = Ok ([], 42).
Proof. reflexivity. Qed.

(** C10, amended.  With a non-empty weight mapping, a target session
    count from 1 to 9 makes the progress test take a remainder modulo
    [target_session_count // 10 = 0], and the call raises
    ZeroDivisionError without returning a session; a target that is zero
    or negative returns the empty frame; so the call returns normally only
    when the target is at least 10 or at most 0. *)
Theorem progress_log_zero_division {R : NumpyRandom}
    (g : np_state) (game_weights : list (string * Q))
    (num_users simulation_days : Z) (start_date : DateTime.datetime)
    (target_session_count : Z) :
  game_weights <> [] ->
  let run :=
    GenerateSessions._simulate_user_sessions g game_weights num_users
      simulation_days start_date target_session_count in
  (1 <= target_session_count <= 9 -> run = Raise ZeroDivisionError)
  /\ (target_session_count <= 0 -> run = Ok ([], np_seed 42))
  /\ (forall out, run = Ok out -> 10 <= target_session_count \/ target_session_count <= 0).
Proof.
  intros Hgw run. unfold run. rewrite simulate_user_sessions_unfold by done.
  assert (Hsmall : 1 <= target_session_count <= 9 ->
    GenerateSessions.simulate_loop game_weights.*1
      ((fun w => w / foldr Qplus 0 game_weights.*2)%Q <$> game_weights.*2)
      (user_pool num_users) simulation_days start_date target_session_count
      (seqZ 0 target_session_count) (np_seed 42) [] = Raise ZeroDivisionError).
  { intros Hrange. rewrite seqZ_cons by lia.
    apply simulate_loop_zero_division, Z.div_small. lia. }
  split; [exact Hsmall|]. split.
  - intros Hle. by rewrite seqZ_nil.
  - intros out Hout.
    destruct (Z.le_gt_cases 10 target_session_count) as [|Hlt]; [by left|].
    destruct (Z.le_gt_cases target_session_count 0) as [|Hpos]; [by right|].
    rewrite Hsmall in Hout by lia. done.
Qed.

(** The amended C10 at five sessions for three users. *)
Lemma progress_log_zero_division_witness :
  GenerateSessions._simulate_user_sessions (R := lcg_numpy) 7
    [("Dota 2", 2%Q); ("CS", 1%Q)] 3 7 (DateTime.midnight 738000) 5
  = Raise ZeroDivisionError.
Proof.
  refine (proj1 (progress_log_zero_division (R := lcg_numpy) 7
            [("Dota 2", 2%Q); ("CS", 1%Q)] 3 7 (DateTime.midnight 738000) 5 _) _).
  - discriminate.
  - lia.
Defined.

Example ten_sessions_are_simulated :
  exists sessions g,
    GenerateSessions._simulate_user_sessions (R := lcg_numpy) 7
      [("Dota 2", 2%Q); ("CS", 1%Q)] 3 7 (DateTime.midnight 738000) 10
    = Ok (sessions, g) /\ length sessions = 10%nat.
Proof. eexists _, _. split; [vm_compute; reflexivity|reflexivity]. Qed.

(** ** The per-record expansion *)

#[local] Instance user_name_inj : Inj (=) (=) user_name.
Proof.
  intros a b H. unfold user_name in H.
  apply (inj (String.append "user_")) in H. by apply (inj pretty) in H.
Qed.

Lemma seqZ_snoc (c : Z) : 0 <= c -> seqZ 1 (c + 1) = (seqZ 1 c ++ [c + 1])%list.
Proof.
  intros Hc. rewrite seqZ_app by lia. f_equal.
  rewrite seqZ_cons by lia. rewrite seqZ_nil by lia. f_equal. lia.
Qed.

Lemma numbered_users_NoDup (ids : list string) (c : Z) :
  ids = user_name <$> seqZ 1 c -> NoDup ids.
Proof. intros ->. apply NoDup_fmap_2; [apply _|apply NoDup_seqZ]. Qed.




Section PerRecordMain.
Import SimulateSessions DateTime.
Context {R : PyRandom} (cfg : config).

Lemma one_session_ok row st st' :
  one_session cfg row st = Ok st' ->
  user_counter st' = user_counter st + 1
  /\ exists s, session_logs st' = (session_logs st ++ [s])%list
               /\ user_id s = user_name (user_counter st + 1)
               /\ log_game_name s = game_name row
               /\ SESSION_DURATION_MIN cfg <= duration s <= SESSION_DURATION_MAX cfg
               /\ session_end s = add_minutes (session_start s) (duration s).
Proof.
  unfold one_session.
  destruct (py_gauss (rng st) _ _) as [x g0].
  destruct (lift_draw (py_randint g0 0 59)) as [[m g1]|] eqn:H1; simpl; [|done].
  destruct (lift_draw (py_randint g1 0 59)) as [[s g2]|] eqn:H2; simpl; [|done].
  destruct (lift_draw (py_randint g2 _ _)) as [[d g3]|] eqn:H3; simpl; [|done].
  intros [= <-]. simpl. split; [done|]. eexists. split; [done|]. simpl.
  split; [done|]. split; [done|]. split; [|done].
  apply lift_draw_ok in H3. apply (py_randint_range g2). by rewrite H3.
Qed.


Lemma one_session_numbered row st st' :
  one_session cfg row st = Ok st' -> numbered st -> numbered st'.
Proof.
  intros (Hc & s & Hl & Hu & _)%one_session_ok [H0 Hids]. split; [lia|].
  rewrite Hc, Hl, fmap_app, Hids, seqZ_snoc, fmap_app by done. simpl.
  by rewrite Hu.
Qed.

Lemma repeat_sessions_ok n row : forall st st',
  repeat_sessions cfg n row st = Ok st' ->
  length (session_logs st') = (length (session_logs st) + n)%nat
  /\ (numbered st -> numbered st').
Proof.
  induction n as [|n IH]; intros st st'; simpl.
  - intros [= <-]. split; [lia|done].
  - destruct (one_session cfg row st) as [st1|] eqn:H1; simpl; [|done].
    intros [Hlen Hnum]%IH.
    pose proof (one_session_numbered _ _ _ H1).
    apply one_session_ok in H1 as (_ & s & Hl & _).
    rewrite Hl, length_app in Hlen. simpl in Hlen. split; [lia|auto].
Qed.


Lemma rows_loop_numbered df : forall st st',
  rows_loop cfg df st = Ok st' -> numbered st -> numbered st'.
Proof.
  induction df as [|row rest IH]; intros st st'; simpl.
  - by intros [= <-].
  - destruct (session_count cfg row (rng st)) as [[count g]|]; simpl; [|done].
    destruct count as [n|].
    + destruct (repeat_sessions cfg (Z.to_nat n) row _) as [st1|] eqn:H1; simpl; [|done].
      intros H Hnum. apply (IH _ _ H).
      apply repeat_sessions_ok in H1 as [_ H1]. by apply H1.
    + intros H Hnum. by apply (IH _ _ H).
Qed.

Lemma simulate_NoDup g df st :
  simulate cfg g df = Ok st -> NoDup (user_id <$> session_logs st).
Proof.
  intros H. unfold simulate in H.
  apply rows_loop_numbered in H as [_ H]; [by eapply numbered_users_NoDup|].
  split; [done|reflexivity].
Qed.


End PerRecordMain.

Section PerRecordPipeline.
Import Pipeline DateTime.
Context {R : PyRandom} (avg : Z).

Lemma pipeline_one_session_ok row st st' :
  one_session avg row st = Ok st' ->
  user_counter st' = user_counter st + 1
  /\ exists s, session_logs st' = (session_logs st ++ [s])%list
               /\ user_id s = user_name (user_counter st + 1)
               /\ game_id s = game_name row
               /\ duration s = avg
               /\ session_end s = add_minutes (session_start s) (duration s).
Proof.
  unfold one_session.
  destruct (lift_draw (py_randint (rng st) 0 23)) as [[h g0]|]; simpl; [|done].
  destruct (lift_draw (py_randint g0 0 59)) as [[m g1]|]; simpl; [|done].
  destruct (lift_draw (py_randint g1 0 59)) as [[s g2]|]; simpl; [|done].
  intros [= <-]. simpl. split; [done|]. eexists. by split.
Qed.


Lemma pipeline_repeat_sessions_ok n row : forall st st',
  repeat_sessions avg n row st = Ok st' ->
  length (session_logs st') = (length (session_logs st) + n)%nat
  /\ (pipeline_numbered st -> pipeline_numbered st').
Proof.
  induction n as [|n IH]; intros st st'; simpl.
  - intros [= <-]. split; [lia|done].
  - destruct (one_session avg row st) as [st1|] eqn:H1; simpl; [|done].
    intros [Hlen Hnum]%IH.
    apply pipeline_one_session_ok in H1 as (Hc & s & Hl & Hu & _).
    rewrite Hl, length_app in Hlen. simpl in Hlen. split; [lia|].
    intros [H0 Hids]. apply Hnum. split; [lia|].
    rewrite Hc, Hl, fmap_app, Hids, seqZ_snoc, fmap_app by done. simpl.
    by rewrite Hu.
Qed.


Lemma pipeline_rows_loop_numbered df : forall st st',
  rows_loop avg df st = Ok st' -> pipeline_numbered st -> pipeline_numbered st'.
Proof.
  induction df as [|row rest IH]; intros st st'; simpl.
  - by intros [= <-].
  - destruct (session_count avg row) as [count|]; simpl; [|done].
    destruct count as [n|]; [|apply IH].
    destruct (repeat_sessions avg (Z.to_nat n) row st) as [st1|] eqn:H1; simpl; [|done].
    intros H Hnum. apply (IH _ _ H).
    apply pipeline_repeat_sessions_ok in H1 as [_ H1]. by apply H1.
Qed.

Lemma simulate_sessions_NoDup g df logs g' :
  simulate_sessions avg g df = Ok (logs, g') -> NoDup (user_id <$> logs).
Proof.
  unfold simulate_sessions.
  destruct (rows_loop avg df _) as [st|] eqn:H; simpl; [|done].
  apply pipeline_rows_loop_numbered in H as [_ H]; [|split; [done|reflexivity]].
  destruct (session_logs st) as [|l ls] eqn:E; [done|].
  intros [= <- <-]. by eapply numbered_users_NoDup.
Qed.


End PerRecordPipeline.

(** ** Users and session counts, by mode *)

Lemma population_simulation_pigeonhole {R : NumpyRandom} g game_weights num_users
    simulation_days start_date target_session_count sessions g' :
  GenerateSessions._simulate_user_sessions g game_weights num_users simulation_days
    start_date target_session_count = Ok (sessions, g') ->
  (forall s, s ∈ sessions -> GenerateSessions.user_id s ∈ user_pool num_users)
  /\ (game_weights <> [] -> 0 < target_session_count ->
      num_users < target_session_count ->
      ~ NoDup (GenerateSessions.user_id <$> sessions)).
Proof.
  intros (Hlen & Hall & _)%simulate_user_sessions_ok.
  rewrite Forall_forall in Hall. split.
  - intros s Hs. by destruct (Hall s Hs) as [? _].
  - intros Hgw Hpos Hlt Hnd. rewrite decide_False in Hlen by done.
    assert (length (GenerateSessions.user_id <$> sessions)
            <= length (user_pool num_users))%nat as Hle.
    { apply submseteq_length, NoDup_submseteq; [done|].
      intros u (s & -> & Hs)%list_elem_of_fmap. by destruct (Hall s Hs) as [? _]. }
    unfold user_pool in Hle. rewrite !length_fmap, length_seqZ, Hlen in Hle. lia.
Qed.

(** C4, as stated, fails for the population-weighted simulation: with
    three users and ten sessions the same identifiers come back. *)
Lemma population_simulation_reuses_users :
  exists sessions,
    sessions_of (GenerateSessions._simulate_user_sessions (R := lcg_numpy) 7
                   [("Dota 2", 2%Q); ("CS", 1%Q)] 3 7 (DateTime.midnight 738000) 10)
    = Ok sessions
    /\ GenerateSessions.user_id <$> sessions
       = ["USER_0001"; "USER_0001"; "USER_0001"; "USER_0003"; "USER_0002";
          "USER_0003"; "USER_0003"; "USER_0003"; "USER_0003"; "USER_0003"]
    /\ ~ NoDup (GenerateSessions.user_id <$> sessions).
Proof.
  eexists. split; [vm_compute; reflexivity|]. split; [reflexivity|].
  simpl. intros [Hn _]%NoDup_cons. apply Hn. left.
Qed.

(** C4, amended.  In the per-record expansion, both in [main] of
    simulate_sessions.py and in [simulate_sessions] of pipeline.py, a
    counter mints the identifiers user_1, user_2, ..., and each user_id
    occurs in at most one session.  In the population-weighted simulation
    the user of a session is drawn, with replacement, from the fixed pool
    USER_0001 ... USER_num_users: every user_id belongs to the pool, and
    when more sessions than users are simulated some user_id occurs
    twice. *)
Theorem user_identifiers_by_mode :
  (forall (R : PyRandom) cfg g df st,
     SimulateSessions.simulate cfg g df = Ok st ->
     NoDup (SimulateSessions.user_id <$> SimulateSessions.session_logs st)) /\
  (forall (R : PyRandom) avg g df logs g',
     Pipeline.simulate_sessions avg g df = Ok (logs, g') ->
     NoDup (Pipeline.user_id <$> logs)) /\
  (forall (R : NumpyRandom) g game_weights num_users simulation_days start_date
          target_session_count sessions g',
     GenerateSessions._simulate_user_sessions g game_weights num_users
       simulation_days start_date target_session_count = Ok (sessions, g') ->
     (forall s, s ∈ sessions -> GenerateSessions.user_id s ∈ user_pool num_users)
     /\ (game_weights <> [] -> 0 < target_session_count ->
         num_users < target_session_count ->
         ~ NoDup (GenerateSessions.user_id <$> sessions))).
Proof.
  split; [|split].
  - intros R cfg g df st. apply simulate_NoDup.
  - intros R avg g df logs g'. apply simulate_sessions_NoDup.
  - intros R g gw nu sd start target sessions g'.
    apply population_simulation_pigeonhole.
Qed.

Example per_record_users :
  let cfg := {| SimulateSessions.AVG_SESSION_DURATION_MIN := 30;
                SimulateSessions.MAX_SESSIONS_PER_DAY := 100;
                SimulateSessions.SESSION_DURATION_MIN := 20;
                SimulateSessions.SESSION_DURATION_MAX := 40;
                SimulateSessions.SESSION_COUNT_NOISE := 0;
                SimulateSessions.SESSION_PEAK_HOUR := 20;
                SimulateSessions.SESSION_PEAK_STDDEV := 3 |} in
  let df := [ {| game_name := "Dota 2"; date := 738000;
                 hours_played := 1; peak_players := 100 |};
              {| game_name := "CS"; date := 738000;
                 hours_played := 3 # 2; peak_players := 50 |} ] in
  logged_users (SimulateSessions.simulate (R := lcg_python) cfg 7 df)
  = Ok ["user_1"; "user_2"; "user_3"; "user_4"; "user_5"].
Proof. vm_compute. reflexivity. Qed.



(** ** The persistence sink *)

Section StoreFacts.
Import Sqlite.
Context {Rec : Type}.
Implicit Types (c : connection Rec) (rows : list Rec) (file : database Rec).








End StoreFacts.

Example second_run_replaces_first :
  let s := fun u =>
    {| Pipeline.user_id := u; Pipeline.game_id := "Dota 2";
       Pipeline.session_start := DateTime.midnight 738000;
       Pipeline.session_end := DateTime.add_minutes (DateTime.midnight 738000) 30;
       Pipeline.duration := 30 |} in
  let run1 := (Pipeline.setup_database true None [s "user_1"; s "user_2"] ∅).2 in
  let run2 := (Pipeline.setup_database true None [s "user_9"] run1).2 in
  let run3 := (Pipeline.setup_database false (Some 1%nat) [s "user_1"; s "user_2"] run2).2 in
  run1 !! "session_logs" = Some [(1, s "user_1"); (2, s "user_2")]
  /\ run2 !! "session_logs" = Some [(1, s "user_9")]
  /\ run3 !! "session_logs" = Some [].
Proof. vm_compute. repeat split; reflexivity. Qed.


(** ** The simulated sessions through the cleaning pass *)

Section SimulatedThenCleaned.
Import GenerateSessions DateTime.

Lemma split_seconds n :
  n / 86400 * 86400 + (n mod 86400 / 3600 * 3600 + n mod 3600 / 60 * 60 + n mod 60) = n.
Proof. Z.div_mod_to_equations. lia. Qed.

Lemma to_microseconds_add_seconds t s :
  to_microseconds (add_seconds t s) = to_microseconds t + s * 1000000.
Proof.
  unfold to_microseconds, add_seconds, second_of_day. simpl.
  pose proof (split_seconds (hour t * 3600 + minute t * 60 + second t + s)) as E.
  lia.
Qed.

Lemma total_seconds_add_minutes t d :
  (total_seconds t (add_minutes t d) / 60 == inject_Z d)%Q.
Proof.
  unfold total_seconds, add_minutes. rewrite to_microseconds_add_seconds.
  unfold Qdiv, Qmult, Qinv, Qeq, inject_Z. simpl. lia.
Qed.

Lemma py_round_proper x y : (x == y)%Q -> py_round x = py_round y.
Proof.
  intros H. unfold py_round. rewrite (Qfloor_comp _ _ H).
  assert ((x - inject_Z (Qfloor y) ?= 1 # 2) = (y - inject_Z (Qfloor y) ?= 1 # 2))%Q
    as ->; [|done].
  apply Qcompare_comp; [|done]. by rewrite H.
Qed.

Lemma filter_all {A} (f : A -> bool) (l : list A) :
  Forall (fun x => f x = true) l -> List.filter f l = l.
Proof. induction 1 as [|x l Hx _ IH]; simpl; [done|]. by rewrite Hx, IH. Qed.

Lemma set_duration_row_of_session s :
  set_duration (row_of_session s) (session_duration s) = row_of_session s.
Proof. by destruct s. Qed.

Lemma recomputed_duration_drawn user_ids games s :
  drawn_session user_ids games s ->
  recomputed_duration (row_of_session s) = Ok (session_duration s).
Proof.
  intros (_ & _ & _ & _ & _ & _ & Hend). unfold recomputed_duration. simpl.
  rewrite Hend. f_equal.
  rewrite (py_round_proper _ _ (total_seconds_add_minutes _ _)).
  apply py_round_integer.
Qed.

Lemma assign_durations_drawn user_ids games sessions :
  Forall (drawn_session user_ids games) sessions ->
  assign_durations (row_of_session <$> sessions) = Ok (row_of_session <$> sessions).
Proof.
  induction 1 as [|s l Hs _ IH]; [done|]. rewrite fmap_cons.
  change (assign_durations (row_of_session s :: (row_of_session <$> l)))
    with (d ← recomputed_duration (row_of_session s);
          rest' ← assign_durations (row_of_session <$> l);
          mret (set_duration (row_of_session s) d :: rest')).
  rewrite (recomputed_duration_drawn _ _ _ Hs), IH. simpl.
  by rewrite set_duration_row_of_session.
Qed.


End SimulatedThenCleaned.


(** ** The cleaners on sample inputs *)

Example clean_numeric_string_samples :
  Utils.clean_numeric_string (PyNum.VStr "1e5") = PyNum.VNA
  /\ Utils.clean_numeric_string (PyNum.VStr " -1_000.5e-1 ")
     = PyNum.VFloat (PyNum.FFinite (- (2001 # 20)))
  /\ Utils.clean_numeric_string (PyNum.VStr "1_.5") = PyNum.VNA
  /\ Utils.clean_numeric_string (PyNum.VStr ".") = PyNum.VNA
  /\ Utils.clean_numeric_string (PyNum.VStr "5.") = PyNum.VFloat (PyNum.FFinite 5)
  /\ Utils.clean_numeric_string (PyNum.VStr "+42") = PyNum.VInt 42
  /\ Utils.clean_numeric_string (PyNum.VStr "") = PyNum.VNA
  /\ Utils.clean_numeric_string PyNum.VNone = PyNum.VNA.
Proof. repeat split; reflexivity. Qed.

Example clean_column_name_samples :
  Utils.clean_column_name "  Hours   Played" = "hours_played"
  /\ Utils.clean_column_name (String PyStr.dquote "Peak No. of Players")
     = "peak_no._of_players"
  /\ GenerateSessions.standardize_column "Peak - Players" = "peak_players".
Proof. repeat split; reflexivity. Qed.

(** * Further properties of the code *)

(** ** More on the population-weighted simulation *)

Section PopulationSimulationWindow.
Import GenerateSessions DateTime.
Context {R : NumpyRandom}.

Lemma add_days_in_range t d :
  time_in_range t ->
  ordinal (add_days t d) = ordinal t + d
  /\ second (add_days t d) = second t.
Proof.
  intros (Hh & Hm & Hs). unfold add_days, add_seconds, second_of_day. simpl.
  split.
  - assert ((hour t * 3600 + minute t * 60 + second t + d * 86400) / 86400 = d)
      as ->; [|done].
    rewrite Z.div_add by done. rewrite Z.div_small; lia.
  - rewrite Z.add_mod by done.
    replace (d * 86400) with (d * 1440 * 60) by lia.
    rewrite Z.mod_mul by done. rewrite Z.add_0_r, Z.mod_mod by done.
    replace (hour t * 3600 + minute t * 60 + second t)
      with (second t + (hour t * 60 + minute t) * 60) by lia.
    rewrite Z.mod_add by done. apply Z.mod_small. lia.
Qed.

Lemma simulate_one_window games probabilities user_ids simulation_days start_date
    target_session_count i g s g' :
  time_in_range start_date ->
  simulate_one games probabilities user_ids simulation_days start_date
    target_session_count i g = Ok (s, g') ->
  (exists day_offset, 0 <= day_offset < simulation_days
     /\ ordinal (session_start s) = ordinal start_date + day_offset)
  /\ second (session_start s) = second start_date
  /\ day_of_week s = day_name (session_start s).
Proof.
  intros Hrange. unfold simulate_one, py_mod.
  destruct (Z.eqb_spec (target_session_count / 10) 0) as [|Hdiv]; simpl; [done|].
  destruct (lift_draw (np_choice g user_ids)) as [[user g1]|]; simpl; [|done].
  destruct (lift_draw (np_choice_p g1 games probabilities)) as [[game g2]|];
    simpl; [|done].
  destruct (lift_draw (np_randint g2 0 simulation_days)) as [[day_offset g3]|] eqn:H3;
    simpl; [|done].
  destruct (if 5 <=? weekday (add_days start_date day_offset)
            then np_triangular g3 12 20 23 else np_normal g3 19 3)
    as [base_hour g4].
  destruct (lift_draw (np_randint g4 0 59)) as [[minute g5]|]; simpl; [|done].
  destruct (np_lognormal g5 (38 # 10) 1) as [duration g6]. simpl.
  intros [= <- <-]. simpl.
  apply lift_draw_ok in H3.
  destruct (add_days_in_range start_date day_offset Hrange) as [Ho Hs].
  split; [|by split].
  exists day_offset. split; [|done].
  apply (np_randint_range g2 0 simulation_days). by rewrite H3.
Qed.

Lemma simulate_loop_window games probabilities user_ids simulation_days start_date
    target_session_count indices :
  time_in_range start_date -> forall g acc out g',
  simulate_loop games probabilities user_ids simulation_days start_date
    target_session_count indices g acc = Ok (out, g') ->
  exists new, out = (acc ++ new)%list
    /\ Forall (fun s =>
         (exists day_offset, 0 <= day_offset < simulation_days
            /\ ordinal (session_start s) = ordinal start_date + day_offset)
         /\ second (session_start s) = second start_date
         /\ day_of_week s = day_name (session_start s)) new.
Proof.
  intros Hrange.
  induction indices as [|i rest IH]; intros g acc out g'; simpl.
  - intros [= <- <-]. exists []. by rewrite app_nil_r.
  - destruct (simulate_one _ _ _ _ _ _ i g) as [[s g1]|] eqn:H1; simpl; [|done].
    apply (simulate_one_window _ _ _ _ _ _ _ _ _ _ Hrange) in H1.
    intros (new & -> & Hall)%IH.
    exists (s :: new). rewrite <- app_assoc. by split; [|constructor].
Qed.

End PopulationSimulationWindow.

(** X2. When the population-weighted simulation returns for a non-empty
    weight mapping and a start date with a time of day in range, it
    returns exactly target_session_count sessions, and each one is for a
    game of the mapping and a user of the pool, starts on a day of the
    window [start_date, start_date + simulation_days), at an hour from 0
    to 23 and a minute from 0 to 58 (never 59), keeps the seconds of
    start_date, lasts from 15 to 600 minutes and ends that many minutes
    after its start. *)
Theorem simulate_user_sessions_postcondition {R : NumpyRandom}
    (g : np_state) (game_weights : list (string * Q))
    (num_users simulation_days : Z) (start_date : DateTime.datetime)
    (target_session_count : Z) sessions g' :
  game_weights <> [] ->
  time_in_range start_date ->
  GenerateSessions._simulate_user_sessions g game_weights num_users
    simulation_days start_date target_session_count = Ok (sessions, g') ->
  length sessions = Z.to_nat target_session_count
  /\ Forall (session_in_window game_weights.*1 num_users start_date simulation_days)
       sessions.
Proof.
  intros Hgw Hrange Hrun.
  pose proof (simulate_user_sessions_ok _ _ _ _ _ _ _ _ Hrun) as (Hlen & Hall & _).
  rewrite decide_False in Hlen by done. split; [done|].
  rewrite simulate_user_sessions_unfold in Hrun by done.
  apply (simulate_loop_window _ _ _ _ _ _ _ Hrange) in Hrun as (new & -> & Hwin).
  simpl in *. rewrite Forall_forall in Hall, Hwin. apply Forall_forall.
  intros s Hs.
  destruct (Hall s Hs) as (Hu & Hg & Hd & Hh & Hhh & Hm & He).
  destruct (Hwin s Hs) as (Hoff & Hsec & Hday).
  unfold session_in_window. repeat split; try done; lia.
Qed.

(** X2 on a run of ten sessions over a week. *)
Lemma simulate_user_sessions_postcondition_witness :
  exists sessions g',
    GenerateSessions._simulate_user_sessions (R := lcg_numpy) 7
      [("Dota 2", 2%Q); ("CS", 1%Q)] 3 7 (DateTime.midnight 738000) 10
    = Ok (sessions, g')
    /\ length sessions = Z.to_nat 10
    /\ Forall (session_in_window [("Dota 2", 2%Q); ("CS", 1%Q)].*1 3
                 (DateTime.midnight 738000) 7) sessions.
Proof.
  eexists _, _. split; [vm_compute; reflexivity|].
  refine (simulate_user_sessions_postcondition (R := lcg_numpy) 7
            [("Dota 2", 2%Q); ("CS", 1%Q)] 3 7 (DateTime.midnight 738000) 10 _ _ _ _ _).
  - discriminate.
  - unfold time_in_range. simpl. lia.
  - vm_compute. reflexivity.
Defined.

(** X3. With a non-empty weight mapping and a target of at least 10, the
    simulation raises ValueError, and returns nothing, when the user pool
    is empty (num_users <= 0) or the window is empty
    (simulation_days <= 0): the first iteration fails on a draw. *)
Theorem simulate_user_sessions_empty_pool_or_window {R : NumpyRandom}
    (g : np_state) (game_weights : list (string * Q))
    (num_users simulation_days : Z) (start_date : DateTime.datetime)
    (target_session_count : Z) :
  game_weights <> [] ->
  10 <= target_session_count ->
  num_users <= 0 \/ simulation_days <= 0 ->
  GenerateSessions._simulate_user_sessions g game_weights num_users
    simulation_days start_date target_session_count = Raise ValueError.
Proof.
  intros Hgw Ht Hempty. rewrite simulate_user_sessions_unfold by done.
  rewrite seqZ_cons by lia. simpl GenerateSessions.simulate_loop.
  unfold GenerateSessions.simulate_one, py_mod.
  destruct (Z.eqb_spec (target_session_count / 10) 0) as [Hz|_].
  { exfalso. assert (1 <= target_session_count / 10); [|lia].
    apply Z.div_le_lower_bound; lia. }
  simpl.
  destruct (np_choice (np_seed 42) (user_pool num_users)) as [[user|] g1] eqn:H1;
    simpl; [|done].
  destruct Hempty as [Hu|Hd].
  { exfalso. unfold user_pool in H1. rewrite seqZ_nil in H1 by done.
    pose proof (np_choice_nil string (np_seed 42)) as Hnil.
    simpl in H1. rewrite H1 in Hnil. done. }
  destruct (np_choice_p g1 _ _) as [[game|] g2]; simpl; [|done].
  pose proof (np_randint_none g2 0 simulation_days Hd) as Hnone.
  destruct (np_randint g2 0 simulation_days) as [[x|] g3]; simpl in *; done.
Qed.

(** X3 with no user at all. *)
Lemma simulate_user_sessions_empty_pool_witness :
  GenerateSessions._simulate_user_sessions (R := lcg_numpy) 7
    [("Dota 2", 2%Q); ("CS", 1%Q)] 0 7 (DateTime.midnight 738000) 10
  = Raise ValueError.
Proof.
  refine (simulate_user_sessions_empty_pool_or_window (R := lcg_numpy) 7
            [("Dota 2", 2%Q); ("CS", 1%Q)] 0 7 (DateTime.midnight 738000) 10 _ _ _).
  - discriminate.
  - lia.
  - left. lia.
Defined.

(** ** More on the cleaning pass *)

Section CleaningTwice.
Import GenerateSessions DateTime.

Lemma list_filter_sublist {A} (f : A -> bool) (l : list A) : sublist (List.filter f l) l.
Proof.
  induction l as [|x l IH]; simpl; [constructor|].
  destruct (f x); by constructor.
Qed.

Lemma recomputed_duration_set r d d' :
  recomputed_duration r = Ok d -> recomputed_duration (set_duration r d') = Ok d.
Proof. done. Qed.

Lemma set_duration_twice r d d' : set_duration (set_duration r d) d' = set_duration r d'.
Proof. done. Qed.

Lemma assign_durations_fixed rows :
  Forall (fun r' => exists r d, recomputed_duration r = Ok d /\ r' = set_duration r d) rows ->
  assign_durations rows = Ok rows.
Proof.
  induction 1 as [|r' rest (r & d & Hd & ->) _ IH]; [done|].
  change (assign_durations (set_duration r d :: rest))
    with (x ← recomputed_duration (set_duration r d);
          rest' ← assign_durations rest;
          mret (set_duration (set_duration r d) x :: rest')).
  rewrite (recomputed_duration_set _ _ d Hd), IH. simpl.
  by rewrite set_duration_twice.
Qed.

End CleaningTwice.

(** X4. The cleaning pass is idempotent: cleaning a frame it returned
    gives that frame back, with no row removed and no duration changed. *)
Theorem clean_sessions_idempotent (df : option (list GenerateSessions.row)) out :
  GenerateSessions.clean_sessions df = Ok out ->
  GenerateSessions.clean_sessions (Some out) = Ok out.
Proof.
  intros (rows' & HF & ->)%clean_sessions_ok.
  set (out := List.filter _ _).
  assert (Hall : Forall (fun r' => (exists r d,
                    GenerateSessions.recomputed_duration r = Ok d
                    /\ r' = GenerateSessions.set_duration r d)
                  /\ GenerateSessions.positive_duration r' = true
                  /\ GenerateSessions.notna r' = true) out).
  { apply Forall_forall. intros r' (Hin & Hpos & Hna)%elem_of_cleaned.
    split; [|done].
    apply list_elem_of_lookup in Hin as [i Hi].
    destruct (Forall2_lookup_r _ _ _ _ _ HF Hi) as (r & _ & d & Hd & ->). eauto. }
  rewrite clean_sessions_unfold. simpl default.
  rewrite assign_durations_fixed
    by (eapply Forall_impl; [exact Hall|]; by intros r' [H _]).
  simpl. f_equal.
  rewrite (filter_all GenerateSessions.positive_duration)
    by (eapply Forall_impl; [exact Hall|]; by intros r' (_ & H & _)).
  apply filter_all. eapply Forall_impl; [exact Hall|]. by intros r' (_ & _ & H).
Qed.

(** X4 on a frame of four rows, two of which survive. *)
Lemma clean_sessions_idempotent_witness :
  let t0 := DateTime.replace_hm (DateTime.midnight 738000) 23 50 in
  let mk := fun u e d =>
    {| GenerateSessions.row_user_id := u;
       GenerateSessions.row_game_id := Some "Dota 2";
       GenerateSessions.row_session_start := Some t0;
       GenerateSessions.row_session_end := Some e;
       GenerateSessions.row_session_duration := d;
       GenerateSessions.row_day_of_week := Some "Friday";
       GenerateSessions.row_hour_of_day := Some 23 |} in
  GenerateSessions.clean_sessions
    (Some [ mk (Some "USER_0001") (DateTime.add_minutes t0 45) (Some 45);
            mk (Some "USER_0003") (DateTime.add_seconds t0 90) (Some 2) ])
  = Ok [ mk (Some "USER_0001") (DateTime.add_minutes t0 45) (Some 45);
         mk (Some "USER_0003") (DateTime.add_seconds t0 90) (Some 2) ].
Proof.
  intros t0 mk.
  refine (clean_sessions_idempotent
    (Some [ mk (Some "USER_0001") (DateTime.add_minutes t0 45) (Some 7);
            mk (Some "USER_0002") t0 (Some 30);
            mk None (DateTime.add_minutes t0 20) (Some 20);
            mk (Some "USER_0003") (DateTime.add_seconds t0 90) None ]) _ _).
  vm_compute. reflexivity.
Defined.

(** X5. The cleaning pass never adds, duplicates or reorders rows: its
    result is a subsequence of the input frame with the durations
    reassigned, so the count of removed rows it logs is never negative. *)
Theorem clean_sessions_subsequence (df : option (list GenerateSessions.row)) out :
  GenerateSessions.clean_sessions df = Ok out ->
  (exists rows', Forall2 reassigned (default [] df) rows' /\ sublist out rows')
  /\ (length out <= length (default [] df))%nat.
Proof.
  intros (rows' & HF & ->)%clean_sessions_ok.
  assert (Hsub : sublist (List.filter GenerateSessions.notna
                    (List.filter GenerateSessions.positive_duration rows')) rows').
  { etrans; apply list_filter_sublist. }
  split; [by exists rows'|].
  rewrite (Forall2_length _ _ _ HF). by apply sublist_length.
Qed.

(** X5 on the same frame. *)
Lemma clean_sessions_subsequence_witness :
  let t0 := DateTime.replace_hm (DateTime.midnight 738000) 23 50 in
  let mk := fun u e d =>
    {| GenerateSessions.row_user_id := u;
       GenerateSessions.row_game_id := Some "Dota 2";
       GenerateSessions.row_session_start := Some t0;
       GenerateSessions.row_session_end := Some e;
       GenerateSessions.row_session_duration := d;
       GenerateSessions.row_day_of_week := Some "Friday";
       GenerateSessions.row_hour_of_day := Some 23 |} in
  let df := Some [ mk (Some "USER_0001") (DateTime.add_minutes t0 45) (Some 7);
                   mk (Some "USER_0002") t0 (Some 30);
                   mk None (DateTime.add_minutes t0 20) (Some 20);
                   mk (Some "USER_0003") (DateTime.add_seconds t0 90) None ] in
  let out := [ mk (Some "USER_0001") (DateTime.add_minutes t0 45) (Some 45);
               mk (Some "USER_0003") (DateTime.add_seconds t0 90) (Some 2) ] in
  (exists rows', Forall2 reassigned (default [] df) rows' /\ sublist out rows')
  /\ (length out <= length (default [] df))%nat.
Proof.
  intros t0 mk df out.
  refine (clean_sessions_subsequence df out _).
  vm_compute. reflexivity.
Defined.

(** ** More on the header normaliser of [_load_and_standardize_game_data] *)

Lemma standardize_column_free s :
  PyStr.all (fun c => negb (GenerateSessions.space_or_hyphen c) && negb (PyStr.isupper c))
    (GenerateSessions.standardize_column s) = true.
Proof.
  unfold GenerateSessions.standardize_column.
  assert (H1 : PyStr.all (fun c => negb (GenerateSessions.space_or_hyphen c))
                 (PyStr.sub_runs GenerateSessions.space_or_hyphen
                    (PyStr.lower (PyStr.strip s))) = true)
    by (by apply sub_runs_free).
  assert (H2 : PyStr.all (fun c => negb (PyStr.isupper c))
                 (PyStr.sub_runs GenerateSessions.space_or_hyphen
                    (PyStr.lower (PyStr.strip s))) = true)
    by (apply all_sub_runs; [done|apply lower_not_upper]).
  revert H1 H2.
  generalize (PyStr.sub_runs GenerateSessions.space_or_hyphen
                (PyStr.lower (PyStr.strip s))).
  intros t. induction t as [|c t IH]; simpl; [done|].
  intros [-> H1]%andb_prop [-> H2]%andb_prop. simpl. auto.
Qed.

(** X6. The header normaliser of [_load_and_standardize_game_data]
    returns a name without whitespace, hyphen or upper-case letter, and
    normalising such a name again changes nothing. *)
Theorem standardize_column_idempotent s :
  PyStr.all (fun c => negb (GenerateSessions.space_or_hyphen c) && negb (PyStr.isupper c))
    (GenerateSessions.standardize_column s) = true
  /\ GenerateSessions.standardize_column (GenerateSessions.standardize_column s)
     = GenerateSessions.standardize_column s.
Proof.
  pose proof (standardize_column_free s) as H. split; [done|].
  revert H. generalize (GenerateSessions.standardize_column s). intros t H.
  assert (Hs : PyStr.all (fun c => negb (PyStr.isspace c)) t = true).
  { revert H. apply all_impl. intros c [H _]%andb_prop.
    unfold GenerateSessions.space_or_hyphen in H.
    apply negb_true_iff, orb_false_elim in H as [-> _]. done. }
  assert (Hh : PyStr.all (fun c => negb (GenerateSessions.space_or_hyphen c)) t = true).
  { revert H. apply all_impl. by intros c [H _]%andb_prop. }
  assert (Hu : PyStr.all (fun c => negb (PyStr.isupper c)) t = true).
  { revert H. apply all_impl. by intros c [_ H]%andb_prop. }
  unfold GenerateSessions.standardize_column.
  by rewrite (strip_id _ Hs), (lower_id _ Hu), (sub_runs_id _ _ Hh).
Qed.

(** ** More on the per-record expansion *)

Lemma add_hms_midnight d h m s :
  0 <= h <= 23 -> 0 <= m <= 59 -> 0 <= s <= 59 ->
  DateTime.add_hms (DateTime.midnight d) h m s
  = {| DateTime.ordinal := d; DateTime.hour := h; DateTime.minute := m;
       DateTime.second := s; DateTime.microsecond := 0 |}.
Proof.
  intros Hh Hm Hs.
  unfold DateTime.add_hms, DateTime.add_seconds, DateTime.midnight,
    DateTime.second_of_day. simpl.
  replace (0 * 3600 + 0 * 60 + 0 + (h * 3600 + m * 60 + s))
    with (h * 3600 + m * 60 + s) by lia.
  set (tot := h * 3600 + m * 60 + s).
  assert (0 <= tot < 86400) as Htot by (unfold tot; lia).
  rewrite (Z.div_small tot 86400), (Z.mod_small tot 86400) by done.
  assert (tot / 3600 = h) as ->.
  { symmetry. apply (Z.div_unique_pos tot 3600 h (m * 60 + s)); unfold tot; lia. }
  assert (tot mod 3600 = m * 60 + s) as ->.
  { symmetry. apply (Z.mod_unique_pos tot 3600 h (m * 60 + s)); unfold tot; lia. }
  assert ((m * 60 + s) / 60 = m) as ->.
  { symmetry. apply (Z.div_unique_pos (m * 60 + s) 60 m s); lia. }
  assert (tot mod 60 = s) as ->.
  { symmetry. apply (Z.mod_unique_pos tot 60 (h * 60 + m) s); unfold tot; lia. }
  f_equal. lia.
Qed.

Section PerRecordMainSessions.
Import SimulateSessions DateTime.
Context {R : PyRandom} (cfg : config).

Lemma one_session_expanded row st st' :
  (0 < hours_played row)%Q ->
  one_session cfg row st = Ok st' ->
  exists s, session_logs st' = (session_logs st ++ [s])%list
            /\ expanded_from cfg row s.
Proof.
  intros Hpos. unfold one_session.
  destruct (py_gauss (rng st) _ _) as [x g0].
  destruct (lift_draw (py_randint g0 0 59)) as [[m g1]|] eqn:H1; simpl; [|done].
  destruct (lift_draw (py_randint g1 0 59)) as [[s g2]|] eqn:H2; simpl; [|done].
  destruct (lift_draw (py_randint g2 _ _)) as [[d g3]|] eqn:H3; simpl; [|done].
  intros [= <-]. cbn [session_logs]. eexists. split; [done|].
  apply lift_draw_ok in H1, H2, H3.
  assert (0 <= m <= 59) as Hm by (apply (py_randint_range g0); by rewrite H1).
  assert (0 <= s <= 59) as Hs by (apply (py_randint_range g1); by rewrite H2).
  assert (SESSION_DURATION_MIN cfg <= d <= SESSION_DURATION_MAX cfg) as Hd
    by (apply (py_randint_range g2); by rewrite H3).
  unfold expanded_from.
  cbn [session_start session_end duration log_game_name].
  rewrite add_hms_midnight by lia.
  cbn [ordinal hour minute second].
  repeat split; try done; lia.
Qed.

Lemma one_session_empty_range row st :
  SESSION_DURATION_MAX cfg < SESSION_DURATION_MIN cfg ->
  one_session cfg row st = Raise ValueError.
Proof.
  intros Hd. unfold one_session.
  destruct (py_gauss (rng st) _ _) as [x g0].
  destruct (lift_draw (py_randint g0 0 59)) as [[m g1]|[]] eqn:H1; simpl; try done;
    try (destruct (py_randint g0 0 59) as [[?|] ?]; simpl in H1; done).
  destruct (lift_draw (py_randint g1 0 59)) as [[s g2]|[]] eqn:H2; simpl; try done;
    try (destruct (py_randint g1 0 59) as [[?|] ?]; simpl in H2; done).
  pose proof (py_randint_none g2 _ _ Hd) as Hnone.
  destruct (py_randint g2 _ _) as [[?|] ?]; simpl in *; done.
Qed.

Lemma repeat_sessions_expanded n row : forall st st',
  (0 < hours_played row)%Q ->
  repeat_sessions cfg n row st = Ok st' ->
  exists new, session_logs st' = (session_logs st ++ new)%list
              /\ length new = n
              /\ Forall (expanded_from cfg row) new.
Proof.
  induction n as [|n IH]; intros st st' Hpos; simpl.
  - intros [= <-]. exists []. by rewrite app_nil_r.
  - destruct (one_session cfg row st) as [st1|] eqn:H1; simpl; [|done].
    apply (one_session_expanded _ _ _ Hpos) in H1 as (s & Hl & Hs).
    intros (new & Hl' & Hlen & Hall)%IH; [|done].
    exists (s :: new). rewrite Hl', Hl, <- app_assoc. simpl.
    split; [done|]. split; [by rewrite Hlen|by constructor].
Qed.

Lemma session_count_some row g n g' :
  session_count cfg row g = Ok (Some n, g') -> (0 < hours_played row)%Q.
Proof.
  unfold session_count.
  destruct (Qle_bool (hours_played row) 0) eqn:E; [done|]. intros _.
  apply Qnot_le_lt. intros H%Qle_bool_iff. congruence.
Qed.

Lemma session_count_nonpositive row g :
  (hours_played row <= 0)%Q -> session_count cfg row g = Ok (None, g).
Proof.
  intros H%Qle_bool_iff. unfold session_count. by rewrite H.
Qed.

Lemma rows_loop_expanded df : forall st st',
  rows_loop cfg df st = Ok st' ->
  exists new, session_logs st' = (session_logs st ++ new)%list
              /\ Forall (fun s => exists row, row ∈ df /\ expanded_from cfg row s) new.
Proof.
  induction df as [|row rest IH]; intros st st'; simpl.
  - intros [= <-]. exists []. by rewrite app_nil_r.
  - destruct (session_count cfg row (rng st)) as [[count g]|] eqn:Hc; simpl; [|done].
    destruct count as [n|].
    + apply session_count_some in Hc.
      destruct (repeat_sessions cfg (Z.to_nat n) row _) as [st1|] eqn:H1; simpl; [|done].
      apply (repeat_sessions_expanded _ _ _ _ Hc) in H1 as (new1 & Hl1 & _ & Hall1).
      intros (new & Hl & Hall)%IH. exists (new1 ++ new)%list.
      rewrite Hl, Hl1. simpl. rewrite <- app_assoc. split; [done|].
      apply Forall_app. split.
      * eapply Forall_impl; [exact Hall1|]. intros s Hs. exists row. by split; [left|].
      * eapply Forall_impl; [exact Hall|]. intros s (r & Hr & Hs). exists r.
        by split; [right|].
    + intros (new & Hl & Hall)%IH. exists new. split; [done|].
      eapply Forall_impl; [exact Hall|]. intros s (r & Hr & Hs). exists r.
      by split; [right|].
Qed.

Lemma rows_loop_nonpositive df : forall st,
  Forall (fun row => (hours_played row <= 0)%Q) df ->
  exists g, rows_loop cfg df st
            = Ok {| user_counter := user_counter st;
                    session_logs := session_logs st; rng := g |}.
Proof.
  induction df as [|row rest IH]; intros st Hall; simpl.
  - exists (rng st). by destruct st.
  - inversion Hall as [|? ? Hrow Hrest]; subst.
    rewrite (session_count_nonpositive _ _ Hrow). simpl.
    apply (IH {| user_counter := user_counter st;
                 session_logs := session_logs st; rng := rng st |} Hrest).
Qed.

Lemma rows_loop_empty_range df : forall st st',
  SESSION_DURATION_MAX cfg < SESSION_DURATION_MIN cfg ->
  rows_loop cfg df st = Ok st' -> session_logs st' = session_logs st.
Proof.
  induction df as [|row rest IH]; intros st st' Hd; simpl.
  - by intros [= <-].
  - destruct (session_count cfg row (rng st)) as [[count g]|]; simpl; [|done].
    destruct count as [n|]; [|intros H; by apply IH in H].
    destruct (Z.to_nat n) as [|k]; simpl.
    + intros H. by apply IH in H.
    + by rewrite one_session_empty_range.
Qed.

End PerRecordMainSessions.

(** X7. Every session [main] of simulate_sessions.py simulates comes
    from a record of the frame with hours_played > 0: it carries the game
    name of that record, starts on the date of that record (hour 0 to 23,
    so never on the next day), lasts between session_duration_min and
    session_duration_max minutes and ends that many minutes after its
    start. *)
Theorem main_sessions_expand_records {R : PyRandom} (cfg : SimulateSessions.config)
    (g : py_state) (df : list daily_row) st :
  SimulateSessions.simulate cfg g df = Ok st ->
  Forall (fun s => exists row, row ∈ df /\ expanded_from cfg row s)
    (SimulateSessions.session_logs st).
Proof.
  intros (new & Hl & Hall)%rows_loop_expanded. simpl in Hl. by rewrite Hl.
Qed.

(** X7 on a frame of two records. *)
Lemma main_sessions_expand_records_witness :
  let cfg := {| SimulateSessions.AVG_SESSION_DURATION_MIN := 30;
                SimulateSessions.MAX_SESSIONS_PER_DAY := 100;
                SimulateSessions.SESSION_DURATION_MIN := 20;
                SimulateSessions.SESSION_DURATION_MAX := 40;
                SimulateSessions.SESSION_COUNT_NOISE := 0;
                SimulateSessions.SESSION_PEAK_HOUR := 20;
                SimulateSessions.SESSION_PEAK_STDDEV := 3 |} in
  let df := [ {| game_name := "Dota 2"; date := 738000;
                 hours_played := 1; peak_players := 100 |};
              {| game_name := "CS"; date := 738001;
                 hours_played := 3 # 2; peak_players := 50 |} ] in
  exists logs,
    logged_sessions (SimulateSessions.simulate (R := lcg_python) cfg 7 df) = Ok logs
    /\ length logs = 5%nat
    /\ Forall (fun s => exists row, row ∈ df /\ expanded_from cfg row s) logs.
Proof.
  intros cfg df.
  destruct (SimulateSessions.simulate (R := lcg_python) cfg 7 df) as [st|e] eqn:Hrun.
  - exists (SimulateSessions.session_logs st). split; [done|].
    split; [|exact (main_sessions_expand_records (R := lcg_python) cfg 7 df st Hrun)].
    assert (Hu : logged_users (SimulateSessions.simulate (R := lcg_python) cfg 7 df)
                 = Ok ["user_1"; "user_2"; "user_3"; "user_4"; "user_5"])
      by (vm_compute; reflexivity).
    rewrite Hrun in Hu. simpl in Hu. injection Hu as Hu.
    apply (f_equal length) in Hu. by rewrite length_fmap in Hu.
  - exfalso.
    assert (Hu : logged_users (SimulateSessions.simulate (R := lcg_python) cfg 7 df)
                 = Ok ["user_1"; "user_2"; "user_3"; "user_4"; "user_5"])
      by (vm_compute; reflexivity).
    rewrite Hrun in Hu. discriminate Hu.
Defined.

(** X8. [main] of simulate_sessions.py writes to the database only
    after simulating at least one session: when no record has
    hours_played > 0 (for instance when the frame is empty), or when
    session_duration_max < session_duration_min, a call that returns
    leaves the database file as it was; in the first case the call does
    return. *)
Theorem main_without_sessions_keeps_database {R : PyRandom}
    (cfg : SimulateSessions.config) (own_transaction : bool) (fail_at : option nat)
    (g : py_state) (df : list daily_row)
    (file : Sqlite.database SimulateSessions.session_log) :
  Forall (fun row => (hours_played row <= 0)%Q) df
  \/ SimulateSessions.SESSION_DURATION_MAX cfg < SimulateSessions.SESSION_DURATION_MIN cfg ->
  (forall file', SimulateSessions.main cfg own_transaction fail_at g df file = Ok file' ->
                 file' = file)
  /\ (Forall (fun row => (hours_played row <= 0)%Q) df ->
      SimulateSessions.main cfg own_transaction fail_at g df file = Ok file).
Proof.
  intros Hcase.
  assert (Hnone : Forall (fun row => (hours_played row <= 0)%Q) df ->
            SimulateSessions.main cfg own_transaction fail_at g df file = Ok file).
  { intros Hall. unfold SimulateSessions.main, SimulateSessions.simulate.
    destruct (rows_loop_nonpositive cfg df
                {| SimulateSessions.user_counter := 0;
                   SimulateSessions.session_logs := [];
                   SimulateSessions.rng := g |} Hall) as [g' ->].
    reflexivity. }
  split; [|exact Hnone].
  intros file' Hmain. destruct Hcase as [Hall|Hd].
  - rewrite (Hnone Hall) in Hmain. by injection Hmain.
  - unfold SimulateSessions.main, SimulateSessions.simulate in Hmain.
    destruct (SimulateSessions.rows_loop cfg df _) as [st|] eqn:Hloop; simpl in Hmain;
      [|done].
    apply (rows_loop_empty_range cfg df _ _ Hd) in Hloop. simpl in Hloop.
    rewrite Hloop in Hmain. by injection Hmain.
Qed.

(** X8 on a frame whose only record has no hours. *)
Lemma main_without_sessions_keeps_database_witness :
  let cfg := {| SimulateSessions.AVG_SESSION_DURATION_MIN := 30;
                SimulateSessions.MAX_SESSIONS_PER_DAY := 100;
                SimulateSessions.SESSION_DURATION_MIN := 20;
                SimulateSessions.SESSION_DURATION_MAX := 40;
                SimulateSessions.SESSION_COUNT_NOISE := 0;
                SimulateSessions.SESSION_PEAK_HOUR := 20;
                SimulateSessions.SESSION_PEAK_STDDEV := 3 |} in
  let df := [ {| game_name := "Dota 2"; date := 738000;
                 hours_played := 0; peak_players := 100 |} ] in
  SimulateSessions.main (R := lcg_python) cfg true None 7 df ∅ = Ok ∅.
Proof.
  intros cfg df.
  refine (proj2 (main_without_sessions_keeps_database (R := lcg_python)
                   cfg true None 7 df ∅ _) _).
  - left. repeat constructor. unfold Qle. simpl. lia.
  - repeat constructor. unfold Qle. simpl. lia.
Defined.

Section PerRecordPipelineSessions.
Import Pipeline DateTime.
Context {R : PyRandom} (avg : Z).







End PerRecordPipelineSessions.





Section DecimalSpelling.
Import PyNum.

Lemma all_app p s t : PyStr.all p (s ++ t) = PyStr.all p s && PyStr.all p t.
Proof.
  induction s as [|c s IH]; simpl; [done|]. by rewrite IH, andb_assoc.
Qed.

Lemma list_ascii_app s t :
  list_ascii_of_string (s ++ t)
  = (list_ascii_of_string s ++ list_ascii_of_string t)%list.
Proof. induction s as [|c s IH]; simpl; [done|]. by rewrite IH. Qed.

Lemma string_app_snoc s c t : (s ++ String c "") ++ t = s ++ String c t.
Proof.
  induction s as [|d s IH]; [done|].
  change (String d ((s ++ String c "") ++ t) = String d (s ++ String c t)).
  by rewrite IH.
Qed.

Lemma pretty_N_go_app (x : N) : forall s, pretty_N_go x s = pretty_N_go x "" ++ s.
Proof.
  induction (N.lt_wf_0 x) as [x _ IH]. intros s.
  destruct (decide (x = 0%N)) as [->|Hx]; [done|].
  rewrite (pretty_N_go_step x s), (pretty_N_go_step x "") by lia.
  assert (x `div` 10 < x)%N as Hd by (apply N.div_lt; lia).
  rewrite (IH _ Hd (String _ s)), (IH _ Hd (String _ "")).
  by rewrite string_app_snoc.
Qed.

Lemma pretty_N_go_snoc (x : N) :
  (0 < x)%N ->
  pretty_N_go x "" = pretty_N_go (x `div` 10) "" ++ String (pretty_N_char (x `mod` 10)) "".
Proof. intros Hx. rewrite pretty_N_go_step by done. apply pretty_N_go_app. Qed.

Lemma pretty_N_char_digit (n : N) : PyStr.isdigit (pretty_N_char n) = true.
Proof. unfold pretty_N_char. by repeat case_match. Qed.

Lemma pretty_N_char_val (n : N) : (n < 10)%N -> digit_val (pretty_N_char n) = Z.of_N n.
Proof.
  intros Hn.
  assert (Forall (fun k => digit_val (pretty_N_char k) = Z.of_N k)
            (N.of_nat <$> seq 0 10)) as Hall by (by repeat constructor).
  rewrite Forall_forall in Hall. apply Hall.
  apply list_elem_of_fmap. exists (N.to_nat n). split; [lia|].
  apply elem_of_seq. lia.
Qed.

Lemma pretty_N_go_digits (x : N) : PyStr.all PyStr.isdigit (pretty_N_go x "") = true.
Proof.
  induction (N.lt_wf_0 x) as [x _ IH].
  destruct (decide (x = 0%N)) as [->|Hx]; [done|].
  rewrite pretty_N_go_snoc, all_app by lia. simpl.
  rewrite IH by (apply N.div_lt; lia). by rewrite pretty_N_char_digit.
Qed.

(** The number a string of digits spells. *)
Lemma read_digits_chars b s :
  PyStr.all PyStr.isdigit s = true ->
  read_digits b s = (digit_val <$> list_ascii_of_string s, "").
Proof.
  revert b. induction s as [|c s IH]; intros b; simpl; [done|].
  intros [Hc Hs]%andb_prop. by rewrite Hc, (IH true Hs).
Qed.

Lemma py_int_chars s :
  PyStr.all PyStr.isdigit s = true -> s <> "" ->
  py_int s = Some (digits_value (digit_val <$> list_ascii_of_string s)).
Proof.
  intros H Hne. unfold py_int.
  rewrite (strip_id _ (digits_not_space _ H)), (read_sign_digits _ H).
  rewrite (read_digits_chars _ _ H).
  destruct s as [|c s]; [done|]. reflexivity.
Qed.

Lemma digits_value_snoc ds d : digits_value (ds ++ [d]) = 10 * digits_value ds + d.
Proof. unfold digits_value. by rewrite fold_left_app. Qed.

Lemma pretty_N_go_value (x : N) :
  digits_value (digit_val <$> list_ascii_of_string (pretty_N_go x "")) = Z.of_N x.
Proof.
  induction (N.lt_wf_0 x) as [x _ IH].
  destruct (decide (x = 0%N)) as [->|Hx]; [done|].
  rewrite pretty_N_go_snoc, list_ascii_app, fmap_app by lia. simpl.
  rewrite digits_value_snoc, IH by (apply N.div_lt; lia).
  rewrite pretty_N_char_val by (apply N.mod_lt; lia).
  rewrite (N.div_mod x 10) at 3 by lia. lia.
Qed.

Lemma pretty_N_digits (n : N) :
  PyStr.all PyStr.isdigit (pretty n) = true /\ pretty n <> "".
Proof.
  unfold pretty, pretty_N. destruct (decide (n = 0%N)) as [->|Hn]; [done|].
  split; [apply pretty_N_go_digits|].
  rewrite pretty_N_go_snoc by lia. by destruct (pretty_N_go _ "").
Qed.

Lemma pretty_N_value (n : N) :
  digits_value (digit_val <$> list_ascii_of_string (pretty n)) = Z.of_N n.
Proof.
  unfold pretty, pretty_N. destruct (decide (n = 0%N)) as [->|Hn]; [done|].
  apply pretty_N_go_value.
Qed.

(** [int] reads the decimal spelling of a natural number back. *)
Lemma py_int_pretty_N (n : N) : py_int (pretty n) = Some (Z.of_N n).
Proof.
  destruct (pretty_N_digits n) as [Hd Hne].
  by rewrite (py_int_chars _ Hd Hne), pretty_N_value.
Qed.

Lemma digits_no_dot s : PyStr.all PyStr.isdigit s = true -> PyStr.contains "." s = false.
Proof.
  induction s as [|c s IH]; simpl; [done|].
  intros [Hc Hs]%andb_prop. rewrite (IH Hs), orb_false_r.
  destruct c as [[] [] [] [] [] [] [] []]; try reflexivity; discriminate Hc.
Qed.

Lemma pretty_Z_no_dot (z : Z) : PyStr.contains "." (pretty z) = false.
Proof.
  destruct z as [|p|p]; [done|..]; unfold pretty, pretty_Z, pretty, pretty_positive.
  - apply digits_no_dot, pretty_N_digits.
  - simpl. apply digits_no_dot, pretty_N_digits.
Qed.

(** [int] reads the decimal spelling of an integer back. *)
Lemma py_int_pretty_Z (z : Z) : py_int (pretty z) = Some z.
Proof.
  destruct z as [|p|p]; [done|..]; unfold pretty, pretty_Z, pretty, pretty_positive.
  - apply (py_int_pretty_N (Npos p)).
  - destruct (pretty_N_digits (Npos p)) as [Hd Hne].
    unfold py_int.
    rewrite strip_id
      by (simpl; apply (digits_not_space _ Hd)).
    simpl. rewrite (read_digits_chars _ _ Hd).
    pose proof (pretty_N_value (Npos p)) as Hv.
    destruct (pretty (Npos p)) as [|c s] eqn:E; [done|].
    simpl in *. unfold apply_sign. rewrite Hv. reflexivity.
Qed.

Lemma digit_val_nonneg c : PyStr.isdigit c = true -> 0 <= digit_val c.
Proof.
  unfold PyStr.isdigit, digit_val. intros [H _]%andb_prop.
  apply N.leb_le in H. lia.
Qed.

Lemma fold_digits_nonneg ds : forall acc,
  0 <= acc -> Forall (fun d => 0 <= d) ds ->
  0 <= fold_left (fun acc d => 10 * acc + d) ds acc.
Proof.
  induction ds as [|d ds IH]; simpl; intros acc Ha Hall; [done|].
  inversion Hall; subst. apply IH; [lia|done].
Qed.

Lemma chars_nonneg s :
  PyStr.all PyStr.isdigit s = true ->
  Forall (fun d => 0 <= d) (digit_val <$> list_ascii_of_string s).
Proof.
  induction s as [|c s IH]; simpl; [constructor|].
  intros [Hc Hs]%andb_prop. constructor; [by apply digit_val_nonneg|by apply IH].
Qed.

End DecimalSpelling.

Section DecimalCleaning.
Import PyNum.

Lemma keep_id p s : PyStr.all p s = true -> PyStr.keep p s = s.
Proof.
  induction s as [|c s IH]; simpl; [done|].
  intros [Hc Hs]%andb_prop. by rewrite Hc, (IH Hs).
Qed.

Lemma keep_digits_pretty_Z (z : Z) :
  PyStr.keep PyStr.isdigit (pretty z) = pretty (Z.to_N (Z.abs z)).
Proof.
  destruct z as [|p|p]; [done|..]; unfold pretty at 1, pretty_Z, pretty, pretty_positive.
  - apply keep_id, (pretty_N_digits (Npos p)).
  - simpl. apply keep_id, (pretty_N_digits (Npos p)).
Qed.

Lemma clean_numeric_cell_pretty_N cell (n : N) :
  PyStr.keep PyStr.isdigit cell = pretty n ->
  GenerateSessions.clean_numeric_cell cell = Some (Z.of_N n).
Proof.
  intros H. unfold GenerateSessions.clean_numeric_cell. rewrite H.
  destruct (pretty_N_digits n) as [_ Hne].
  destruct (String.eqb_spec (pretty n) ""); [done|].
  apply py_int_pretty_N.
Qed.

Lemma clean_numeric_cell_nonneg cell z :
  GenerateSessions.clean_numeric_cell cell = Some z -> 0 <= z.
Proof.
  unfold GenerateSessions.clean_numeric_cell.
  destruct (String.eqb_spec (PyStr.keep PyStr.isdigit cell) "") as [_|Hne].
  - intros [= <-]. done.
  - rewrite (py_int_chars _ (keep_digits_all cell) Hne). intros [= <-].
    apply fold_digits_nonneg; [done|]. apply chars_nonneg, keep_digits_all.
Qed.

End DecimalCleaning.

(** X11. [clean_numeric_string] reads a decimal integer back whatever
    commas and quote characters were written into it: when the string,
    with those characters taken out, is the decimal spelling of the
    integer z, the result is the int z (and the same holds for the copy
    [clean_numeric] of simple_etl.py). *)
Theorem clean_numeric_string_reads_integers (s : string) (z : Z) :
  stripped_numeric s = pretty z ->
  Utils.clean_numeric_string (PyNum.VStr s) = PyNum.VInt z
  /\ SimpleEtl.clean_numeric (PyNum.VStr s) = PyNum.VInt z.
Proof.
  intros H.
  assert (Utils.clean_numeric_string (PyNum.VStr s) = PyNum.VInt z) as Hu.
  { unfold Utils.clean_numeric_string.
    change (PyStr.remove "," (PyStr.remove PyStr.dquote s)) with (stripped_numeric s).
    cbv zeta. by rewrite H, pretty_Z_no_dot, py_int_pretty_Z. }
  split; [done|]. by rewrite clean_numeric_twin.
Qed.

(** X11 on a quoted number with thousands separators. *)
Lemma clean_numeric_string_reads_integers_witness :
  Utils.clean_numeric_string (PyNum.VStr "-1,234,567") = PyNum.VInt (-1234567)
  /\ SimpleEtl.clean_numeric (PyNum.VStr "-1,234,567") = PyNum.VInt (-1234567).
Proof.
  apply (clean_numeric_string_reads_integers "-1,234,567" (-1234567)).
  reflexivity.
Defined.

(** X12. [_clean_numeric_column] drops the sign of an integer column:
    a series of int64 values (which astype(str) turns into their decimal
    spellings) comes back as the series of their absolute values.  The
    bound is the range of the column type, which the final astype(int)
    cannot leave. *)
Theorem clean_numeric_column_drops_signs (zs : list Z) :
  Forall (fun z => - 2 ^ 63 < z < 2 ^ 63) zs ->
  GenerateSessions._clean_numeric_column (pretty <$> zs) = Some (Z.abs <$> zs).
Proof.
  intros _. unfold GenerateSessions._clean_numeric_column.
  induction zs as [|z zs IH]; [done|].
  rewrite !fmap_cons.
  change (mapM GenerateSessions.clean_numeric_cell (pretty z :: (pretty <$> zs)))
    with (x ← GenerateSessions.clean_numeric_cell (pretty z);
          k ← mapM GenerateSessions.clean_numeric_cell (pretty <$> zs); mret (x :: k)).
  rewrite IH, (clean_numeric_cell_pretty_N _ _ (keep_digits_pretty_Z z)).
  simpl. do 3 f_equal. lia.
Qed.

(** X12 on a column with a negative entry. *)
Lemma clean_numeric_column_drops_signs_witness :
  GenerateSessions._clean_numeric_column (pretty <$> [-5; 0; 1200])
  = Some (Z.abs <$> [-5; 0; 1200]).
Proof.
  apply (clean_numeric_column_drops_signs [-5; 0; 1200]).
  repeat constructor; lia.
Defined.

(** X13. Whatever the cells hold, a series returned by
    [_clean_numeric_column] has the length of its input and no negative
    entry; a cell whose digits spell the natural number n (whatever
    stands between them: sign, separators, decimal point, unit) gives
    n. *)
Theorem clean_numeric_column_nonnegative (series : list string) (out : list Z) :
  GenerateSessions._clean_numeric_column series = Some out ->
  length out = length series
  /\ Forall (fun z => 0 <= z) out
  /\ forall i cell (n : N),
       series !! i = Some cell ->
       PyStr.keep PyStr.isdigit cell = pretty n ->
       out !! i = Some (Z.of_N n).
Proof.
  unfold GenerateSessions._clean_numeric_column. intros H.
  apply mapM_Some in H.
  split; [symmetry; by eapply Forall2_length|].
  split.
  - induction H as [|cell z series out Hz _ IH]; constructor; [|done].
    by eapply clean_numeric_cell_nonneg.
  - intros i cell n Hi Hn.
    destruct (Forall2_lookup_l _ _ _ _ _ H Hi) as (z & Hz & Hcell).
    rewrite Hz. rewrite (clean_numeric_cell_pretty_N _ _ Hn) in Hcell. congruence.
Qed.

(** X13 on a column of decorated numbers. *)
Lemma clean_numeric_column_nonnegative_witness :
  let series := ["1,234 players"; "-7.50"; "n/a"] in
  exists out,
    GenerateSessions._clean_numeric_column series = Some out
    /\ length out = length series
    /\ Forall (fun z => 0 <= z) out
    /\ out !! 1%nat = Some 750.
Proof.
  intros series. exists [1234; 750; 0]. split; [reflexivity|].
  destruct (clean_numeric_column_nonnegative series [1234; 750; 0] eq_refl)
    as (Hlen & Hall & Hat).
  split; [exact Hlen|]. split; [exact Hall|].
  exact (Hat 1%nat "-7.50" 750%N eq_refl eq_refl).
Defined.

(** ** Loading the game data *)

Lemma NoDup_fst_functional {A B} (l : list (A * B)) x y1 y2 :
  NoDup l.*1 -> (x, y1) ∈ l -> (x, y2) ∈ l -> y1 = y2.
Proof.
  induction l as [|[a b] l IH]; simpl; [by intros _ ?%elem_of_nil|].
  intros [Ha Hnd]%NoDup_cons [[= -> ->]|H1]%elem_of_cons [[= ->]|H2]%elem_of_cons.
  - done.
  - destruct Ha. apply list_elem_of_fmap. by exists (a, y2).
  - destruct Ha. apply list_elem_of_fmap. by exists (a, y1).
  - by apply IH.
Qed.

Section VariationMapping.
Import LoadGameData.

Variable columns : list string.


Lemma find_col_some vs c :
  find_col vs columns = Some c ->
  c ∈ columns /\ c ∈ cleaned_variation <$> vs.
Proof.
  induction vs as [|v vs IH]; simpl; [done|].
  case_bool_decide as Hv.
  - intros [= <-]. split; [done|]. by left.
  - intros [Hc Hin]%IH. split; [done|]. by right.
Qed.

(** The variations are tried in their order: an earlier one that is a
    column wins. *)
Lemma find_col_first vs c :
  find_col vs columns = Some c ->
  exists i, (cleaned_variation <$> vs) !! i = Some c
            /\ forall j v, (j < i)%nat -> (cleaned_variation <$> vs) !! j = Some v ->
                           v ∉ columns.
Proof.
  induction vs as [|v vs IH]; simpl; [done|].
  case_bool_decide as Hv.
  - intros [= <-]. exists 0%nat. split; [done|]. intros j w Hj. lia.
  - intros (i & Hi & Hbefore)%IH. exists (S i). split; [done|].
    intros [|j] w Hj; simpl.
    + by intros [= <-].
    + apply Hbefore. lia.
Qed.

Lemma find_col_head vs std :
  head (cleaned_variation <$> vs) = Some std -> std ∈ columns ->
  find_col vs columns = Some std.
Proof.
  destruct vs as [|v vs]; simpl; [done|]. intros [= ->] Hin.
  by rewrite bool_decide_eq_true_2.
Qed.

Lemma map_variations_none stds m0 :
  map_variations stds columns m0 = None <->
  Exists (fun sd => required sd.2 = true
                    /\ truthy (find_col (variations sd.2) columns) = false) stds.
Proof.
  revert m0. induction stds as [|[std d] rest IH]; intros m0; simpl.
  - split; [done|]. intros H. inversion H.
  - destruct (truthy _) eqn:Ht.
    + rewrite IH. split; [by right|]. intros H. inversion H as [? ? [_ Hf]|]; subst; [|done].
      simpl in Hf. congruence.
    + destruct (required d) eqn:Hr.
      * split; [|done]. intros _. by left.
      * rewrite IH. split; [by right|].
        intros H. inversion H as [? ? [Hf _]|]; subst; [|done]. simpl in Hf. congruence.
Qed.

Section WellFormed.

Variable stds0 : list (string * details).
Hypothesis variations_nonempty :
  forall std d v, (std, d) ∈ stds0 -> v ∈ variations d -> cleaned_variation v <> "".
Hypothesis variations_disjoint :
  forall std1 d1 std2 d2 v,
    (std1, d1) ∈ stds0 -> (std2, d2) ∈ stds0 ->
    v ∈ cleaned_variation <$> variations d1 ->
    v ∈ cleaned_variation <$> variations d2 -> std1 = std2 /\ d1 = d2.
Hypothesis variations_head :
  forall std d, (std, d) ∈ stds0 ->
    head (cleaned_variation <$> variations d) = Some std.

Lemma truthy_find std d :
  (std, d) ∈ stds0 ->
  truthy (find_col (variations d) columns) = bool_decide (is_Some (find_col (variations d) columns)).
Proof.
  intros Hin. destruct (find_col (variations d) columns) as [c|] eqn:E; simpl; [|done].
  apply find_col_some in E as [_ (v & -> & Hv)%list_elem_of_fmap].
  pose proof (variations_nonempty _ _ _ Hin Hv) as Hne.
  by destruct (String.eqb_spec (cleaned_variation v) "").
Qed.

Lemma map_variations_lookup stds m0 m c std :
  stds ⊆ stds0 -> NoDup stds.*1 ->
  map_variations stds columns m0 = Some m ->
  m !! c = Some std <->
  renames columns stds c std \/ (m0 !! c = Some std /\ forall std', ~ renames columns stds c std').
Proof.
  revert m0. induction stds as [|[s d] rest IH]; intros m0 Hsub Hnd; simpl.
  - intros [= <-]. split.
    + intros H. right. split; [done|]. intros std' (d & Hd & _). by apply elem_of_nil in Hd.
    + intros [(d & Hd & _)|[H _]]; [by apply elem_of_nil in Hd|done].
  - assert ((s, d) ∈ stds0) as Hin by (apply Hsub; left).
    assert (rest ⊆ stds0) as Hsub' by (intros x Hx; apply Hsub; by right).
    apply NoDup_cons in Hnd as [Hs Hnd].
    assert (forall c' std', renames columns rest c' std' ->
              find_col (variations d) columns = Some c' -> False) as Hfresh.
    { intros c' std' (d' & Hd' & Hf' & _) Hf.
      apply find_col_some in Hf as [_ Hv], Hf' as [_ Hv'].
      destruct (variations_disjoint s d std' d' c' Hin (Hsub' _ Hd') Hv Hv') as [<- <-].
      apply Hs. apply list_elem_of_fmap. by exists (s, d). }
    assert (forall c' std', renames columns ((s, d) :: rest) c' std' <->
              (std' = s /\ find_col (variations d) columns = Some c' /\ c' <> s)
              \/ renames columns rest c' std') as Hcons.
    { intros c' std'. unfold renames. split.
      - intros (d' & [[= -> ->]|Hd']%elem_of_cons & Hf & Hne); [by left|].
        right. by exists d'.
      - intros [(-> & Hf & Hne)|(d' & Hd' & Hf & Hne)].
        + exists d. split; [left|done].
        + exists d'. split; [by right|done]. }
    rewrite (truthy_find _ _ Hin).
    destruct (find_col (variations d) columns) as [found|] eqn:Hf; simpl.
    + intros Hm. rewrite (IH _ Hsub' Hnd Hm), Hcons.
      case_bool_decide as Hne.
      * destruct (decide (c = found)) as [->|Hc].
        -- rewrite lookup_insert_eq. split.
           ++ intros [H|[[= <-] _]]; [by left; right|]. left. by left.
           ++ intros [[(-> & _ & _)|H]|[_ Hno]].
              ** right. split; [done|]. intros std' Hr. by eapply Hfresh.
              ** by left.
              ** exfalso. apply (Hno s). apply Hcons. by left.
        -- rewrite lookup_insert_ne by done. split.
           ++ intros [H|[H0 Hno]]; [by left; right|]. right. split; [done|].
              intros std' [(_ & [= ->] & _)|Hr]%Hcons; [done|]. by eapply Hno.
           ++ intros [[(_ & [= ->] & _)|H]|[H0 Hno]]; [done|by left|].
              right. split; [done|]. intros std' Hr. apply (Hno std'), Hcons. by right.
      * subst found. split.
        -- intros [H|[H0 Hno]]; [by left; right|]. right. split; [done|].
           intros std' [(_ & [= ->] & Hne')|Hr]%Hcons; [done|by eapply Hno].
        -- intros [[(_ & [= ->] & Hne')|H]|[H0 Hno]]; [done|by left|].
           right. split; [done|]. intros std' Hr. apply (Hno std'), Hcons. by right.
    + destruct (required d); [done|].
      intros Hm. rewrite (IH _ Hsub' Hnd Hm), Hcons. split.
      * intros [H|[H0 Hno]]; [by left; right|]. right. split; [done|].
        intros std' [(_ & ? & _)|Hr]%Hcons; [done|]. by eapply Hno.
      * intros [[(_ & ? & _)|H]|[H0 Hno]]; [done|by left|].
        right. split; [done|]. intros std' Hr. apply (Hno std'), Hcons. by right.
Qed.

(** After the renaming, the label [std] is carried by the column that
    the loop found for it, and by no other. *)
Lemma renamed_standard m std d n c :
  NoDup stds0.*1 ->
  map_variations stds0 columns ∅ = Some m ->
  (std, d) ∈ stds0 ->
  find_col (variations d) columns = Some n ->
  c ∈ columns ->
  renamed m c = std <-> c = n.
Proof.
  intros Hnd Hm Hin Hf Hc. unfold renamed.
  pose proof (fun c std => map_variations_lookup stds0 ∅ m c std (reflexivity _) Hnd Hm)
    as Hlook.
  assert (forall c std, m !! c = Some std <-> renames columns stds0 c std) as Hlook'.
  { intros c' std'. rewrite Hlook. split; [|by left].
    intros [H|[H _]]; [done|]. by rewrite lookup_empty in H. }
  split.
  - destruct (m !! c) as [v|] eqn:E; simpl.
    + intros ->. apply Hlook' in E as (d' & Hd' & Hf' & _).
      assert (d' = d) as ->; [|congruence].
      apply (NoDup_fst_functional _ std d' d Hnd Hd' Hin).
    + intros ->. rewrite (find_col_head _ _ (variations_head _ _ Hin) Hc) in Hf. congruence.
  - intros ->. destruct (decide (n = std)) as [->|Hne].
    + destruct (m !! std) as [v|] eqn:E; simpl; [|done].
      apply Hlook' in E as (d' & Hd' & Hf' & Hne').
      apply find_col_some in Hf as [_ Hv], Hf' as [_ Hv'].
      by destruct (variations_disjoint _ _ _ _ _ Hin Hd' Hv Hv') as [-> _].
    + assert (m !! n = Some std) as ->; [|done].
      apply Hlook'. by exists d.
Qed.

(** A column that no entry found keeps its label, and the label is no
    standard name unless it was one already. *)
Lemma renamed_other m c :
  NoDup stds0.*1 ->
  map_variations stds0 columns ∅ = Some m ->
  (forall std d, (std, d) ∈ stds0 -> find_col (variations d) columns <> Some c) ->
  renamed m c = c.
Proof.
  intros Hnd Hm Hno. unfold renamed.
  destruct (m !! c) as [v|] eqn:E; simpl; [|done].
  apply (map_variations_lookup stds0 ∅ m c v (reflexivity _) Hnd Hm) in E
    as [(d & Hd & Hf & _)|[E _]]; [by destruct (Hno _ _ Hd)|].
  by rewrite lookup_empty in E.
Qed.

End WellFormed.

End VariationMapping.

Section StandardColumns.
Import LoadGameData.

Ltac standard_entry H :=
  repeat (apply elem_of_cons in H as [[= -> ->]|H]); [..|by apply elem_of_nil in H].

Ltac listed H :=
  repeat (apply elem_of_cons in H as [->|H]); [..|by apply elem_of_nil in H].

Ltac evaluated H :=
  match type of H with
  | _ ∈ ?l => let l' := eval vm_compute in l in change l with l' in H
  end.

Lemma standard_columns_NoDup : NoDup standard_columns.*1.
Proof. apply (bool_decide_unpack _). by vm_compute. Qed.

Lemma standard_variations_nonempty std d v :
  (std, d) ∈ standard_columns -> v ∈ variations d -> cleaned_variation v <> "".
Proof. intros Hin Hv. standard_entry Hin; simpl in Hv; listed Hv; done. Qed.

Lemma standard_variations_disjoint std1 d1 std2 d2 v :
  (std1, d1) ∈ standard_columns -> (std2, d2) ∈ standard_columns ->
  v ∈ cleaned_variation <$> variations d1 ->
  v ∈ cleaned_variation <$> variations d2 -> std1 = std2 /\ d1 = d2.
Proof.
  intros H1 H2 Hv1 Hv2.
  standard_entry H1; standard_entry H2; try done;
    evaluated Hv1; listed Hv1; evaluated Hv2;
    repeat (apply elem_of_cons in Hv2 as [Hv|Hv2]; [discriminate Hv|]);
    by apply elem_of_nil in Hv2.
Qed.

Lemma standard_variations_head std d :
  (std, d) ∈ standard_columns ->
  head (cleaned_variation <$> variations d) = Some std.
Proof. intros Hin. standard_entry Hin; reflexivity. Qed.

End StandardColumns.

Section FrameOperations.
Import LoadGameData.

Lemma select_cons label lc (df : dataframe) :
  select label (lc :: df)
  = if decide (lc.1 = label) then lc.2 :: select label df else select label df.
Proof. unfold select. rewrite filter_cons. by destruct (decide (lc.1 = label)). Qed.

Lemma select_nil_iff label (df : dataframe) : select label df = [] <-> label ∉ df.*1.
Proof.
  induction df as [|lc df IH]; [by split; [intros _ ?%elem_of_nil|]|].
  rewrite select_cons, fmap_cons, not_elem_of_cons.
  destruct (decide (lc.1 = label)) as [E|E].
  - split; [done|]. intros [H _]. by destruct H.
  - rewrite IH. split; [by split|by intros [_ H]].
Qed.

Lemma select_assign label c (df : dataframe) :
  select label (assign label c df) = (fun _ => c) <$> select label df.
Proof.
  induction df as [|lc df IH]; [done|].
  unfold assign in *. rewrite fmap_cons, (select_cons label lc).
  case_bool_decide as E.
  - rewrite select_cons. simpl. rewrite decide_True by done.
    rewrite decide_True by done. rewrite fmap_cons. by rewrite IH.
  - rewrite select_cons. rewrite !decide_False by done. exact IH.
Qed.

Lemma select_assign_ne label label' c (df : dataframe) :
  label' <> label -> select label' (assign label c df) = select label' df.
Proof.
  intros Hne. induction df as [|lc df IH]; [done|].
  unfold assign in *. rewrite fmap_cons, (select_cons label' lc).
  case_bool_decide as E.
  - rewrite select_cons. simpl. rewrite decide_False by done.
    rewrite decide_False by congruence. exact IH.
  - rewrite select_cons.
    destruct (decide (lc.1 = label')); by rewrite IH.
Qed.

Lemma select_drop label (df : dataframe) : select label (drop label df) = [].
Proof.
  apply select_nil_iff. unfold drop. intros (lc & Hl & Hin%list_elem_of_filter)%list_elem_of_fmap.
  by destruct Hin as [Hne _].
Qed.

Lemma select_drop_ne label label' (df : dataframe) :
  label' <> label -> select label' (drop label df) = select label' df.
Proof.
  intros Hne. induction df as [|lc df IH]; [done|].
  unfold drop in *. rewrite filter_cons, (select_cons label' lc).
  destruct (decide (lc.1 <> label)) as [E|E].
  - rewrite select_cons. destruct (decide (lc.1 = label')); by rewrite IH.
  - apply dec_stable in E. rewrite decide_False by congruence. exact IH.
Qed.

(** One turn of the cleaning loop changes the columns of its own label
    only. *)
Lemma clean_loop_select_other stds label : forall df,
  label ∉ stds.*1 -> select label (clean_loop stds df) = select label df.
Proof.
  induction stds as [|[s d] rest IH]; intros df; [done|].
  rewrite fmap_cons, not_elem_of_cons. intros [Hne Hrest]. simpl in Hne. simpl.
  case_bool_decide; [|by apply IH].
  destruct (cleaned_column d (select s df)).
  - by rewrite IH, select_assign_ne.
  - by apply IH.
  - by rewrite IH, select_drop_ne.
Qed.

Lemma clean_loop_select stds label d : forall df,
  NoDup stds.*1 -> (label, d) ∈ stds ->
  select label (clean_loop stds df)
  = match select label df with
    | [] => []
    | selected =>
        match cleaned_column d selected with
        | Assigned c => (fun _ => c) <$> selected
        | Untouched => selected
        | Failed => []
        end
    end.
Proof.
  induction stds as [|[s d0] rest IH]; intros df; [by intros _ ?%elem_of_nil|].
  rewrite fmap_cons, NoDup_cons. intros [Hs Hnd] Hin. simpl in Hs.
  apply elem_of_cons in Hin as [[= <- <-]|Hin].
  - simpl. case_bool_decide as Hl.
    + destruct (select label df) as [|c0 sel] eqn:Hsel.
      { by apply select_nil_iff in Hsel. }
      destruct (cleaned_column d (c0 :: sel)).
      * by rewrite (clean_loop_select_other _ _ _ Hs), select_assign, Hsel.
      * by rewrite (clean_loop_select_other _ _ _ Hs), Hsel.
      * by rewrite (clean_loop_select_other _ _ _ Hs), select_drop.
    + rewrite (clean_loop_select_other _ _ _ Hs).
      apply select_nil_iff in Hl. by rewrite Hl.
  - assert (label <> s) as Hne.
    { intros ->. apply Hs, list_elem_of_fmap. by exists (s, d). }
    simpl. case_bool_decide; [|by apply IH].
    destruct (cleaned_column d0 (select s df)).
    + by rewrite IH, select_assign_ne.
    + by apply IH.
    + by rewrite IH, select_drop_ne.
Qed.

End FrameOperations.

Section StandardizeFile.
Import LoadGameData.

Lemma headers_normalised csv :
  ((fun lc : string * list string =>
      (GenerateSessions.standardize_column lc.1, Cells lc.2)) <$> csv).*1 = headers csv.
Proof.
  unfold headers. rewrite <- !list_fmap_compose. by apply list_fmap_ext.
Qed.

Lemma cells_of_cons label lc csv :
  cells_of label (lc :: csv)
  = if decide (GenerateSessions.standardize_column lc.1 = label)
    then lc.2 :: cells_of label csv else cells_of label csv.
Proof.
  unfold cells_of. rewrite filter_cons.
  by destruct (decide (GenerateSessions.standardize_column lc.1 = label)).
Qed.

Lemma cells_of_nil_iff label csv : cells_of label csv = [] <-> label ∉ headers csv.
Proof.
  unfold headers. induction csv as [|lc csv IH]; [by split; [intros _ ?%elem_of_nil|]|].
  rewrite cells_of_cons, !fmap_cons, not_elem_of_cons.
  destruct (decide (GenerateSessions.standardize_column lc.1 = label)) as [E|E].
  - split; [done|]. intros [H _]. by destruct H.
  - rewrite IH. split; [by split|by intros [_ H]].
Qed.

Lemma select_renamed columns m std d n :
  map_variations standard_columns columns ∅ = Some m ->
  (std, d) ∈ standard_columns ->
  find_col (variations d) columns = Some n ->
  forall csv, headers csv ⊆ columns ->
  select std ((fun lc : string * column => (renamed m lc.1, lc.2))
                <$> ((fun lc : string * list string =>
                        (GenerateSessions.standardize_column lc.1, Cells lc.2)) <$> csv))
  = Cells <$> cells_of n csv.
Proof.
  intros Hm Hin Hf. induction csv as [|lc csv IH]; intros Hsub; [done|].
  assert (GenerateSessions.standardize_column lc.1 ∈ columns) as Hc
    by (apply Hsub; unfold headers; rewrite !fmap_cons; by left).
  assert (headers csv ⊆ columns) as Hsub'
    by (intros x Hx; apply Hsub; unfold headers in *; rewrite !fmap_cons; by right).
  rewrite !fmap_cons, select_cons, cells_of_cons. cbn [fst snd].
  pose proof (renamed_standard columns standard_columns standard_variations_nonempty
                standard_variations_disjoint standard_variations_head
                m std d n _ standard_columns_NoDup Hm Hin Hf Hc)
    as Hiff.
  destruct (decide (renamed m (GenerateSessions.standardize_column lc.1) = std)) as [E|E].
  - rewrite decide_True by by apply Hiff. rewrite fmap_cons. by rewrite IH.
  - rewrite decide_False by (intros E'; by apply E, Hiff). by apply IH.
Qed.

Lemma map_variations_standard columns :
  match find_col name_variations columns, find_col peak_variations columns with
  | Some _, Some _ => is_Some (map_variations standard_columns columns ∅)
  | _, _ => map_variations standard_columns columns ∅ = None
  end.
Proof.
  pose proof (map_variations_none columns standard_columns ∅) as Hnone.
  pose proof (truthy_find columns standard_columns standard_variations_nonempty) as Ht.
  destruct (find_col name_variations columns) as [n|] eqn:Hn.
  - destruct (find_col peak_variations columns) as [p|] eqn:Hp.
    + destruct (map_variations standard_columns columns ∅) as [m|] eqn:Hm; [by eexists|].
      exfalso. apply proj1 in Hnone. specialize (Hnone eq_refl).
      apply Exists_exists in Hnone as ([std d] & Hin & Hr & Hf). cbn [snd] in Hr, Hf.
      rewrite (Ht _ _ Hin) in Hf.
      repeat (apply elem_of_cons in Hin as [[= -> ->]|Hin]); try discriminate Hr.
      * unfold name_variations in Hn. cbn [variations] in Hf. by rewrite Hn in Hf.
      * unfold peak_variations in Hp. cbn [variations] in Hf. by rewrite Hp in Hf.
      * by apply elem_of_nil in Hin.
    + apply Hnone, Exists_exists.
      eexists ("peak_players", _). split; [do 2 right; left|].
      split; [done|]. cbn [snd variations].
      unfold peak_variations in Hp. by rewrite Hp.
  - apply Hnone, Exists_exists.
    eexists ("name", _). split; [left|].
    split; [done|]. cbn [snd variations].
    unfold name_variations in Hn. by rewrite Hn.
Qed.

(** What one file contributes, read off its cleaned headers. *)
Lemma standardize_file_unfold csv :
  standardize_file csv
  = match find_col name_variations (headers csv),
          find_col peak_variations (headers csv) with
    | Some n, Some p =>
        match cells_of n csv, cells_of p csv with
        | [names], [peaks] =>
            zip (PyStr.strip <$> names)
              <$> GenerateSessions._clean_numeric_column peaks
        | _, _ => None
        end
    | _, _ => None
    end.
Proof.
  unfold standardize_file. cbv zeta. rewrite headers_normalised.
  pose proof (map_variations_standard (headers csv)) as Hmap.
  destruct (find_col name_variations (headers csv)) as [n|] eqn:Hn;
    [|by rewrite Hmap].
  destruct (find_col peak_variations (headers csv)) as [p|] eqn:Hp;
    [|by rewrite Hmap].
  destruct Hmap as [m Hm]. rewrite Hm.
  set (df := (fun lc : string * column => (renamed m lc.1, lc.2)) <$> _).
  assert (select "name" df = Cells <$> cells_of n csv) as Hname.
  { eapply (select_renamed (headers csv) m "name" _ n Hm); [left|exact Hn|done]. }
  assert (select "peak_players" df = Cells <$> cells_of p csv) as Hpeak.
  { eapply (select_renamed (headers csv) m "peak_players" _ p Hm);
      [do 2 right; left|exact Hp|done]. }
  assert (forall label, bool_decide (label ∈ (clean_loop standard_columns df).*1)
                        = negb (bool_decide (select label (clean_loop standard_columns df) = [])))
    as Hlabels.
  { intros label. case_bool_decide as H1; case_bool_decide as H2; try done.
    - by apply select_nil_iff in H2.
    - by apply select_nil_iff in H1. }
  rewrite !Hlabels. unfold name_and_peak.
  rewrite (clean_loop_select standard_columns "name" _ df standard_columns_NoDup
             ltac:(left)).
  rewrite (clean_loop_select standard_columns "peak_players" _ df standard_columns_NoDup
             ltac:(do 2 right; left)).
  rewrite Hname, Hpeak. unfold cleaned_column. cbn [dtype].
  change (String.eqb "string" "int") with false.
  change (String.eqb "string" "string") with true.
  change (String.eqb "int" "int") with true. cbv iota.
  destruct (cells_of n csv) as [|names [|names' more]]; simpl; [done| |].
  - destruct (cells_of p csv) as [|peaks [|peaks' more]]; simpl; [done| |done].
    by destruct (GenerateSessions._clean_numeric_column peaks).
  - by destruct (cells_of p csv) as [|peaks [|peaks' more']]; simpl;
      [|destruct (GenerateSessions._clean_numeric_column peaks)|].
Qed.

Lemma find_col_first_among vs columns label :
  Forall (fun v => cleaned_variation v = v) vs ->
  find_col vs columns = Some label -> first_among vs columns label.
Proof.
  intros Hfix Hf.
  assert (cleaned_variation <$> vs = vs) as Hvs.
  { clear Hf. induction Hfix as [|v vs Hv _ IH]; [done|]. by rewrite fmap_cons, Hv, IH. }
  destruct (find_col_some _ _ _ Hf) as [Hc _].
  destruct (find_col_first _ _ _ Hf) as (i & Hi & Hbefore).
  rewrite Hvs in Hi, Hbefore. by exists i.
Qed.

End StandardizeFile.

Section FirstAmong.
Import LoadGameData.


Lemma name_variations_clean : Forall (fun v => cleaned_variation v = v) name_variations.
Proof. by repeat constructor. Qed.

Lemma peak_variations_clean : Forall (fun v => cleaned_variation v = v) peak_variations.
Proof. by repeat constructor. Qed.


End FirstAmong.

(** X14. A file that [_load_and_standardize_game_data] uses contributes
    exactly this frame: its name column is the column under the first of
    name, game, title among the cleaned headers, its peak column the
    column under the first of peak_players, peakplayers,
    peak_concurrent, each of these headers is carried by one column
    only, and the rows pair the stripped names with the peaks as
    [_clean_numeric_column] reads them. *)
Theorem standardize_file_rows (csv : list (string * list string))
    (rows : GenerateSessions.frame) :
  LoadGameData.standardize_file csv = Some rows ->
  exists n p names peaks cleaned,
    first_among name_variations (headers csv) n
    /\ first_among peak_variations (headers csv) p
    /\ cells_of n csv = [names]
    /\ cells_of p csv = [peaks]
    /\ GenerateSessions._clean_numeric_column peaks = Some cleaned
    /\ rows = zip (PyStr.strip <$> names) cleaned.
Proof.
  rewrite standardize_file_unfold.
  destruct (LoadGameData.find_col name_variations (headers csv)) as [n|] eqn:Hn; [|done].
  destruct (LoadGameData.find_col peak_variations (headers csv)) as [p|] eqn:Hp; [|done].
  destruct (cells_of n csv) as [|names [|? ?]] eqn:Hnames; [done| |done].
  destruct (cells_of p csv) as [|peaks [|? ?]] eqn:Hpeaks; [done| |done].
  destruct (GenerateSessions._clean_numeric_column peaks) as [cleaned|] eqn:Hclean; [|done].
  intros [= <-]. exists n, p, names, peaks, cleaned.
  split; [by apply find_col_first_among; [apply name_variations_clean|]|].
  split; [by apply find_col_first_among; [apply peak_variations_clean|]|].
  done.
Qed.

(** X14 on a file whose headers need cleaning and renaming. *)
Lemma standardize_file_rows_witness :
  let csv := [ ("Rank", ["1"; "2"]);
               (" Title ", [" Dota 2 "; "Counter-Strike"]);
               ("Game", ["dota"; "cs"]);
               ("Peak-Concurrent", ["1,234"; "n/a"]) ] in
  LoadGameData.standardize_file csv = Some [("dota", 1234); ("cs", 0)]
  /\ exists n p names peaks cleaned,
    first_among name_variations (headers csv) n
    /\ first_among peak_variations (headers csv) p
    /\ cells_of n csv = [names]
    /\ cells_of p csv = [peaks]
    /\ GenerateSessions._clean_numeric_column peaks = Some cleaned
    /\ [("dota", 1234); ("cs", 0)] = zip (PyStr.strip <$> names) cleaned.
Proof.
  intros csv. split; [reflexivity|].
  apply (standardize_file_rows csv). reflexivity.
Defined.


Section GenerateSessionsComposition.
Import LoadGameData.

Lemma game_weights_empty_iff (all_games_data : list GenerateSessions.frame) :
  GenerateSessions._calculate_game_weights all_games_data = ∅
  <-> concat all_games_data = [].
Proof.
  split.
  - intros Hw. destruct (concat all_games_data) as [|[name v] rows] eqn:E; [done|].
    assert (name ∈ (concat all_games_data).*1) as Hin by (rewrite E; left).
    apply game_weights_in in Hin. rewrite Hw in Hin. by rewrite lookup_empty in Hin.
  - intros Hc. apply map_eq. intros name.
    rewrite game_weights_lookup, Hc, lookup_empty. by rewrite decide_True.
Qed.

Lemma weight_items_names (game_weights : gmap string Z) game :
  game ∈ (weight_items game_weights).*1 -> is_Some (game_weights !! game).
Proof.
  unfold weight_items. rewrite <- list_fmap_compose.
  intros ([name v] & -> & Hin)%list_elem_of_fmap.
  rewrite merge_sort_Permutation in Hin.
  apply elem_of_map_to_list in Hin. by exists v.
Qed.

Lemma weight_items_nil (game_weights : gmap string Z) :
  weight_items game_weights = [] -> game_weights = ∅.
Proof.
  unfold weight_items. intros H%fmap_nil_inv.
  apply map_to_list_empty_iff. apply Permutation_nil_r.
  by rewrite <- (merge_sort_Permutation name_le), H.
Qed.

Lemma generate_sessions_unfold {R : NumpyRandom} ambient data_dir num_users
    simulation_days start_date target_session_count :
  generate_sessions ambient data_dir num_users simulation_days start_date
    target_session_count
  = if decide (concat (_load_and_standardize_game_data data_dir) = []) then None
    else Some (GenerateSessions._simulate_user_sessions ambient
                 (weight_items (GenerateSessions._calculate_game_weights
                                  (_load_and_standardize_game_data data_dir)))
                 num_users simulation_days start_date target_session_count).
Proof.
  unfold generate_sessions. cbv zeta.
  destruct (_load_and_standardize_game_data data_dir) as [|frame frames] eqn:E; [done|].
  case_bool_decide as Hw.
  - apply game_weights_empty_iff in Hw. by rewrite decide_True.
  - rewrite decide_False; [done|]. intros Hc. by apply Hw, game_weights_empty_iff.
Qed.

End GenerateSessionsComposition.


(** X17. When [generate_sessions] returns a frame, it holds
    target_session_count sessions, and the game of every session is the
    stripped name of a row of one of the files that were used. *)
Theorem generate_sessions_games {R : NumpyRandom} (ambient : np_state)
    (data_dir : option (list (list (string * list string))))
    (num_users simulation_days : Z) (start_date : DateTime.datetime)
    (target_session_count : Z) sessions g' :
  LoadGameData.generate_sessions ambient data_dir num_users simulation_days
    start_date target_session_count = Some (Ok (sessions, g')) ->
  length sessions = Z.to_nat target_session_count
  /\ Forall (fun s => exists rows,
               rows ∈ LoadGameData._load_and_standardize_game_data data_dir
               /\ GenerateSessions.game_id s ∈ rows.*1) sessions.
Proof.
  rewrite generate_sessions_unfold. case_decide as Hc; [done|].
  intros [= Hrun].
  apply simulate_user_sessions_ok in Hrun as (Hlen & Hall & _).
  rewrite decide_False in Hlen.
  2:{ intros Hnil%weight_items_nil. by apply Hc, game_weights_empty_iff. }
  split; [done|].
  eapply Forall_impl; [exact Hall|]. intros s (_ & Hgame & _).
  apply weight_items_names in Hgame as [r Hr].
  apply game_weights_some in Hr as [Hin _].
  apply list_elem_of_fmap in Hin as ([name v] & -> & Hin).
  apply list_elem_of_In, in_concat in Hin as (rows & Hrows & Hin).
  apply list_elem_of_In in Hrows, Hin.
  exists rows. split; [done|]. apply list_elem_of_fmap. by exists (name, v).
Qed.

(** X17 on a directory of two files, one of them without a peak column. *)
Lemma generate_sessions_games_witness :
  let data_dir :=
    Some [ [("Game", ["Dota 2 "; "CS"]); ("Peak Players", ["1,200"; "900"])];
           [("Title", ["Apex"]); ("Hours", ["12"])] ] in
  exists sessions g',
    LoadGameData.generate_sessions (R := lcg_numpy) 7 data_dir 3 7
      (DateTime.midnight 738000) 10 = Some (Ok (sessions, g'))
    /\ length sessions = Z.to_nat 10
    /\ Forall (fun s => exists rows,
                 rows ∈ LoadGameData._load_and_standardize_game_data data_dir
                 /\ GenerateSessions.game_id s ∈ rows.*1) sessions.
Proof.
  intros data_dir. eexists _, _. split; [vm_compute; reflexivity|].
  refine (generate_sessions_games (R := lcg_numpy) 7 data_dir 3 7
            (DateTime.midnight 738000) 10 _ _ _).
  vm_compute. reflexivity.
Defined.

(** ** The run of the pipeline *)




(** ** The matcher *)

Section RegexFacts.
Import Regex.

Lemma append_cons c (w s : string) : String c w ++ s = String c (w ++ s).
Proof. reflexivity. Qed.

Lemma append_nil (s : string) : "" ++ s = s.
Proof. reflexivity. Qed.

Lemma length_append (w s : string) :
  String.length (w ++ s) = (String.length w + String.length s)%nat.
Proof. induction w as [|c w IH]; [done|]. rewrite append_cons. simpl. by rewrite IH. Qed.

Lemma drop_append (w s : string) : drop (String.length w) (w ++ s) = s.
Proof. induction w as [|c w IH]; [by destruct s|]. by rewrite append_cons. Qed.

Lemma take_append (w s : string) : take (String.length w) (w ++ s) = w.
Proof.
  induction w as [|c w IH]; [by destruct s|]. rewrite append_cons. simpl. by rewrite IH.
Qed.

Lemma consumed_append (w s : string) : consumed (w ++ s) s = w.
Proof.
  unfold consumed. rewrite length_append.
  replace (String.length w + String.length s - String.length s)%nat
    with (String.length w) by lia.
  apply take_append.
Qed.

Lemma run_length_unbounded cls (w s : string) :
  PyStr.all cls w = true -> stops cls s ->
  run_length cls None (w ++ s) = String.length w.
Proof.
  intros Hw Hs. induction w as [|c w IH].
  - rewrite append_nil. destruct s as [|c s]; [done|]. simpl in *. by rewrite Hs.
  - simpl in Hw. apply andb_prop in Hw as [Hc Hw].
    rewrite append_cons. simpl. rewrite Hc. by rewrite IH.
Qed.

Lemma run_length_bounded cls (w s : string) :
  PyStr.all cls w = true ->
  run_length cls (Some (String.length w)) (w ++ s) = String.length w.
Proof.
  intros Hw. induction w as [|c w IH].
  - rewrite append_nil. by destruct s.
  - simpl in Hw. apply andb_prop in Hw as [Hc Hw].
    rewrite append_cons. simpl. rewrite Hc. by rewrite IH.
Qed.

Section BackOff.
Context {A : Type}.
Implicit Types k : string -> option A.

Lemma back_off_unfold k s lo n :
  back_off k s lo n
  = if (n <? lo)%nat then None
    else match k (drop n s) with
         | Some x => Some x
         | None => match n with O => None | S n' => back_off k s lo n' end
         end.
Proof. by destruct n. Qed.

Lemma back_off_hit k s lo n x :
  (lo <= n)%nat -> k (drop n s) = Some x -> back_off k s lo n = Some x.
Proof.
  intros Hlo Hk. rewrite back_off_unfold.
  destruct (Nat.ltb_spec n lo); [lia|]. by rewrite Hk.
Qed.

Lemma back_off_miss k s lo n :
  (lo <= S n)%nat -> k (drop (S n) s) = None ->
  back_off k s lo (S n) = back_off k s lo n.
Proof.
  intros Hlo Hk. rewrite back_off_unfold.
  destruct (Nat.ltb_spec (S n) lo); [lia|]. by rewrite Hk.
Qed.

(** A repetition that took [a ++ b] and must give [b] back. *)
Lemma back_off_to k (a b s : string) lo x :
  (lo <= String.length a)%nat ->
  (forall j, (0 < j <= String.length b)%nat -> k (drop j b ++ s) = None) ->
  k (b ++ s) = Some x ->
  back_off k (a ++ b ++ s) lo (String.length a + String.length b) = Some x.
Proof.
  intros Hlo Hmiss Hhit.
  assert (forall j, (j <= String.length b)%nat ->
            drop (String.length a + j) (a ++ b ++ s) = drop j b ++ s) as Hdrop.
  { intros j Hj. clear -Hj. induction a as [|c a IH]; simpl.
    - rewrite append_nil. revert j Hj. induction b as [|c b IHb]; intros j Hj.
      + simpl in Hj. by replace j with 0%nat by lia.
      + destruct j as [|j]; [done|]. rewrite append_cons. simpl.
        apply IHb. simpl in Hj. lia.
    - exact IH. }
  assert (forall j, (j <= String.length b)%nat ->
            back_off k (a ++ b ++ s) lo (String.length a + j) = Some x) as Hall.
  { induction j as [|j IH]; intros Hj.
    - apply back_off_hit; [lia|]. by rewrite Hdrop by lia.
    - replace (String.length a + S j)%nat with (S (String.length a + j)) by lia.
      rewrite back_off_miss; [apply IH; lia|lia|].
      replace (S (String.length a + j)) with (String.length a + S j)%nat by lia.
      rewrite Hdrop by done. apply Hmiss. lia. }
  apply (Hall (String.length b)). lia.
Qed.

Implicit Types kk : string -> list string -> option A.

Lemma match_literal (ignore_case : bool) (text w s : string) caps kk :
  (if ignore_case then PyStr.lower w else w) = text ->
  match_re (literal ignore_case text) (w ++ s) caps kk = kk s caps.
Proof.
  revert text. induction w as [|c w IH]; intros text.
  - destruct ignore_case; simpl; by intros <-.
  - intros Ht. rewrite append_cons.
    destruct text as [|t text]; [by destruct ignore_case|].
    assert ((if ignore_case then PyStr.lower_char c else c) = t
            /\ (if ignore_case then PyStr.lower w else w) = text) as [Hc Hw].
    { destruct ignore_case; simpl in Ht; by injection Ht. }
    simpl. rewrite Hc, Ascii.eqb_refl. by apply IH.
Qed.

(** A repetition that keeps all it took. *)
Lemma match_rep_all cls lo hi (w s : string) caps kk x :
  (lo <= String.length w)%nat ->
  run_length cls hi (w ++ s) = String.length w ->
  kk s caps = Some x ->
  match_re (Rep cls lo hi) (w ++ s) caps kk = Some x.
Proof.
  intros Hlo Hrun Hk. simpl. rewrite Hrun.
  apply back_off_hit; [done|]. by rewrite drop_append.
Qed.

Lemma match_group_rep_all cls lo hi (w s : string) caps kk x :
  (lo <= String.length w)%nat ->
  run_length cls hi (w ++ s) = String.length w ->
  kk s (caps ++ [w])%list = Some x ->
  match_re (Group (Rep cls lo hi)) (w ++ s) caps kk = Some x.
Proof.
  intros Hlo Hrun Hk. simpl. rewrite Hrun.
  apply back_off_hit; [done|]. by rewrite drop_append, consumed_append.
Qed.

End BackOff.

End RegexFacts.

(** ** The date of a daily file *)

Section FilenamePattern.
Import Regex DailyFiles.

Lemma append_assoc (a b c : string) : a ++ b ++ c = (a ++ b) ++ c.
Proof. induction a as [|x a IH]; [done|]. by rewrite !append_cons, IH. Qed.

Lemma match_group_rep_unfold {A} cls lo hi s caps
    (kk : string -> list string -> option A) :
  match_re (Group (Rep cls lo hi)) s caps kk
  = back_off (fun s' => kk s' (caps ++ [consumed s s'])%list) s lo (run_length cls hi s).
Proof. reflexivity. Qed.

Lemma match_seq {A} a b s caps (kk : string -> list string -> option A) :
  match_re (Seq a b) s caps kk
  = match_re a s caps (fun s' caps' => match_re b s' caps' kk).
Proof. reflexivity. Qed.

Lemma digit_not_underscore c : PyStr.isdigit c = true -> Ascii.eqb c "_" = false.
Proof. destruct c as [[] [] [] [] [] [] [] []]; try reflexivity; discriminate. Qed.

Lemma space_not_underscore c : PyStr.isspace c = true -> Ascii.eqb c "_" = false.
Proof. destruct c as [[] [] [] [] [] [] [] []]; try reflexivity; discriminate. Qed.

Lemma space_not_word c : PyStr.isspace c = true -> isword c = false.
Proof. destruct c as [[] [] [] [] [] [] [] []]; try reflexivity; discriminate. Qed.

Lemma digit_is_word c : PyStr.isdigit c = true -> isword c = true.
Proof. unfold isword. by intros ->. Qed.

(** What follows the year stops the name and is no underscore. *)
Lemma extension_stops blanks rest :
  PyStr.all PyStr.isspace blanks = true ->
  match blanks ++ ".csv" ++ rest with
  | String c _ => isword c = false /\ Ascii.eqb c "_" = false
  | EmptyString => False
  end.
Proof.
  destruct blanks as [|c blanks]; [done|]. rewrite append_cons. simpl.
  intros [Hc _]%andb_prop. split; [by apply space_not_word|by apply space_not_underscore].
Qed.

Lemma match_underscore_fails {A} r s caps (kk : string -> list string -> option A) :
  starts_without "_" s ->
  match_re (literal false "_") s caps (fun s' caps' => match_re r s' caps' kk) = None.
Proof. destruct s as [|c s]; [done|]. simpl. by intros ->. Qed.

Lemma filename_pattern_groups (day_text month_text blanks rest : string) y1 y2 y3 y4 :
  let year_text := String y1 (String y2 (String y3 (String y4 ""))) in
  day_text <> "" -> PyStr.all PyStr.isdigit day_text = true ->
  month_text <> "" -> PyStr.all isword month_text = true ->
  PyStr.all PyStr.isdigit year_text = true ->
  PyStr.all PyStr.isspace blanks = true ->
  re_match filename_pattern (dated_name day_text month_text year_text blanks rest)
  = Some ([day_text; month_text; year_text], rest).
Proof.
  intros year_text Hd Hdd Hm Hmw Hy Hb.
  simpl in Hy. apply andb_prop in Hy as [H1 Hy]. apply andb_prop in Hy as [H2 Hy].
  apply andb_prop in Hy as [H3 Hy]. apply andb_prop in Hy as [H4 _].
  pose proof (extension_stops blanks rest Hb) as Hext.
  unfold re_match, filename_pattern, dated_name.
  (* the day *)
  rewrite match_seq. apply match_group_rep_all.
  { destruct day_text; [done|simpl; lia]. }
  { by apply run_length_unbounded. }
  rewrite match_seq, (match_literal false "_" "_") by done.
  (* the month, after the name has given the year back *)
  rewrite match_seq.
  set (tail := blanks ++ ".csv" ++ rest) in *.
  set (kk := fun s' caps' => match_re _ s' caps' _).
  rewrite match_group_rep_unfold.
  assert (run_length isword None (month_text ++ "_" ++ year_text ++ tail)
          = (String.length month_text + String.length ("_" ++ year_text))%nat) as ->.
  { change (month_text ++ "_" ++ year_text ++ tail)
      with (month_text ++ ("_" ++ year_text) ++ tail).
    rewrite append_assoc, run_length_unbounded, length_append; [done| |].
    - rewrite all_app, Hmw. simpl.
      by rewrite (digit_is_word _ H1), (digit_is_word _ H2), (digit_is_word _ H3),
        (digit_is_word _ H4).
    - unfold stops. destruct tail; [done|]. by destruct Hext. }
  apply (back_off_to _ month_text ("_" ++ year_text) tail).
  { destruct month_text; [done|simpl; lia]. }
  { intros j Hj. unfold kk. rewrite match_seq. apply match_underscore_fails.
    change ("_" ++ year_text) with (String "_" year_text) in *. unfold year_text in *.
    destruct j as [|[|[|[|[|[|j]]]]]]; simpl in Hj; try lia; cbn [drop];
      rewrite ?append_cons, ?append_nil; cbn [starts_without].
    - by apply digit_not_underscore.
    - by apply digit_not_underscore.
    - by apply digit_not_underscore.
    - by apply digit_not_underscore.
    - destruct tail as [|c tail']; [done|]. by destruct Hext. }
  change (month_text ++ "_" ++ year_text ++ tail)
    with (month_text ++ ("_" ++ year_text) ++ tail).
  rewrite consumed_append. unfold kk.
  rewrite match_seq.
  change (("_" ++ year_text) ++ tail) with ("_" ++ year_text ++ tail).
  rewrite (match_literal false "_" "_") by done.
  (* the year *)
  rewrite match_seq. apply match_group_rep_all; [simpl; lia| |].
  { apply (run_length_bounded PyStr.isdigit year_text). simpl.
    by rewrite H1, H2, H3, H4. }
  (* the blanks and the extension *)
  rewrite match_seq. unfold tail. apply match_rep_all; [lia| |].
  { by apply run_length_unbounded. }
  by rewrite (match_literal false ".csv" ".csv").
Qed.

End FilenamePattern.

Section FormatPattern.
Import Regex DailyFiles.

Lemma match_group {A} a s caps (kk : string -> list string -> option A) :
  match_re (Group a) s caps kk
  = match_re a s caps (fun s' caps' => kk s' (caps' ++ [consumed s s'])%list).
Proof. reflexivity. Qed.

Lemma consumed_one c (s : string) : consumed (String c s) s = String c "".
Proof. apply (consumed_append (String c "") s). Qed.

Lemma consumed_two c1 c2 (s : string) :
  consumed (String c1 (String c2 s)) s = String c1 (String c2 "").
Proof. apply (consumed_append (String c1 (String c2 "")) s). Qed.

Lemma day_spelled d w :
  1 <= d <= 31 -> w ∈ day_spellings d -> (d, w) ∈ days_spelled.
Proof.
  intros Hd Hw. unfold days_spelled. apply list_elem_of_bind.
  exists d. split; [by apply list_elem_of_fmap; exists w|].
  apply elem_of_seqZ. lia.
Qed.

Lemma day_directive_reads :
  Forall (fun dw : Z * string =>
            PyNum.py_int dw.2 = Some dw.1
            /\ forall A rest caps (kk : string -> list string -> option A) x,
                 kk (String " " rest) (caps ++ [dw.2])%list = Some x ->
                 match_re (Group day_directive) (dw.2 ++ String " " rest) caps kk = Some x)
    days_spelled.
Proof.
  let l := eval vm_compute in days_spelled in change days_spelled with l.
  repeat (constructor;
          [split; [reflexivity|];
           intros A rest caps kk x Hk; cbn [fst snd] in *;
           rewrite ?append_cons, ?append_nil, match_group;
           cbn -[consumed]; rewrite ?consumed_one, ?consumed_two;
           by rewrite Hk|]).
  constructor.
Qed.

Ltac spell w Hw :=
  repeat (destruct w as [|? w]; [discriminate Hw|];
          cbn [PyStr.lower] in Hw; injection Hw as ? Hw);
  destruct w; [clear Hw|by cbn [PyStr.lower] in Hw].

Ltac lowered :=
  repeat match goal with
         | H : PyStr.lower_char ?c = _ |- context [PyStr.lower_char ?c] => rewrite H
         end.

Lemma month_directive_reads :
  Forall (fun mn : Z * string =>
            month_number month_names mn.2 1 = Some mn.1
            /\ forall A w rest caps (kk : string -> list string -> option A) x,
                 PyStr.lower w = mn.2 ->
                 kk (String " " rest) (caps ++ [w])%list = Some x ->
                 match_re (Group month_directive) (w ++ String " " rest) caps kk = Some x)
    months_numbered.
Proof.
  let l := eval vm_compute in months_numbered in change months_numbered with l.
  repeat (constructor;
          [split; [reflexivity|];
           intros A w rest caps kk x Hw Hk; cbn [fst snd] in *;
           rewrite match_group;
           set (kk' := fun s' caps' => kk s' _);
           assert (kk' (String " " rest) caps = Some x) as Hk'
             by (unfold kk'; by rewrite consumed_append);
           clearbody kk'; clear Hk;
           spell w Hw;
           rewrite ?append_cons, ?append_nil; unfold month_directive;
           cbn -[PyStr.lower_char]; lowered; cbn -[PyStr.lower_char];
           by rewrite Hk'|]).
  constructor.
Qed.

End FormatPattern.

Section DatedNames.
Import Regex DailyFiles.

Lemma isword_lower c : isword (PyStr.lower_char c) = true -> isword c = true.
Proof. destruct c as [[] [] [] [] [] [] [] []]; try reflexivity; discriminate. Qed.

Lemma all_isword_lower w : PyStr.all isword (PyStr.lower w) = true -> PyStr.all isword w = true.
Proof.
  induction w as [|c w IH]; [done|]. simpl.
  intros [Hc Hw]%andb_prop. by rewrite (isword_lower _ Hc), IH.
Qed.

Lemma word_not_space c : isword c = true -> PyStr.isspace c = false.
Proof. destruct c as [[] [] [] [] [] [] [] []]; try reflexivity; discriminate. Qed.

Lemma month_names_words :
  Forall (fun mn : Z * string => mn.2 <> "" /\ PyStr.all isword mn.2 = true) months_numbered.
Proof. by repeat constructor. Qed.

Lemma month_text_word m mt :
  (m, PyStr.lower mt) ∈ months_numbered -> mt <> "" /\ PyStr.all isword mt = true.
Proof.
  intros Hin. pose proof month_names_words as Hall. rewrite Forall_forall in Hall.
  destruct (Hall _ Hin) as [Hne Hw]. simpl in *. split; [|by apply all_isword_lower].
  by intros ->.
Qed.

Lemma digit_chars :
  Forall (fun n => PyStr.isdigit (digit_char n) = true
                   /\ PyNum.digit_val (digit_char n) = n) (seqZ 0 10).
Proof. by repeat constructor. Qed.

Lemma digit_char_digit n :
  0 <= n <= 9 ->
  PyStr.isdigit (digit_char n) = true /\ PyNum.digit_val (digit_char n) = n.
Proof.
  intros Hn. pose proof digit_chars as Hall. rewrite Forall_forall in Hall.
  apply Hall, elem_of_seqZ. lia.
Qed.

Lemma four_digits_digits y :
  0 <= y <= 9999 -> PyStr.all PyStr.isdigit (four_digits y) = true.
Proof.
  intros Hy. unfold four_digits. simpl.
  rewrite (proj1 (digit_char_digit (y / 1000) ltac:(Z.div_mod_to_equations; lia))).
  rewrite (proj1 (digit_char_digit (y / 100 mod 10) ltac:(Z.div_mod_to_equations; lia))).
  rewrite (proj1 (digit_char_digit (y / 10 mod 10) ltac:(Z.div_mod_to_equations; lia))).
  by rewrite (proj1 (digit_char_digit (y mod 10) ltac:(Z.div_mod_to_equations; lia))).
Qed.

Lemma py_int_four_digits y : 0 <= y <= 9999 -> PyNum.py_int (four_digits y) = Some y.
Proof.
  intros Hy. rewrite (py_int_chars _ (four_digits_digits y Hy)) by done.
  unfold four_digits. cbn [list_ascii_of_string fmap list_fmap].
  rewrite (proj2 (digit_char_digit (y / 1000) ltac:(Z.div_mod_to_equations; lia))).
  rewrite (proj2 (digit_char_digit (y / 100 mod 10) ltac:(Z.div_mod_to_equations; lia))).
  rewrite (proj2 (digit_char_digit (y / 10 mod 10) ltac:(Z.div_mod_to_equations; lia))).
  rewrite (proj2 (digit_char_digit (y mod 10) ltac:(Z.div_mod_to_equations; lia))).
  unfold PyNum.digits_value. cbn [fold_left]. f_equal.
  Z.div_mod_to_equations. lia.
Qed.

Lemma day_text_digits :
  Forall (fun dw : Z * string => dw.2 <> "" /\ PyStr.all PyStr.isdigit dw.2 = true)
    days_spelled.
Proof. by repeat constructor. Qed.

Lemma format_pattern_groups d w m mt y1 y2 y3 y4 :
  let year_text := String y1 (String y2 (String y3 (String y4 ""))) in
  (d, w) ∈ days_spelled -> (m, PyStr.lower mt) ∈ months_numbered ->
  PyStr.all PyStr.isdigit year_text = true ->
  re_match format_pattern (w ++ " " ++ mt ++ " " ++ year_text)
  = Some ([w; mt; year_text], "").
Proof.
  intros year_text Hd Hm Hy.
  simpl in Hy. apply andb_prop in Hy as [H1 Hy]. apply andb_prop in Hy as [H2 Hy].
  apply andb_prop in Hy as [H3 Hy]. apply andb_prop in Hy as [H4 _].
  pose proof day_directive_reads as Hday. rewrite Forall_forall in Hday.
  destruct (Hday _ Hd) as [_ Hday'].
  pose proof month_directive_reads as Hmonth. rewrite Forall_forall in Hmonth.
  destruct (Hmonth _ Hm) as [_ Hmonth'].
  destruct (month_text_word _ _ Hm) as [Hne Hword].
  unfold re_match, format_pattern.
  rewrite match_seq.
  change (" " ++ mt ++ " " ++ year_text) with (String " " (mt ++ " " ++ year_text)).
  apply Hday'.
  rewrite match_seq.
  change (String " " (mt ++ " " ++ year_text)) with (" " ++ mt ++ " " ++ year_text).
  apply match_rep_all; [simpl; lia| |].
  { apply (run_length_unbounded PyStr.isspace " "); [done|].
    destruct mt as [|c mt]; [done|]. rewrite append_cons. simpl in *.
    apply andb_prop in Hword as [Hc _]. by apply word_not_space. }
  rewrite match_seq.
  change (" " ++ year_text) with (String " " year_text).
  apply Hmonth'; [done|].
  rewrite match_seq.
  change (String " " year_text) with (" " ++ year_text).
  apply match_rep_all; [simpl; lia| |].
  { apply (run_length_unbounded PyStr.isspace " "); [done|].
    simpl. by apply word_not_space, digit_is_word. }
  rewrite match_group. unfold year_text, year_directive. cbn -[consumed].
  rewrite H1, H2, H3, H4.
  assert (consumed (String y1 (String y2 (String y3 (String y4 "")))) ""
          = String y1 (String y2 (String y3 (String y4 "")))) as ->; [|done].
  apply (consumed_append (String y1 (String y2 (String y3 (String y4 "")))) "").
Qed.

Lemma strptime_reads y m d w mt :
  1 <= y <= 9999 ->
  (d, w) ∈ days_spelled -> (m, PyStr.lower mt) ∈ months_numbered ->
  d <= days_in_month y m ->
  strptime (w ++ " " ++ mt ++ " " ++ four_digits y)
  = Some {| year := y; month := m; day := d |}.
Proof.
  intros Hy Hd Hm Hdim. unfold strptime.
  pose proof (four_digits_digits y ltac:(lia)) as Hdigits.
  unfold four_digits in *.
  rewrite (format_pattern_groups d w m mt _ _ _ _ Hd Hm Hdigits).
  fold (four_digits y).
  pose proof day_directive_reads as Hday. rewrite Forall_forall in Hday.
  destruct (Hday _ Hd) as [Hdv _]. cbn [fst snd] in Hdv.
  pose proof month_directive_reads as Hmonth. rewrite Forall_forall in Hmonth.
  destruct (Hmonth _ Hm) as [Hmv _]. cbn [fst snd] in Hmv.
  rewrite py_int_four_digits, Hmv, Hdv by lia. simpl.
  destruct (Z.leb_spec 1 y); [|lia]. destruct (Z.leb_spec d (days_in_month y m)); [|lia].
  done.
Qed.

End DatedNames.

(** X19. [load_daily_data] dates a file by its name: for every calendar
    date from year 1 to 9999, the name made of the day (with or without
    a leading zero below 10), the full English month name in any mix of
    upper and lower case and the year in four digits, joined by
    underscores and followed by .csv, is read as that date; blanks before
    the extension and any text after it change nothing. *)
Theorem file_date_reads_dated_names (y m d : Z) (day_text month_text blanks rest : string) :
  1 <= y <= 9999 -> 1 <= m <= 12 -> 1 <= d <= DailyFiles.days_in_month y m ->
  day_text ∈ day_spellings d ->
  DailyFiles.month_names !! Z.to_nat (m - 1) = Some (PyStr.lower month_text) ->
  PyStr.all PyStr.isspace blanks = true ->
  DailyFiles.file_date (dated_name day_text month_text (four_digits y) blanks rest)
  = Some {| DailyFiles.year := y; DailyFiles.month := m; DailyFiles.day := d |}.
Proof.
  intros Hy Hm Hd Hday Hmonth Hblanks.
  assert (d <= 31) as Hd31.
  { destruct Hd as [_ Hd]. etrans; [exact Hd|]. unfold DailyFiles.days_in_month.
    repeat case_match; lia. }
  assert ((d, day_text) ∈ days_spelled) as Hdw by (apply day_spelled; [lia|done]).
  assert ((m, PyStr.lower month_text) ∈ months_numbered) as Hmn.
  { unfold months_numbered. apply list_elem_of_lookup. exists (Z.to_nat (m - 1)).
    apply lookup_zip_with_Some. exists m, (PyStr.lower month_text).
    split; [done|]. split; [|done].
    rewrite lookup_seqZ. split; lia. }
  pose proof day_text_digits as Hdd. rewrite Forall_forall in Hdd.
  destruct (Hdd _ Hdw) as [Hne Hdigits]. simpl in Hne, Hdigits.
  destruct (month_text_word _ _ Hmn) as [Hmne Hword].
  pose proof (four_digits_digits y ltac:(lia)) as Hyd.
  unfold DailyFiles.file_date. unfold four_digits in *.
  rewrite (filename_pattern_groups day_text month_text blanks rest _ _ _ _
             Hne Hdigits Hmne Hword Hyd Hblanks).
  fold (four_digits y). apply strptime_reads; [done..|lia].
Qed.

(** X19 on a name in capitals with a padded day, a blank and a suffix. *)
Lemma file_date_reads_dated_names_witness :
  DailyFiles.file_date "07_MAY_2022 .csv.bak"
  = Some {| DailyFiles.year := 2022; DailyFiles.month := 5; DailyFiles.day := 7 |}.
Proof.
  apply (file_date_reads_dated_names 2022 5 7 "07" "MAY" " " ".bak");
    [lia|lia|by vm_compute|by right; left|reflexivity|reflexivity].
Defined.

Section MatcherSound.
Import Regex.

Lemma take_drop (n : nat) (s : string) : take n s ++ drop n s = s.
Proof.
  revert s. induction n as [|n IH]; intros s; [by destruct s|].
  destruct s as [|c s]; [done|]. simpl. rewrite append_cons. by rewrite IH.
Qed.

Lemma run_length_take cls hi (s : string) (j : nat) :
  (j <= run_length cls hi s)%nat ->
  PyStr.all cls (take j s) = true /\ String.length (take j s) = j
  /\ from_option (fun h => (j <= h)%nat) True hi.
Proof.
  revert hi j. induction s as [|c s IH]; intros hi j; simpl.
  - intros Hj. assert (j = 0%nat) as -> by lia. split; [done|]. split; [done|].
    destruct hi; simpl; [lia|done].
  - destruct j as [|j].
    { intros _. split; [done|]. split; [done|]. destruct hi; simpl; [lia|done]. }
    destruct hi as [[|h]|]; simpl; try lia.
    + destruct (cls c) eqn:Hc; [|lia]. intros Hj.
      destruct (IH (Some h) j ltac:(simpl; lia)) as (Ha & Hl & Hh). simpl in Hh.
      rewrite Ha, Hl. split; [done|]. split; [done|]. lia.
    + destruct (cls c) eqn:Hc; [|lia]. intros Hj.
      destruct (IH None j ltac:(simpl; lia)) as (Ha & Hl & _).
      by rewrite Ha, Hl.
Qed.

Lemma back_off_some {A} (k : string -> option A) s lo n x :
  back_off k s lo n = Some x ->
  exists j, (lo <= j <= n)%nat /\ k (drop j s) = Some x.
Proof.
  induction n as [|n IH]; rewrite back_off_unfold.
  - destruct (Nat.ltb_spec 0 lo); [done|].
    destruct (k (drop 0 s)) eqn:Hk; [|done]. intros [= <-]. exists 0%nat. split; [lia|done].
  - destruct (Nat.ltb_spec (S n) lo); [done|].
    destruct (k (drop (S n) s)) eqn:Hk.
    + intros [= <-]. exists (S n). split; [lia|done].
    + intros (j & Hj & Hkj)%IH. exists j. split; [lia|done].
Qed.

(** The matcher is sound for the declarative reading: a match reads a
    text of the pattern off the start of the input and hands the rest,
    with the groups of that text, to the continuation. *)
Lemma match_re_sound {A} (r : regex) : forall s caps
    (k : string -> list string -> option A) x,
  match_re r s caps k = Some x ->
  exists w s' g, s = w ++ s' /\ matches r w g /\ k s' (caps ++ g)%list = Some x.
Proof.
  induction r as [|cls|a IHa b IHb|a IHa b IHb|cls lo hi|a IHa]; intros s caps k x; simpl.
  - intros Hk. exists "", s, []. rewrite app_nil_r. repeat split; [constructor|done].
  - destruct s as [|c s]; [done|]. destruct (cls c) eqn:Hc; [|done]. intros Hk.
    exists (String c ""), s, []. rewrite app_nil_r. repeat split; [by constructor|done].
  - intros (w1 & s1 & g1 & -> & H1 & (w2 & s2 & g2 & -> & H2 & Hk)%IHb)%IHa.
    exists (w1 ++ w2), s2, (g1 ++ g2)%list.
    rewrite append_assoc, app_assoc. repeat split; [by constructor|done].
  - destruct (match_re a s caps k) eqn:Ha.
    + intros [= <-]. apply IHa in Ha as (w & s' & g & -> & H & Hk).
      exists w, s', g. repeat split; [by apply matches_alt_l|done].
    + intros (w & s' & g & -> & H & Hk)%IHb.
      exists w, s', g. repeat split; [by apply matches_alt_r|done].
  - intros (j & [Hlo Hj] & Hk)%back_off_some.
    destruct (run_length_take cls hi s j Hj) as (Hall & Hlen & Hhi).
    exists (take j s), (drop j s), []. rewrite app_nil_r, take_drop.
    repeat split; [|done]. constructor; [done|lia|].
    destruct hi; simpl in *; [lia|done].
  - intros (w & s' & g & -> & H & Hk)%IHa. rewrite consumed_append in Hk.
    exists w, s', (g ++ [w])%list. rewrite app_assoc.
    repeat split; [by constructor|done].
Qed.

End MatcherSound.

Section DatedNamesOnly.
Import Regex DailyFiles.

Ltac invert_matches :=
  repeat match goal with
         | H : matches (Seq _ _) _ _ |- _ => inversion H; subst; clear H
         | H : matches (Group _) _ _ |- _ => inversion H; subst; clear H
         | H : matches (Rep _ _ _) _ _ |- _ => inversion H; subst; clear H
         | H : matches (Chr _) _ _ |- _ => inversion H; subst; clear H
         | H : matches Eps _ _ |- _ => inversion H; subst; clear H
         end.

(** A text splits in one way only into a run of a class and a rest that
    does not go on with the class. *)
Lemma split_unique cls (a x b y : string) :
  PyStr.all cls a = true -> PyStr.all cls b = true ->
  stops cls x -> stops cls y ->
  a ++ x = b ++ y -> a = b /\ x = y.
Proof.
  revert b. induction a as [|c a IH]; intros [|d b]; simpl.
  - intros _ _ _ _ H. by rewrite !append_nil in H.
  - intros _ [Hd _]%andb_prop Hx _. rewrite ?append_nil, ?append_cons. intros ->.
    simpl in Hx. congruence.
  - intros [Hc _]%andb_prop _ _ Hy. rewrite ?append_nil, ?append_cons. intros <-.
    simpl in Hy. congruence.
  - intros [_ Ha]%andb_prop [_ Hb]%andb_prop Hx Hy. rewrite ?append_cons.
    intros [= -> H]. by destruct (IH b Ha Hb Hx Hy H) as [-> ->].
Qed.

Lemma month_number_lookup names name : forall i m,
  month_number names name i = Some m ->
  i <= m /\ names !! Z.to_nat (m - i) = Some name.
Proof.
  induction names as [|n names IH]; intros i m; simpl; [done|].
  destruct (String.eqb_spec n name) as [->|Hne].
  - intros [= <-]. split; [lia|]. by replace (i - i) with 0 by lia.
  - intros [Hi Hl]%IH. split; [lia|].
    replace (Z.to_nat (m - i)) with (S (Z.to_nat (m - (i + 1)))) by lia. done.
Qed.

Lemma digit_char_val c : PyStr.isdigit c = true -> digit_char (PyNum.digit_val c) = c.
Proof. destruct c as [[] [] [] [] [] [] [] []]; try reflexivity; discriminate. Qed.

Lemma digit_val_range c : PyStr.isdigit c = true -> 0 <= PyNum.digit_val c <= 9.
Proof. destruct c as [[] [] [] [] [] [] [] []]; try discriminate; by vm_compute. Qed.

Lemma four_digits_of y1 y2 y3 y4 y :
  let year_text := String y1 (String y2 (String y3 (String y4 ""))) in
  PyStr.all PyStr.isdigit year_text = true ->
  PyNum.py_int year_text = Some y ->
  year_text = four_digits y /\ 0 <= y <= 9999.
Proof.
  intros year_text Hd. rewrite (py_int_chars _ Hd) by done.
  simpl in Hd. apply andb_prop in Hd as [H1 Hd]. apply andb_prop in Hd as [H2 Hd].
  apply andb_prop in Hd as [H3 Hd]. apply andb_prop in Hd as [H4 _].
  unfold year_text. cbn [list_ascii_of_string fmap list_fmap].
  unfold PyNum.digits_value. cbn [fold_left]. intros [= <-].
  pose proof (digit_val_range _ H1). pose proof (digit_val_range _ H2).
  pose proof (digit_val_range _ H3). pose proof (digit_val_range _ H4).
  split; [|lia]. unfold four_digits.
  rewrite <- (digit_char_val y1 H1) at 1. rewrite <- (digit_char_val y2 H2) at 1.
  rewrite <- (digit_char_val y3 H3) at 1. rewrite <- (digit_char_val y4 H4) at 1.
  repeat f_equal; Z.div_mod_to_equations; lia.
Qed.

Lemma length_four (w : string) :
  String.length w = 4%nat ->
  exists y1 y2 y3 y4, w = String y1 (String y2 (String y3 (String y4 ""))).
Proof.
  destruct w as [|y1 [|y2 [|y3 [|y4 [|? ?]]]]]; try done. intros _. by exists y1, y2, y3, y4.
Qed.

(** The names the file pattern matches, with their groups. *)
Lemma filename_pattern_inv filename caps rest :
  re_match filename_pattern filename = Some (caps, rest) ->
  exists day_text month_text year_text blanks,
    filename = dated_name day_text month_text year_text blanks rest
    /\ caps = [day_text; month_text; year_text]
    /\ day_text <> "" /\ PyStr.all PyStr.isdigit day_text = true
    /\ month_text <> "" /\ PyStr.all isword month_text = true
    /\ String.length year_text = 4%nat /\ PyStr.all PyStr.isdigit year_text = true
    /\ PyStr.all PyStr.isspace blanks = true.
Proof.
  unfold re_match. intros (w & s' & g & -> & Hm & [= <- <-])%match_re_sound.
  unfold filename_pattern in Hm. cbn [literal] in Hm. invert_matches.
  repeat match goal with
         | H : Ascii.eqb _ _ = true |- _ => apply Ascii.eqb_eq in H; subst
         end.
  match goal with
  | Hd : PyStr.all PyStr.isdigit ?d = true, Hdl : (1 <= String.length ?d)%nat,
    Hw : PyStr.all isword ?m = true, Hml : (1 <= String.length ?m)%nat,
    Hy : PyStr.all PyStr.isdigit ?y = true, Hyl : (4 <= String.length ?y)%nat,
    Hyh : from_option _ True (Some 4%nat),
    Hb : PyStr.all PyStr.isspace ?b = true |- _ =>
      exists d, m, y, b; simpl in Hyh
  end.
  split.
  { unfold dated_name.
    repeat (rewrite <- append_assoc || rewrite append_cons || rewrite append_nil).
    done. }
  split; [done|].
  split; [intros ->; simpl in *; lia|]. split; [done|].
  split; [intros ->; simpl in *; lia|]. split; [done|].
  split; [lia|]. done.
Qed.

Lemma matches_literal_inv (ignore_case : bool) text w g :
  matches (literal ignore_case text) w g ->
  g = [] /\ (if ignore_case then PyStr.lower w else w) = text.
Proof.
  revert w g. induction text as [|c text IH]; intros w g H; cbn [literal] in H.
  - inversion H; subst. by destruct ignore_case.
  - inversion H; subst; clear H.
    match goal with
    | H1 : matches (Chr _) _ _, H2 : matches (literal _ _) _ _ |- _ =>
        apply IH in H2 as [-> Hw]; inversion H1; subst; clear H1
    end.
    match goal with Hx : Ascii.eqb _ _ = true |- _ => apply Ascii.eqb_eq in Hx end.
    split; [done|]. rewrite append_cons, append_nil.
    destruct ignore_case; simpl; congruence.
Qed.

Lemma matches_alt_inv a b w g :
  matches (Alt a b) w g -> matches a w g \/ matches b w g.
Proof. inversion 1; subst; [by left|by right]. Qed.

Ltac invert_alternatives :=
  repeat match goal with
         | H : matches (Alt _ _) _ _ |- _ => apply matches_alt_inv in H as [H|H]
         end.

Lemma month_directive_inv w g :
  matches month_directive w g -> g = [] /\ PyStr.lower w ∈ month_names.
Proof.
  intros H. unfold month_directive in H. invert_alternatives;
    match goal with
    | H : matches (literal true _) _ _ |- _ =>
        apply matches_literal_inv in H as [-> ->]
    end; (split; [done|]); unfold month_names; set_solver.
Qed.

Lemma year_directive_inv w g :
  matches year_directive w g ->
  g = [] /\ String.length w = 4%nat /\ PyStr.all PyStr.isdigit w = true.
Proof.
  intros H. unfold year_directive in H. invert_matches.
  rewrite ?append_cons, ?append_nil. simpl.
  repeat match goal with H : PyStr.isdigit _ = true |- _ => rewrite H; clear H end.
  done.
Qed.

Lemma between_digit a b c :
  ((N_of_ascii a <=? N_of_ascii c)%N && (N_of_ascii c <=? N_of_ascii b)%N) = true ->
  PyStr.isdigit a = true -> PyStr.isdigit b = true -> PyStr.isdigit c = true.
Proof.
  unfold PyStr.isdigit. intros [H1 H2]%andb_prop [Ha _]%andb_prop [_ Hb]%andb_prop.
  apply N.leb_le in H1, H2, Ha, Hb. apply andb_true_intro.
  split; apply N.leb_le; lia.
Qed.

Lemma day_directive_inv w g :
  matches day_directive w g ->
  g = [] /\ (w ∈ days_spelled.*2 \/ exists c, w = String " " (String c "")).
Proof.
  intros H. unfold day_directive, between in H. cbn [literal] in H.
  invert_alternatives; invert_matches;
    repeat match goal with
           | H : Ascii.eqb _ _ = true |- _ => apply Ascii.eqb_eq in H; subst
           end;
    rewrite ?append_cons, ?append_nil; (split; [done|]);
    try (right; by eexists); left.
  all: repeat match goal with
         | H : (_ && _) = true |- _ =>
             match type of H with
             | context [N_of_ascii ?c] =>
                 is_var c; destruct c as [[] [] [] [] [] [] [] []]; try discriminate H;
                 clear H
             end
         | H : PyStr.isdigit ?c = true |- _ =>
             is_var c; destruct c as [[] [] [] [] [] [] [] []]; try discriminate H;
             clear H
         end.
  all: apply (bool_decide_unpack _); by vm_compute.
Qed.

Lemma days_spelled_inv d w :
  (d, w) ∈ days_spelled -> 1 <= d <= 31 /\ w ∈ day_spellings d.
Proof.
  unfold days_spelled. intros (d' & Hw & Hd%elem_of_seqZ)%list_elem_of_bind.
  apply list_elem_of_fmap in Hw as (w' & [= <- <-] & Hw). split; [lia|done].
Qed.

Lemma format_pattern_inv text caps rest :
  re_match format_pattern text = Some (caps, rest) ->
  exists wd sp1 wB sp2 wY,
    text = wd ++ sp1 ++ wB ++ sp2 ++ wY ++ rest
    /\ caps = [wd; wB; wY]
    /\ (wd ∈ days_spelled.*2 \/ exists c, wd = String " " (String c ""))
    /\ sp1 <> "" /\ PyStr.all PyStr.isspace sp1 = true
    /\ PyStr.lower wB ∈ month_names
    /\ sp2 <> "" /\ PyStr.all PyStr.isspace sp2 = true
    /\ String.length wY = 4%nat /\ PyStr.all PyStr.isdigit wY = true.
Proof.
  unfold re_match. intros (w & s' & g & -> & Hm & [= <- <-])%match_re_sound.
  unfold format_pattern in Hm. invert_matches.
  repeat match goal with
         | H : matches day_directive _ _ |- _ => apply day_directive_inv in H as [-> H]
         | H : matches month_directive _ _ |- _ => apply month_directive_inv in H as [-> H]
         | H : matches year_directive _ _ |- _ =>
             apply year_directive_inv in H as (-> & ? & ?)
         end.
  match goal with
  | |- exists wd sp1 wB sp2 wY, (?a ++ ?b ++ ?c ++ ?d ++ ?e) ++ _ = _ /\ _ =>
      exists a, b, c, d, e
  end.
  split.
  { repeat (rewrite <- append_assoc || rewrite append_cons || rewrite append_nil).
    done. }
  split; [done|]. split; [done|].
  split; [intros ->; simpl in *; lia|]. split; [done|]. split; [done|].
  split; [intros ->; simpl in *; lia|]. done.
Qed.

Lemma space_not_digit c : PyStr.isspace c = true -> PyStr.isdigit c = false.
Proof. destruct c as [[] [] [] [] [] [] [] []]; try reflexivity; discriminate. Qed.

Lemma month_name_word name :
  name ∈ month_names -> name <> "" /\ PyStr.all isword name = true.
Proof.
  assert (Forall (fun n => n <> "" /\ PyStr.all isword n = true) month_names) as Hall
    by (by repeat constructor).
  rewrite Forall_forall in Hall. apply Hall.
Qed.

(** A text that begins with a character of the class, or one outside. *)
Lemma stops_append cls (w s : string) :
  w <> "" -> PyStr.all (fun c => negb (cls c)) w = true -> stops cls (w ++ s).
Proof.
  destruct w as [|c w]; [done|]. intros _ [Hc _]%andb_prop.
  rewrite append_cons. simpl. by apply negb_true_iff.
Qed.

Lemma append_nil_r (s : string) : s ++ "" = s.
Proof. induction s as [|c s IH]; [done|]. by rewrite append_cons, IH. Qed.

Lemma strptime_inv (day_text month_text year_text : string) dt :
  day_text <> "" -> PyStr.all PyStr.isdigit day_text = true ->
  month_text <> "" -> PyStr.all isword month_text = true ->
  String.length year_text = 4%nat -> PyStr.all PyStr.isdigit year_text = true ->
  strptime (day_text ++ " " ++ month_text ++ " " ++ year_text) = Some dt ->
  year_text = four_digits (year dt)
  /\ 1 <= year dt <= 9999 /\ 1 <= month dt <= 12
  /\ 1 <= day dt <= days_in_month (year dt) (month dt)
  /\ day_text ∈ day_spellings (day dt)
  /\ month_names !! Z.to_nat (month dt - 1) = Some (PyStr.lower month_text).
Proof.
  intros Hdne Hdd Hmne Hmw Hyl Hyd. unfold strptime.
  destruct (re_match format_pattern _) as [[caps rest]|] eqn:E; [|done].
  apply format_pattern_inv in E
    as (wd & sp1 & wB & sp2 & wY & Heq & -> & Hwd & H1ne & H1 & HB & H2ne & H2 & HYl & HYd).
  destruct rest as [|? ?]; [|done]. rewrite append_nil_r in Heq.
  assert (forall sp, sp <> "" -> PyStr.all PyStr.isspace sp = true ->
            forall cls s, (forall c, PyStr.isspace c = true -> cls c = false) ->
            stops cls (sp ++ s)) as Hsp.
  { intros [|c sp] Hne Hall cls s Hcls; [done|]. rewrite append_cons. simpl in *.
    apply andb_prop in Hall as [Hc _]. by apply Hcls. }
  assert (forall w, w <> "" -> PyStr.all isword w = true -> forall s,
            stops PyStr.isspace (w ++ s)) as Hword.
  { intros [|c w] Hne Hall s; [done|]. rewrite append_cons. simpl in *.
    apply andb_prop in Hall as [Hc _]. by apply word_not_space. }
  assert (forall w, String.length w = 4%nat -> PyStr.all PyStr.isdigit w = true ->
            stops PyStr.isspace w) as Hyear.
  { intros [|c w] Hl Hall; [done|]. simpl in *.
    apply andb_prop in Hall as [Hc _]. by apply word_not_space, digit_is_word. }
  destruct (month_name_word _ HB) as [HBne HBw].
  assert (wB <> "") as HBne' by (by intros ->).
  apply all_isword_lower in HBw.
  (* the day *)
  destruct Hwd as [Hwd|[c ->]].
  2:{ destruct day_text as [|d0 day_text]; [done|]. rewrite !append_cons in Heq.
      injection Heq as -> _. simpl in Hdd. done. }
  apply list_elem_of_fmap in Hwd as ([d0 wd'] & -> & Hwd). cbn [snd] in *.
  pose proof day_text_digits as Hdigits. rewrite Forall_forall in Hdigits.
  destruct (Hdigits _ Hwd) as [_ Hwdd]. cbn [snd] in Hwdd.
  apply (split_unique PyStr.isdigit) in Heq as [<- Heq]; [|done|done|done|].
  2:{ apply Hsp; [done..|apply space_not_digit]. }
  (* the blanks and the month *)
  apply (split_unique PyStr.isspace " ") in Heq as [<- Heq];
    [|done|done|by apply Hword|by apply Hword].
  apply (split_unique isword) in Heq as [<- Heq]; [|done|done|done|].
  2:{ apply Hsp; [done..|apply space_not_word]. }
  apply (split_unique PyStr.isspace " ") in Heq as [<- <-];
    [|done|done|by apply Hyear|by apply Hyear].
  (* the values *)
  pose proof day_directive_reads as Hday. rewrite Forall_forall in Hday.
  destruct (Hday _ Hwd) as [Hdv _]. cbn [fst snd] in Hdv.
  destruct (days_spelled_inv _ _ Hwd) as [Hd0 Hspell].
  destruct (length_four _ Hyl) as (y1 & y2 & y3 & y4 & ->).
  destruct (PyNum.py_int (String y1 _)) as [y|] eqn:Hy; [|done].
  apply four_digits_of in Hy as [Hy Hyr]; [|done].
  cbn [mbind option_bind].
  destruct (month_number month_names (PyStr.lower month_text) 1) as [m|] eqn:Hm; [|done].
  apply month_number_lookup in Hm as [Hm1 Hml].
  assert (m <= 12) as Hm12.
  { apply lookup_lt_Some in Hml. simpl in Hml. lia. }
  cbn [mbind option_bind]. rewrite Hdv. cbn [mbind option_bind].
  destruct (Z.leb_spec 1 y); [|done].
  destruct (Z.leb_spec d0 (days_in_month y m)); [|done]. simpl.
  intros [= <-]. cbn [year month day]. repeat split; try done; lia.
Qed.

End DatedNamesOnly.

(** X20. [load_daily_data] dates no other file: whenever it gives a file
    a date, the name of the file is a dated name as above (day of one or
    two digits, full English month name in any case, year in four
    digits, at most blanks before the extension) and the date is the one
    the name spells, a date of the calendar.  So a name with an
    abbreviated month, with a day the month does not have, or with the
    year 0000 is skipped. *)
Theorem file_date_only_dated_names (filename : string) (dt : DailyFiles.date) :
  DailyFiles.file_date filename = Some dt ->
  exists day_text month_text blanks rest,
    filename = dated_name day_text month_text (four_digits (DailyFiles.year dt)) blanks rest
    /\ 1 <= DailyFiles.year dt <= 9999
    /\ 1 <= DailyFiles.month dt <= 12
    /\ 1 <= DailyFiles.day dt
         <= DailyFiles.days_in_month (DailyFiles.year dt) (DailyFiles.month dt)
    /\ day_text ∈ day_spellings (DailyFiles.day dt)
    /\ DailyFiles.month_names !! Z.to_nat (DailyFiles.month dt - 1)
       = Some (PyStr.lower month_text)
    /\ PyStr.all PyStr.isspace blanks = true.
Proof.
  unfold DailyFiles.file_date.
  destruct (Regex.re_match DailyFiles.filename_pattern filename) as [[caps rest]|] eqn:E;
    [|done].
  apply filename_pattern_inv in E
    as (day_text & month_text & year_text & blanks & -> & -> & Hdne & Hdd & Hmne & Hmw
        & Hyl & Hyd & Hb).
  intros (-> & Hy & Hm & Hd & Hspell & Hname)%strptime_inv; [|done..].
  by exists day_text, month_text, blanks, rest.
Qed.

(** X20 on a dated name. *)
Lemma file_date_only_dated_names_witness :
  exists day_text month_text blanks rest,
    "1_June_2022.csv" = dated_name day_text month_text (four_digits 2022) blanks rest
    /\ day_text ∈ day_spellings 1
    /\ DailyFiles.month_names !! Z.to_nat (6 - 1) = Some (PyStr.lower month_text).
Proof.
  destruct (file_date_only_dated_names "1_June_2022.csv"
              {| DailyFiles.year := 2022; DailyFiles.month := 6; DailyFiles.day := 1 |}
              eq_refl)
    as (day_text & month_text & blanks & rest & Hname & _ & _ & _ & Hd & Hm & _).
  by exists day_text, month_text, blanks, rest.
Defined.

(** ** The script of the population-weighted simulation *)

Lemma clean_sessions_drawn user_ids games (sessions : list GenerateSessions.session) :
  Forall (drawn_session user_ids games) sessions ->
  GenerateSessions.clean_sessions (Some (GenerateSessions.row_of_session <$> sessions))
  = Ok (GenerateSessions.row_of_session <$> sessions).
Proof.
  intros Hall.
  assert (Forall (fun r => GenerateSessions.positive_duration r = true)
            (GenerateSessions.row_of_session <$> sessions)) as Hpos.
  { apply Forall_fmap. eapply Forall_impl; [exact Hall|].
    intros s (_ & _ & Hd & _). unfold GenerateSessions.positive_duration. simpl.
    apply Z.ltb_lt. lia. }
  assert (Forall (fun r => GenerateSessions.notna r = true)
            (GenerateSessions.row_of_session <$> sessions)) as Hna.
  { apply Forall_fmap, Forall_true. by intros s. }
  rewrite clean_sessions_unfold. simpl default.
  rewrite (assign_durations_drawn _ _ _ Hall). simpl.
  by rewrite (filter_all _ _ Hpos), (filter_all _ _ Hna).
Qed.

(** X21. When the script generate_sessions.py writes its file, the
    frame it writes is the simulated frame itself: the cleaning step
    removes no session and changes no duration, so the file holds
    exactly target_session_count rows, and that count is at least 10. *)
Theorem generate_sessions_main_writes {R : NumpyRandom} (ambient : np_state)
    (data_dir : option (list (list (string * list string))))
    (num_users simulation_days : Z) (start_date : DateTime.datetime)
    (target_session_count : Z) (written : list GenerateSessions.row) :
  GenerateSessionsMain.main ambient data_dir num_users simulation_days start_date
    target_session_count = Ok (Some written) ->
  exists sessions g',
    LoadGameData.generate_sessions ambient data_dir num_users simulation_days
      start_date target_session_count = Some (Ok (sessions, g'))
    /\ written = GenerateSessions.row_of_session <$> sessions
    /\ length written = Z.to_nat target_session_count
    /\ 10 <= target_session_count.
Proof.
  unfold GenerateSessionsMain.main.
  destruct (LoadGameData.generate_sessions _ _ _ _ _ _) as [[[sessions g']|e]|] eqn:Hgen;
    [|done..].
  pose proof Hgen as Hrun. rewrite generate_sessions_unfold in Hrun.
  case_decide as Hc; [done|]. injection Hrun as Hrun.
  apply simulate_user_sessions_ok in Hrun as (Hlen & Hall & Hten).
  rewrite decide_False in Hlen.
  2:{ intros Hnil%weight_items_nil. by apply Hc, game_weights_empty_iff. }
  destruct sessions as [|s rest] eqn:E; [done|]. rewrite <- E in *.
  rewrite (clean_sessions_drawn _ _ _ Hall). simpl. intros [= <-].
  exists sessions, g'. split; [done|]. split; [done|].
  rewrite length_fmap. split; [done|]. apply Hten.
  - intros Hnil%weight_items_nil. by apply Hc, game_weights_empty_iff.
  - rewrite E in Hlen. simpl in Hlen. lia.
Qed.

(** X21 on a directory with one file. *)
Lemma generate_sessions_main_writes_witness :
  let data_dir :=
    Some [ [("Game", ["Dota 2 "; "CS"]); ("Peak Players", ["1,200"; "900"])] ] in
  exists written,
    GenerateSessionsMain.main (R := lcg_numpy) 7 data_dir 3 7
      (DateTime.midnight 738000) 10 = Ok (Some written)
    /\ exists sessions g',
      LoadGameData.generate_sessions (R := lcg_numpy) 7 data_dir 3 7
        (DateTime.midnight 738000) 10 = Some (Ok (sessions, g'))
      /\ written = GenerateSessions.row_of_session <$> sessions
      /\ length written = Z.to_nat 10
      /\ 10 <= 10.
Proof.
  intros data_dir. eexists. split; [vm_compute; reflexivity|].
  refine (generate_sessions_main_writes (R := lcg_numpy) 7 data_dir 3 7
            (DateTime.midnight 738000) 10 _ _).
  vm_compute. reflexivity.
Defined.

(** ** The probabilities of the games *)

Section Probabilities.

Local Open Scope Q_scope.

Lemma sum_nonneg (l : list Q) : Forall (fun w => 1 <= w) l -> 0 <= foldr Qplus 0 l.
Proof.
  induction 1 as [|w l Hw _ IH]; simpl; [apply Qle_refl|].
  apply (Qle_trans _ (0 + 0)); [apply Qle_refl|]. apply Qplus_le_compat; [|done].
  apply (Qle_trans _ 1); [done|exact Hw].
Qed.

Lemma sum_bounds (l : list Q) w :
  Forall (fun w => 1 <= w) l -> w ∈ l -> w <= foldr Qplus 0 l.
Proof.
  intros Hall Hin. induction Hall as [|v l Hv Hall IH]; [by apply elem_of_nil in Hin|].
  simpl. apply elem_of_cons in Hin as [->|Hin].
  - rewrite <- (Qplus_0_r v) at 1. apply Qplus_le_compat; [apply Qle_refl|].
    by apply sum_nonneg.
  - rewrite <- (Qplus_0_l w). apply Qplus_le_compat; [|by apply IH].
    apply (Qle_trans _ 1); [done|exact Hv].
Qed.

Lemma sum_scaled (l : list Q) (total : Q) :
  ~ total == 0 ->
  foldr Qplus 0 ((fun w => w / total) <$> l) == foldr Qplus 0 l / total.
Proof.
  intros Ht. induction l as [|w l IH]; simpl; [by field|].
  rewrite IH. by field.
Qed.

(** Weights that are all at least 1 normalise to a distribution. *)
Lemma normalised_distribution (l : list Q) :
  l <> [] -> Forall (fun w => 1 <= w) l ->
  let total := foldr Qplus 0 l in
  Forall (fun p => 0 < p /\ p <= 1) ((fun w => w / total) <$> l)
  /\ foldr Qplus 0 ((fun w => w / total) <$> l) == 1.
Proof.
  intros Hne Hall total.
  assert (0 < total) as Hpos.
  { destruct l as [|w l]; [done|]. inversion Hall; subst. unfold total. simpl.
    apply (Qlt_le_trans _ (1 + 0)); [done|].
    apply Qplus_le_compat; [done|by apply sum_nonneg]. }
  assert (~ total == 0) as Hnz by (intros E; rewrite E in Hpos; by apply Qlt_irrefl in Hpos).
  split.
  - apply Forall_fmap, Forall_forall. intros w Hw. simpl.
    rewrite Forall_forall in Hall. pose proof (Hall w Hw) as H1.
    pose proof (sum_bounds l w ltac:(by apply Forall_forall) Hw) as Hle.
    fold total in Hle. split.
    + apply Qlt_shift_div_l; [done|]. rewrite Qmult_0_l.
      apply (Qlt_le_trans _ 1); [done|exact H1].
    + apply Qle_shift_div_r; [done|]. by rewrite Qmult_1_l.
  - rewrite sum_scaled by done. fold total. by field.
Qed.

End Probabilities.

Section GameProbabilities.
Import LoadGameData.

Lemma weight_items_at_least_one (all_games_data : list GenerateSessions.frame) :
  Forall (fun w => (1 <= w)%Q)
    (weight_items (GenerateSessions._calculate_game_weights all_games_data)).*2.
Proof.
  unfold weight_items. rewrite <- list_fmap_compose. apply Forall_fmap, Forall_forall.
  intros [name r] Hin. simpl.
  rewrite merge_sort_Permutation in Hin. apply elem_of_map_to_list in Hin.
  apply game_weights_some in Hin as (_ & _ & ->).
  pose proof (dense_rank_pos
                (map_to_list (GenerateSessions.group_mean (concat all_games_data))).*2
                (arithmetic_mean (peaks_of name (concat all_games_data)))) as Hpos.
  rewrite Zle_Qle in Hpos. exact Hpos.
Qed.

End GameProbabilities.

(** X22. The weights [_calculate_game_weights] returns always normalise
    to a distribution: unless the mapping is empty, the probabilities
    that [_simulate_user_sessions] computes from them and hands to
    np.random.choice are one for each game, each above 0 and at most 1,
    and add up to 1. *)
Theorem game_probabilities_distribution {R : NumpyRandom}
    (all_games_data : list GenerateSessions.frame) :
  let game_weights :=
    LoadGameData.weight_items (GenerateSessions._calculate_game_weights all_games_data) in
  let probabilities :=
    (fun w => w / foldr Qplus 0 game_weights.*2)%Q <$> game_weights.*2 in
  game_weights <> [] ->
  length probabilities = length game_weights.*1
  /\ Forall (fun p => (0 < p)%Q /\ (p <= 1)%Q) probabilities
  /\ (foldr Qplus 0 probabilities == 1)%Q
  /\ forall ambient num_users simulation_days start_date target_session_count,
       GenerateSessions._simulate_user_sessions ambient game_weights num_users
         simulation_days start_date target_session_count
       = GenerateSessions.simulate_loop game_weights.*1 probabilities
           (user_pool num_users) simulation_days start_date target_session_count
           (seqZ 0 target_session_count) (np_seed 42) [].
Proof.
  intros game_weights probabilities Hne.
  assert (game_weights.*2 <> []) as Hne2 by (by destruct game_weights).
  destruct (normalised_distribution game_weights.*2 Hne2
              (weight_items_at_least_one all_games_data)) as [Hall Hsum].
  split; [unfold probabilities; by rewrite !length_fmap|].
  split; [done|]. split; [done|].
  intros. by apply simulate_user_sessions_unfold.
Qed.

(** X22 on the weights of three games. *)
Lemma game_probabilities_distribution_witness :
  let game_weights :=
    LoadGameData.weight_items
      (GenerateSessions._calculate_game_weights [[("b", 3); ("a", 5); ("C", 1)]]) in
  let probabilities :=
    (fun w => w / foldr Qplus 0 game_weights.*2)%Q <$> game_weights.*2 in
  Forall (fun p => (0 < p)%Q /\ (p <= 1)%Q) probabilities
  /\ (foldr Qplus 0 probabilities == 1)%Q.
Proof.
  intros game_weights probabilities.
  destruct (game_probabilities_distribution (R := lcg_numpy)
              [[("b", 3); ("a", 5); ("C", 1)]]) as (_ & Hall & Hsum & _).
  - by vm_compute.
  - by split.
Defined.

(** ** The size of the per-record log *)

Section PerRecordMainSize.
Import SimulateSessions.
Context {R : PyRandom} (cfg : config).





End PerRecordMainSize.


